(** * Route53-Backup: a shallow embedding of the three Lambda handlers

    The repository holds three Python handlers:
    - [backup_lambda.py]: one backup document per hosted zone, keyed by
      timestamp and zone name;
    - [backup-lambda-with-multiple-hostedzone-name.py]: the same, keyed by
      timestamp, zone name and zone id, plus a per-name summary document;
    - [restore_lambda.py]: re-creates the records of one backup document in
      batches of 100.

    The handlers are embedded as computations in a state-and-exception monad
    over a [World] that holds the process environment, the clock, the S3
    objects and the Route 53 side (zones, record pages, submitted change
    batches).  Service failures are driven by a fault schedule indexed by the
    number of service calls made so far. *)

From Stdlib Require Import Ascii String ZArith Lia.
From stdpp Require Import base option list gmap strings.

Local Open Scope Z_scope.
Local Open Scope nat_scope.
Local Set Warnings "-register-all".

(** ** Python values *)

(** The exceptions the handlers can meet.  [ClientError] is botocore's
    service-side error (it carries the operation name and
    [response['Error']['Code']] and [['Message']]); the other
    constructors are the built-in exceptions raised by subscripting,
    iteration and [json.loads], and botocore's client-side errors, none of
    which derives from [ClientError]. *)
Inductive exn : Type :=
  | ClientError (operation code message : string)
  | KeyError (key : string)
  | TypeError (message : string)
  | ValueError (message : string)
  | BotoCoreError (message : string).

Definition is_ClientError (e : exn) : bool :=
  match e with ClientError _ _ _ => true | _ => false end.

(** [str(e)] *)
Definition str (e : exn) : string :=
  match e with
  | ClientError operation code message =>
      "An error occurred (" +:+ code +:+ ") when calling the " +:+ operation
      +:+ " operation: " +:+ message
  | KeyError key => "'" +:+ key +:+ "'"
  | TypeError message => message
  | ValueError message => message
  | BotoCoreError message => message
  end.

(** What [json.loads] returns and [json.dumps] accepts.  A [dict] is kept as
    an association list in insertion order (a dict holds a key once);
    subscripting finds the binding of a key. *)
Inductive json : Type :=
  | JNull
  | JBool (b : bool)
  | JInt (n : Z)
  | JString (s : string)
  | JList (l : list json)
  | JDict (d : list (string * json)).

Fixpoint assoc (k : string) (d : list (string * json)) : option json :=
  match d with
  | [] => None
  | (k', v) :: d' => if String.eqb k' k then Some v else assoc k d'
  end.

(** [j[k]] for a string key [k]. *)
Definition getitem (j : json) (k : string) : exn + json :=
  match j with
  | JDict d =>
      match assoc k d with
      | Some v => inr v
      | None => inl (KeyError k)
      end
  | JList _ => inl (TypeError "list indices must be integers or slices, not str")
  | JString _ => inl (TypeError "string indices must be integers, not 'str'")
  | _ => inl (TypeError "object is not subscriptable")
  end.

Fixpoint chars (s : string) : list json :=
  match s with
  | EmptyString => []
  | String c s' => JString (String c EmptyString) :: chars s'
  end.

(** [for r in j]: a list yields its elements, a dict its keys, a string its
    characters; nothing else is iterable. *)
Definition iter (j : json) : exn + list json :=
  match j with
  | JList l => inr l
  | JDict d => inr (map (fun kv => JString (fst kv)) d)
  | JString s => inr (chars s)
  | _ => inl (TypeError "object is not iterable")
  end.

(** [j == s] for a string literal [s]: only the string [s] itself is equal
    to it. *)
Definition eq_str (j : json) (s : string) : bool :=
  match j with
  | JString t => String.eqb t s
  | _ => false
  end.

(** [j in [s1, ..., sn]] for string literals. *)
Definition in_strs (j : json) (l : list string) : bool :=
  existsb (eq_str j) l.

(** [range(start, stop, step)] for a positive step; [stop] bounds the number
    of iterations. *)
Fixpoint range_from (fuel start stop step : nat) : list nat :=
  match fuel with
  | O => []
  | S fuel' =>
      if start <? stop
      then start :: range_from fuel' (start + step) stop step
      else []
  end.

Definition range (start stop step : nat) : list nat :=
  range_from stop start stop step.

(** [l[i:j]] for [0 <= i <= j]. *)
Definition slice {A} (l : list A) (i j : nat) : list A :=
  take (j - i) (drop i l).

(** ** Strings *)

(** [s.split(sep)] for a one-character separator: never empty. *)
Fixpoint split (sep : ascii) (s : string) : list string :=
  match s with
  | EmptyString => [EmptyString]
  | String c s' =>
      if Ascii.eqb c sep then EmptyString :: split sep s'
      else match split sep s' with
           | h :: t => String c h :: t
           | [] => [String c EmptyString]
           end
  end.

(** [l[-1]] on the result of [split]. *)
Definition last_item (l : list string) : string := List.last l EmptyString.

(** [s.rstrip(ch)] for a one-character set: all trailing [ch] are dropped. *)
Fixpoint rstrip (ch : ascii) (s : string) : string :=
  match s with
  | EmptyString => EmptyString
  | String c s' =>
      match rstrip ch s' with
      | EmptyString => if Ascii.eqb c ch then EmptyString else String c EmptyString
      | r => String c r
      end
  end.

(** ** The clock *)

Record datetime : Type := {
  year : nat; month : nat; day : nat;
  hour : nat; minute : nat; second : nat
}.

Definition digit (n : nat) : ascii := ascii_of_nat (48 + n mod 10).

(** The last [w] decimal digits of [n], most significant first: the
    zero-padded rendering of a field that fits in [w] digits. *)
Fixpoint zero_padded (w n : nat) : string :=
  match w with
  | O => EmptyString
  | S w' => zero_padded w' (n / 10) +:+ String (digit n) EmptyString
  end.

(** [dt.strftime(fmt)] for the directives the handlers use; the fields of a
    [datetime] fit their widths (the year of a clock reading has four
    digits). *)
Fixpoint strftime (dt : datetime) (fmt : string) : string :=
  match fmt with
  | EmptyString => EmptyString
  | String "%" (String d fmt') =>
      (if Ascii.eqb d "Y" then zero_padded 4 (year dt)
       else if Ascii.eqb d "m" then zero_padded 2 (month dt)
       else if Ascii.eqb d "d" then zero_padded 2 (day dt)
       else if Ascii.eqb d "H" then zero_padded 2 (hour dt)
       else if Ascii.eqb d "M" then zero_padded 2 (minute dt)
       else if Ascii.eqb d "S" then zero_padded 2 (second dt)
       else String "%" (String d EmptyString)) +:+ strftime dt fmt'
  | String c fmt' => String c (strftime dt fmt')
  end.

(** ** The world outside the handler *)

(** An S3 object body: either text that [json.loads] accepts, kept as the
    value it decodes to, or any other bytes. *)
Inductive s3_body : Type :=
  | JsonBody (doc : json)
  | RawBody (bytes : string).

(** One element of [list_hosted_zones()['HostedZones']]. *)
Record hosted_zone : Type := { Id : string; Name : string }.

(** One element of [ChangeBatch['Changes']]. *)
Record change : Type := { Action : string; ResourceRecordSet : json }.

Record World : Type := {
  (** the process and the account: read only *)
  environ : gmap string string;
  now : datetime;
  HostedZones : list hosted_zone;
  ResourceRecordSets : string -> list (list json);
  faults : nat -> option exn;
  (** what the run changes *)
  calls : nat;
  objects : gmap (string * string) s3_body;
  puts : list (string * string * json);
  submitted : list (string * list change);
  applied : list (string * list change)
}.

(** [calls] counts the service calls made so far and [faults w n] is the
    failure, if any, of the call made when [calls] is [n]; [puts] and
    [submitted] log every [put_object] and [change_resource_record_sets]
    request in call order, [objects] and [applied] hold what the services
    accepted. *)

Definition called (w : World) : World :=
  {| environ := environ w; now := now w; HostedZones := HostedZones w;
     ResourceRecordSets := ResourceRecordSets w; faults := faults w;
     calls := S (calls w); objects := objects w; puts := puts w;
     submitted := submitted w; applied := applied w |}.

Definition requested_put (bucket key : string) (doc : json) (w : World) : World :=
  {| environ := environ w; now := now w; HostedZones := HostedZones w;
     ResourceRecordSets := ResourceRecordSets w; faults := faults w;
     calls := calls w; objects := objects w;
     puts := puts w ++ [(bucket, key, doc)];
     submitted := submitted w; applied := applied w |}.

Definition stored (bucket key : string) (doc : json) (w : World) : World :=
  {| environ := environ w; now := now w; HostedZones := HostedZones w;
     ResourceRecordSets := ResourceRecordSets w; faults := faults w;
     calls := calls w;
     objects := <[(bucket, key) := JsonBody doc]> (objects w);
     puts := puts w; submitted := submitted w; applied := applied w |}.

Definition requested_change (zone : string) (changes : list change) (w : World) : World :=
  {| environ := environ w; now := now w; HostedZones := HostedZones w;
     ResourceRecordSets := ResourceRecordSets w; faults := faults w;
     calls := calls w; objects := objects w; puts := puts w;
     submitted := submitted w ++ [(zone, changes)]; applied := applied w |}.

Definition accepted_change (zone : string) (changes : list change) (w : World) : World :=
  {| environ := environ w; now := now w; HostedZones := HostedZones w;
     ResourceRecordSets := ResourceRecordSets w; faults := faults w;
     calls := calls w; objects := objects w; puts := puts w;
     submitted := submitted w; applied := applied w ++ [(zone, changes)] |}.

(** ** Computations: state and exceptions *)

(** A computation runs in a world and ends in a value or a raised exception,
    and in the world it leaves behind: an exception undoes nothing. *)
Definition M (A : Type) : Type := World -> (exn + A) * World.

Definition ret {A} (a : A) : M A := fun w => (inr a, w).

Definition raise {A} (e : exn) : M A := fun w => (inl e, w).

Definition bind {A B} (m : M A) (k : A -> M B) : M B :=
  fun w =>
    match m w with
    | (inr a, w') => k a w'
    | (inl e, w') => (inl e, w')
    end.

Declare Scope py_scope.
Delimit Scope py_scope with py.
Notation "x <- m ;; k" := (bind m (fun x => k))
  (at level 100, m at next level, right associativity) : py_scope.
Notation "m ;;; k" := (bind m (fun _ => k))
  (at level 100, right associativity) : py_scope.
Local Open Scope py_scope.

(** A pure step that may raise. *)
Definition lift {A} (r : exn + A) : M A :=
  match r with
  | inr a => ret a
  | inl e => raise e
  end.

(** [try: m  except <catches> as e: handler e]: an exception the clause does
    not catch goes on. *)
Definition try_except {A} (m : M A) (catches : exn -> bool) (handler : exn -> M A) : M A :=
  fun w =>
    match m w with
    | (inr a, w') => (inr a, w')
    | (inl e, w') => if catches e then handler e w' else (inl e, w')
    end.

(** [for x in l: body x] *)
Fixpoint for_each {A} (l : list A) (body : A -> M unit) : M unit :=
  match l with
  | [] => ret tt
  | x :: l' => body x ;;; for_each l' body
  end.

(** [for x in l: acc = body acc x], for a loop that updates local variables. *)
Fixpoint for_fold {A S} (l : list A) (acc : S) (body : S -> A -> M S) : M S :=
  match l with
  | [] => ret acc
  | x :: l' => acc' <- body acc x ;; for_fold l' acc' body
  end.

(** ** The services *)

(** Every service call counts as one call and fails when the fault schedule
    says so, before it has any effect. *)
Definition service {A} (op : M A) : M A :=
  fun w =>
    match faults w (calls w) with
    | Some e => (inl e, called w)
    | None => op (called w)
    end.

(** [os.environ[name]] *)
Definition os_environ (name : string) : M string :=
  fun w =>
    match environ w !! name with
    | Some v => (inr v, w)
    | None => (inl (KeyError name), w)
    end.

(** [datetime.datetime.now()] *)
Definition datetime_now : M datetime := fun w => (inr (now w), w).

(** [s3.get_object(Bucket=bucket, Key=key)['Body'].read()] *)
Definition get_object (bucket key : string) : M s3_body :=
  service (fun w =>
    match objects w !! (bucket, key) with
    | Some b => (inr b, w)
    | None => (inl (ClientError "GetObject" "NoSuchKey" "The specified key does not exist."), w)
    end).

(** [json.loads(body.decode('utf-8'))] *)
Definition json_loads (b : s3_body) : M json :=
  match b with
  | JsonBody doc => ret doc
  | RawBody _ => raise (ValueError "Expecting value")
  end.

(** [s3.put_object(Bucket=bucket, Key=key, Body=json.dumps(doc, indent=4).encode('utf-8'))]:
    whatever the key held is replaced. *)
Definition put_object (bucket key : string) (doc : json) : M unit :=
  fun w =>
    service (fun w' => (inr tt, stored bucket key doc w'))
            (requested_put bucket key doc w).

(** [route53.list_hosted_zones()['HostedZones']] *)
Definition list_hosted_zones : M (list hosted_zone) :=
  service (fun w => (inr (HostedZones w), w)).

(** One page of [paginator.paginate(HostedZoneId=zone_id)]. *)
Definition fetch_page (page : list json) : M (list json) :=
  service (ret page).

(** [route53.change_resource_record_sets(HostedZoneId=zone, ChangeBatch={'Changes': changes})]:
    a batch is applied whole or not at all. *)
Definition change_resource_record_sets (zone : string) (changes : list change) : M unit :=
  fun w =>
    service (fun w' => (inr tt, accepted_change zone changes w'))
            (requested_change zone changes w).

(** What a handler returns: [{'statusCode': ..., 'body': json.dumps({...})}],
    with the body kept as the dict that is serialised. *)
Record response : Type := {
  statusCode : Z;
  body : list (string * json)
}.

(** ** [restore_lambda.py] *)

Module Restore.

Definition batch_size : nat := 100.

(** [[r for r in items if r['Type'] not in ['NS', 'SOA']]]: the records are
    visited in order and the first failing subscript ends the
    comprehension. *)
Fixpoint keep_records (items : list json) : exn + list json :=
  match items with
  | [] => inr []
  | r :: items' =>
      match getitem r "Type" with
      | inl e => inl e
      | inr t =>
          match keep_records items' with
          | inl e => inl e
          | inr rest => inr (if in_strs t ["NS"; "SOA"] then rest else r :: rest)
          end
      end
  end.

Definition filtered_records (records : json) : exn + list json :=
  match iter records with
  | inl e => inl e
  | inr items => keep_records items
  end.

Definition changes (batch : list json) : list change :=
  map (fun record => {| Action := "CREATE"; ResourceRecordSet := record |}) batch.

(** The batching loop, lines 34-42. *)
Definition restore_batches (hosted_zone_id : string) (filtered : list json) : M unit :=
  for_each (range 0 (length filtered) batch_size) (fun i =>
    let batch := slice filtered i (i + batch_size) in
    change_resource_record_sets hosted_zone_id (changes batch)).

Definition completed (hosted_zone_id : string) : response :=
  {| statusCode := 200;
     body := [("message", JString "Restore operation completed");
              ("restored_zone_id", JString hosted_zone_id)] |}.

Definition failed (e : exn) : response :=
  {| statusCode := 500;
     body := [("message", JString "Restore operation failed");
              ("error", JString (str e))] |}.

(** The [try] block, lines 16-50. *)
Definition run (event : gmap string string) : M response :=
  backup_bucket <- os_environ "BACKUP_BUCKET" ;;
  backup_key <- lift (from_option inr (inl (KeyError "backup_key")) (event !! "backup_key")) ;;
  hosted_zone_id <- lift (from_option inr (inl (KeyError "hosted_zone_id")) (event !! "hosted_zone_id")) ;;
  response <- get_object backup_bucket backup_key ;;
  backup_data <- json_loads response ;;
  records <- lift (getitem backup_data "records") ;;
  filtered <- lift (filtered_records records) ;;
  restore_batches hosted_zone_id filtered ;;;
  ret (completed hosted_zone_id).

(** [except ClientError as e], lines 52-60: nothing else is caught. *)
Definition lambda_handler (event : gmap string string) : M response :=
  try_except (run event) is_ClientError (fun e => ret (failed e)).

End Restore.

(** ** What the two backup handlers share *)

(** [zone['Id'].split('/')[-1]] *)
Definition zone_id (zone : hosted_zone) : string :=
  last_item (split "/" (Id zone)).

(** [zone['Name'].rstrip('.')] *)
Definition zone_name (zone : hosted_zone) : string :=
  rstrip "." (Name zone).

(** Lines 43-46 of the collision-aware handler (33-36 of the basic one): the
    pages of the record listing are fetched one by one and their record sets
    appended. *)
Definition fetch_records (zone_id : string) : M (list json) :=
  fun w =>
    for_fold (ResourceRecordSets w zone_id) []
      (fun records page => sets <- fetch_page page ;; ret (records ++ sets)) w.

Definition backup_failed (e : exn) : response :=
  {| statusCode := 500;
     body := [("message", JString "Backup operation failed");
              ("error", JString (str e))] |}.

(** ** [backup_lambda.py] *)

Module Backup.

Definition date_format : string := "%Y%m%d_%H%M%S".

Definition backup_data (zone : hosted_zone) (records : list json) : json :=
  JDict [("zone", JDict [("Id", JString (zone_id zone));
                         ("Name", JString (zone_name zone))]);
         ("records", JList records)].

Definition backup_file_key (current_date : string) (zone : hosted_zone) : string :=
  current_date +:+ "/" +:+ zone_name zone +:+ "/route53_backup.json".

(** The body of the loop over the zones, lines 29-55. *)
Definition backup_zone (backup_bucket current_date : string) (zone : hosted_zone) : M unit :=
  records <- fetch_records (zone_id zone) ;;
  put_object backup_bucket (backup_file_key current_date zone)
             (backup_data zone records).

Definition completed (backup_bucket current_date : string) : response :=
  {| statusCode := 200;
     body := [("message", JString "Backup operation completed");
              ("backup_bucket", JString backup_bucket);
              ("date", JString current_date)] |}.

(** The [try] block, lines 15-66. *)
Definition run : M response :=
  backup_bucket <- os_environ "BACKUP_BUCKET" ;;
  hosted_zones <- list_hosted_zones ;;
  dt <- datetime_now ;;
  let current_date := strftime dt date_format in
  for_each hosted_zones (backup_zone backup_bucket current_date) ;;;
  ret (completed backup_bucket current_date).

(** [except Exception as e], lines 68-76. *)
Definition lambda_handler : M response :=
  try_except run (fun _ => true) (fun e => ret (backup_failed e)).

End Backup.

(** ** [backup-lambda-with-multiple-hostedzone-name.py] *)

Module BackupMulti.

Definition date_format : string := "%Y-%m-%d_%H:%M:%S".

Definition record_count (records : list json) : json :=
  JInt (Z.of_nat (length records)).

Definition backup_data (zone : hosted_zone) (records : list json) : json :=
  JDict [("zone", JDict [("Id", JString (zone_id zone));
                         ("Name", JString (zone_name zone));
                         ("RecordCount", record_count records)]);
         ("records", JList records)].

Definition backup_file_key (current_date : string) (zone : hosted_zone) : string :=
  current_date +:+ "/" +:+ zone_name zone +:+ "/" +:+ zone_id zone
    +:+ "/route53_backup.json".

Definition summary_file_key (current_date name : string) : string :=
  current_date +:+ "/" +:+ name +:+ "/zone_summary.json".

Definition summary_data (current_date : string) (zone : hosted_zone)
    (records : list json) : json :=
  JDict [("zone_name", JString (zone_name zone));
         ("zone_id", JString (zone_id zone));
         ("record_count", record_count records);
         ("backup_path", JString (backup_file_key current_date zone))].

(** Lines 37-40: the count of the name is raised before anything else is
    done for the zone. *)
Definition count_name (name : string) (zone_name_count : gmap string nat)
    : gmap string nat :=
  match zone_name_count !! name with
  | Some n => <[name := n + 1]> zone_name_count
  | None => <[name := 1]> zone_name_count
  end.

(** Lines 88-91: what an existing summary becomes. *)
Definition appended (existing entry : json) : json :=
  match existing with
  | JList l => JList (l ++ [entry])
  | other => JList [other; entry]
  end.

(** Lines 81-96: the inner [try] with its [except ClientError]. *)
Definition summary_content (backup_bucket key : string) (entry : json) : M json :=
  try_except
    (existing_summary <- get_object backup_bucket key ;;
     existing <- json_loads existing_summary ;;
     ret (appended existing entry))
    is_ClientError
    (fun e =>
       match e with
       | ClientError _ code _ =>
           if String.eqb code "NoSuchKey" then ret (JList [entry]) else raise e
       | _ => raise e
       end).

(** Lines 80-103. *)
Definition write_summary (backup_bucket key : string) (entry : json) : M unit :=
  content <- summary_content backup_bucket key entry ;;
  put_object backup_bucket key content.

(** The body of the loop over the zones, lines 33-103; the dictionary
    [zone_name_count] is the loop's only local state. *)
Definition backup_zone (backup_bucket current_date : string)
    (zone_name_count : gmap string nat) (zone : hosted_zone)
    : M (gmap string nat) :=
  let zone_name_count := count_name (zone_name zone) zone_name_count in
  records <- fetch_records (zone_id zone) ;;
  put_object backup_bucket (backup_file_key current_date zone)
             (backup_data zone records) ;;;
  n <- lift (from_option inr (inl (KeyError (zone_name zone)))
               (zone_name_count !! zone_name zone)) ;;
  (if 1 <? n
   then write_summary backup_bucket
          (summary_file_key current_date (zone_name zone))
          (summary_data current_date zone records)
   else ret tt) ;;;
  ret zone_name_count.

Definition backed_up (zone : hosted_zone) : json :=
  JString (zone_name zone +:+ " (ID: " +:+ zone_id zone +:+ ")").

Definition completed (backup_bucket current_date : string)
    (hosted_zones : list hosted_zone) : response :=
  {| statusCode := 200;
     body := [("message", JString "Backup operation completed");
              ("backup_bucket", JString backup_bucket);
              ("date", JString current_date);
              ("zones_backed_up", JList (map backed_up hosted_zones))] |}.

(** The [try] block, lines 16-118. *)
Definition run : M response :=
  backup_bucket <- os_environ "BACKUP_BUCKET" ;;
  hosted_zones <- list_hosted_zones ;;
  dt <- datetime_now ;;
  let current_date := strftime dt date_format in
  for_fold hosted_zones ∅ (backup_zone backup_bucket current_date) ;;;
  ret (completed backup_bucket current_date hosted_zones).

(** [except Exception as e], lines 120-128. *)
Definition lambda_handler : M response :=
  try_except run (fun _ => true) (fun e => ret (backup_failed e)).

End BackupMulti.


(** ** Vocabulary of the statements *)

(** The characters of a string. *)
Definition letters (s : string) : list ascii := String.list_ascii_of_string s.

Definition is_digit (c : ascii) : Prop := 48 <= nat_of_ascii c <= 57.

(** [n / d] rounded up. *)
Definition ceil_div (n d : nat) : nat := (n + d - 1) / d.

(** The batches of the restore loop, in loop order: the slices
    [filtered[i:i + batch_size]] at the indices [i] the [range] yields. *)
Definition batches (filtered : list json) : list (list json) :=
  map (fun i => slice filtered i (i + Restore.batch_size))
      (range 0 (length filtered) Restore.batch_size).

(** The request the restore loop sends for one batch. *)
Definition request (hosted_zone_id : string) (batch : list json) : string * list change :=
  (hosted_zone_id, Restore.changes batch).

(** The restore run reaches its batching loop with the filtered records
    [filtered] for zone [zone]: the bucket is configured, the event names a
    key and a zone, the read of the key succeeds and yields a document whose
    [records] can be filtered. *)
Definition restore_reads (event : gmap string string) (w : World)
    (zone : string) (filtered : list json) : Prop :=
  exists bucket key doc records,
    environ w !! "BACKUP_BUCKET" = Some bucket
    /\ event !! "backup_key" = Some key
    /\ event !! "hosted_zone_id" = Some zone
    /\ faults w (calls w) = None
    /\ objects w !! (bucket, key) = Some (JsonBody doc)
    /\ getitem doc "records" = inr records
    /\ Restore.filtered_records records = inr filtered.

(** A world seen from the restore loop: everything but the Route 53 logs
    and the call counter is left alone. *)
Definition restore_frame (w w' : World) : Prop :=
  environ w' = environ w /\ now w' = now w /\ faults w' = faults w
  /\ objects w' = objects w /\ puts w' = puts w.

(** Two object bodies that agree on what the restore handler reads of them. *)
Definition same_records (b1 b2 : option s3_body) : Prop :=
  match b1, b2 with
  | Some (JsonBody d1), Some (JsonBody d2) => getitem d1 "records" = getitem d2 "records"
  | Some (RawBody _), Some (RawBody _) => True
  | None, None => True
  | _, _ => False
  end.

(** No service call fails. *)
Definition fault_free (w : World) : Prop := forall i, faults w i = None.

(** The account and the process are the same in both worlds. *)
Definition same_account (w w' : World) : Prop :=
  environ w' = environ w /\ now w' = now w /\ HostedZones w' = HostedZones w
  /\ ResourceRecordSets w' = ResourceRecordSets w /\ faults w' = faults w.

(** All record sets of a zone, page after page. *)
Definition all_records (w : World) (zone : hosted_zone) : list json :=
  concat (ResourceRecordSets w (zone_id zone)).

(** The zones of a listing that carry the name [name], in listing order. *)
Definition named (name : string) (zones : list hosted_zone) : list hosted_zone :=
  filter (fun zone => zone_name zone = name) zones.

(** The keys the collision-aware run writes for [zones], in order, when the
    names in [seen] have been met before: the backup key of each zone,
    followed by the summary key of its name when the name has been met. *)
Fixpoint written_keys (bucket date : string) (seen : list string)
    (zones : list hosted_zone) : list (string * string) :=
  match zones with
  | [] => []
  | zone :: zones' =>
      (bucket, BackupMulti.backup_file_key date zone)
      :: (if bool_decide (zone_name zone ∈ seen)
          then [(bucket, BackupMulti.summary_file_key date (zone_name zone))]
          else [])
      ++ written_keys bucket date (seen ++ [zone_name zone]) zones'
  end.

(** What the summary of a name holds once the zones [zones] are done, on a
    key that held nothing before the run: nothing while the name has been met
    at most once, else the entries of all its zones but the first. *)
Definition summary_after (entry : hosted_zone -> json) (name : string)
    (zones : list hosted_zone) : option s3_body :=
  match drop 1 (named name zones) with
  | [] => None
  | later => Some (JsonBody (JList (map entry later)))
  end.

(** The state of the collision-aware loop once the zones [done] are done:
    the counts, the summaries and the backup documents. *)
Definition multi_inv (bucket date : string) (w0 : World) (done : list hosted_zone)
    (zone_name_count : gmap string nat)
    (objs : gmap (string * string) s3_body) : Prop :=
  (forall name,
     zone_name_count !! name
     = match length (named name done) with 0 => None | k => Some k end)
  /\ (forall name,
        objs !! (bucket, BackupMulti.summary_file_key date name)
        = summary_after (fun zone => BackupMulti.summary_data date zone (all_records w0 zone))
            name done)
  /\ (forall zone,
        zone ∈ done ->
        objs !! (bucket, BackupMulti.backup_file_key date zone)
        = Some (JsonBody (BackupMulti.backup_data zone (all_records w0 zone)))).

(** ** Sample inputs *)

Definition sample_now : datetime :=
  {| year := 2024; month := 3; day := 7; hour := 9; minute := 5; second := 0 |}.

Definition sample_record (type name : string) : json :=
  JDict [("Name", JString name); ("Type", JString type); ("TTL", JInt 300)].

Definition sample_records : list json :=
  [sample_record "NS" "example.com."; sample_record "SOA" "example.com.";
   sample_record "A" "www.example.com."; sample_record "CNAME" "m.example.com."].

Definition sample_document (records : list json) : json :=
  JDict [("zone", JDict [("Id", JString "Z1"); ("Name", JString "example.com")]);
         ("records", JList records)].

Definition sample_key : string := "20240307_090500/example.com/route53_backup.json".

Definition sample_event : gmap string string :=
  {[ "backup_key" := sample_key; "hosted_zone_id" := "Z9" ]}.

(** A world with the bucket configured, [doc] stored under [sample_key], the
    zones [zones], each with one page of [sample_records], and the fault
    schedule [schedule]. *)
Definition sample_world (doc : option json) (zones : list hosted_zone)
    (schedule : nat -> option exn) : World :=
  {| environ := {[ "BACKUP_BUCKET" := "dns-backups" ]};
     now := sample_now;
     HostedZones := zones;
     ResourceRecordSets := fun _ => [sample_records];
     faults := schedule;
     calls := 0;
     objects := from_option (fun d => {[ ("dns-backups", sample_key) := JsonBody d ]}) ∅ doc;
     puts := []; submitted := []; applied := [] |}.

(** The same records under other zone metadata. *)
Definition other_document (records : list json) : json :=
  JDict [("zone", JDict [("Id", JString "Z7"); ("Name", JString "example.org");
                         ("RecordCount", JInt 4)]);
         ("records", JList records)].

Definition sample_zones : list hosted_zone :=
  [{| Id := "/hostedzone/Z1"; Name := "example.com." |};
   {| Id := "/hostedzone/Z2"; Name := "example.com." |};
   {| Id := "/hostedzone/Z3"; Name := "other.com." |}].

(** The same world with [BACKUP_BUCKET] unset. *)
Definition without_bucket (w : World) : World :=
  {| environ := delete "BACKUP_BUCKET" (environ w); now := now w;
     HostedZones := HostedZones w; ResourceRecordSets := ResourceRecordSets w;
     faults := faults w; calls := calls w; objects := objects w; puts := puts w;
     submitted := submitted w; applied := applied w |}.

(** The same world with [body] under [key]. *)
Definition with_object (bucket key : string) (body : s3_body) (w : World) : World :=
  {| environ := environ w; now := now w;
     HostedZones := HostedZones w; ResourceRecordSets := ResourceRecordSets w;
     faults := faults w; calls := calls w;
     objects := <[(bucket, key) := body]> (objects w); puts := puts w;
     submitted := submitted w; applied := applied w |}.

Definition no_faults : nat -> option exn := fun _ => None.

(** The [n]-th service call is refused by the provider. *)
Definition fault_at (n : nat) (e : exn) : nat -> option exn :=
  fun i => if i =? n then Some e else None.

(** ** Vocabulary of the further statements *)

(** A relation between the world before and after that a computation keeps,
    whatever the world it starts in and however it ends. *)
Definition keeps {A} (R : World -> World -> Prop) (m : M A) : Prop :=
  forall w, R w (m w).2.

(** A computation that at most makes one service call and changes nothing
    else. *)
Definition reads {A} (m : M A) : Prop :=
  forall w, (m w).2 = w \/ (m w).2 = called w.

(** Nothing was sent to, or applied by, the DNS change service. *)
Definition dns_untouched (w w' : World) : Prop :=
  submitted w' = submitted w /\ applied w' = applied w.

(** Nothing was sent to, or stored by, the object store. *)
Definition storage_untouched (w w' : World) : Prop :=
  objects w' = objects w /\ puts w' = puts w.

(** The object store changed only through logged writes: every key holds
    what it held before or a document that one of the new requests carried
    for that key. *)
Definition writes_logged (w w' : World) : Prop :=
  exists new,
    puts w' = puts w ++ new
    /\ forall k, objects w' !! k = objects w !! k
                 \/ exists doc, (k, doc) ∈ new /\ objects w' !! k = Some (JsonBody doc).

(** Every new write request names the bucket [bucket] and a key under
    [prefix/]. *)
Definition writes_under (bucket prefix : string) (w w' : World) : Prop :=
  exists new,
    puts w' = puts w ++ new
    /\ Forall (fun p => p.1.1 = bucket /\ exists rest, p.1.2 = prefix +:+ "/" +:+ rest) new.

(** Only the call counter moved. *)
Definition only_calls (w w' : World) : Prop :=
  same_account w w' /\ storage_untouched w w' /\ dns_untouched w w'.

(** [r['Type'] in ['NS', 'SOA']], false when the record has no [Type]. *)
Definition infrastructure (r : json) : bool :=
  match getitem r "Type" with
  | inr t => in_strs t ["NS"; "SOA"]
  | inl _ => false
  end.

(** What a summary key that held [existing] holds once the entries
    [entries] have been merged into it one after the other. *)
Definition merged (existing : option s3_body) (entries : list json) : option s3_body :=
  match entries with
  | [] => existing
  | _ =>
      Some (JsonBody
              match existing with
              | Some (JsonBody (JList l)) => JList (l ++ entries)
              | Some (JsonBody other) => JList (other :: entries)
              | _ => JList entries
              end)
  end.

(** The state of the collision-aware loop once the zones [done] are done,
    in a run that found the objects [objs0] in the store. *)
Definition multi_inv_from (bucket date : string) (w0 : World)
    (objs0 : gmap (string * string) s3_body) (done : list hosted_zone)
    (zone_name_count : gmap string nat)
    (objs : gmap (string * string) s3_body) : Prop :=
  (forall name,
     zone_name_count !! name
     = match length (named name done) with 0 => None | k => Some k end)
  /\ (forall name,
        objs !! (bucket, BackupMulti.summary_file_key date name)
        = merged (objs0 !! (bucket, BackupMulti.summary_file_key date name))
            (map (fun zone => BackupMulti.summary_data date zone (all_records w0 zone))
                 (drop 1 (named name done))))
  /\ (forall zone,
        zone ∈ done ->
        objs !! (bucket, BackupMulti.backup_file_key date zone)
        = Some (JsonBody (BackupMulti.backup_data zone (all_records w0 zone)))).

(** The sample account with a one-entry summary already under the summary
    key of example.com. *)
Definition sample_world_with_summary : World :=
  with_object "dns-backups" "2024-03-07_09:05:00/example.com/zone_summary.json"
    (JsonBody (JList [JDict [("zone_id", JString "Z0")]]))
    (sample_world None sample_zones no_faults).

(** The sample account with bytes that are not JSON under the summary key
    of example.com. *)
Definition sample_world_with_bytes : World :=
  with_object "dns-backups" "2024-03-07_09:05:00/example.com/zone_summary.json"
    (RawBody "not json") (sample_world None sample_zones no_faults).

(** The fields of a clock reading are in the ranges of a [datetime]. *)
Definition valid_datetime (dt : datetime) : Prop :=
  1 <= year dt < 10 ^ 4 /\ 1 <= month dt <= 12 /\ 1 <= day dt <= 31
  /\ hour dt < 24 /\ minute dt < 60 /\ second dt < 60.

(** The event of a restore of [key] into [zone]. *)
Definition restore_event (key zone : string) : gmap string string :=
  {[ "backup_key" := key; "hosted_zone_id" := zone ]}.

(** * Properties *)

(** ** Ranges and slices *)

Lemma ceil_div_step n d : 0 < d -> 0 < n -> ceil_div n d = S (ceil_div (n - d) d).
Proof.
  intros Hd Hn. unfold ceil_div.
  destruct (le_lt_dec d n) as [Hle|Hlt].
  - replace (n + d - 1) with ((n - d + d - 1) + 1 * d) by lia.
    rewrite Nat.div_add by lia. lia.
  - replace (n - d) with 0 by lia. simpl.
    rewrite (Nat.div_small (d - 1) d) by lia.
    assert (H1 : (n + d - 1) / d < 2) by (apply Nat.Div0.div_lt_upper_bound; lia).
    assert (H2 : 1 <= (n + d - 1) / d) by (apply Nat.div_le_lower_bound; lia).
    lia.
Qed.

Lemma range_from_closed step fuel start stop :
  0 < step -> stop - start <= fuel ->
  range_from fuel start stop step
  = map (fun j => start + j * step) (seq 0 (ceil_div (stop - start) step)).
Proof.
  intros Hstep. revert start.
  induction fuel as [|fuel IH]; intros start Hfuel.
  - replace (stop - start) with 0 by lia. unfold ceil_div. simpl.
    rewrite Nat.div_small by lia. reflexivity.
  - simpl. destruct (Nat.ltb_spec start stop) as [Hlt|Hge].
    + rewrite (ceil_div_step (stop - start) step) by lia.
      rewrite IH by lia. simpl. f_equal; [lia|].
      rewrite <- seq_shift, map_map.
      replace (stop - start - step) with (stop - (start + step)) by lia.
      apply map_ext. intros j. lia.
    + replace (stop - start) with 0 by lia. unfold ceil_div. simpl.
      rewrite Nat.div_small by lia. reflexivity.
Qed.

Lemma range_closed stop step :
  0 < step ->
  range 0 stop step = map (fun j => j * step) (seq 0 (ceil_div stop step)).
Proof.
  intros Hstep. unfold range. rewrite range_from_closed by lia.
  rewrite Nat.sub_0_r. reflexivity.
Qed.

Lemma batches_closed filtered :
  batches filtered
  = map (fun j => take 100 (drop (j * 100) filtered))
        (seq 0 (ceil_div (length filtered) 100)).
Proof.
  unfold batches, Restore.batch_size. rewrite range_closed by lia.
  rewrite map_map. apply map_ext. intros j. unfold slice.
  f_equal. lia.
Qed.

Lemma length_batches filtered :
  length (batches filtered) = ceil_div (length filtered) 100.
Proof. rewrite batches_closed, length_map, length_seq. reflexivity. Qed.

Lemma batches_lookup filtered i :
  i < ceil_div (length filtered) 100 ->
  batches filtered !! i = Some (take 100 (drop (i * 100) filtered)).
Proof.
  intros Hi. rewrite batches_closed.
  change (map ?f ?l) with (f <$> l).
  rewrite list_lookup_fmap, lookup_seq_lt by assumption. reflexivity.
Qed.

Lemma batches_lookup_inv filtered i b :
  batches filtered !! i = Some b ->
  i < ceil_div (length filtered) 100 /\ b = take 100 (drop (i * 100) filtered).
Proof.
  intros Hb. assert (Hi : i < ceil_div (length filtered) 100).
  { rewrite <- length_batches. apply lookup_lt_is_Some. eauto. }
  split; [assumption|]. rewrite batches_lookup in Hb by assumption. congruence.
Qed.

Lemma ceil_div_bounds n : 
  n <= ceil_div n 100 * 100 /\ (0 < n -> (ceil_div n 100 - 1) * 100 < n).
Proof.
  unfold ceil_div.
  pose proof (Nat.div_mod_eq (n + 100 - 1) 100) as E.
  pose proof (Nat.mod_upper_bound (n + 100 - 1) 100) as B.
  lia.
Qed.

Lemma concat_chunks {A} (l : list A) m :
  concat (map (fun j => take 100 (drop (j * 100) l)) (seq 0 m)) = take (m * 100) l.
Proof.
  induction m as [|m IH]; [reflexivity|].
  rewrite seq_S, map_app, concat_app, IH. simpl. rewrite app_nil_r.
  rewrite take_take_drop. f_equal. lia.
Qed.

Lemma concat_batches filtered : concat (batches filtered) = filtered.
Proof.
  rewrite batches_closed, concat_chunks. apply take_ge.
  apply ceil_div_bounds.
Qed.

Lemma batches_length_bounds filtered i b :
  batches filtered !! i = Some b -> 1 <= length b <= 100.
Proof.
  intros [Hi ->]%batches_lookup_inv.
  rewrite length_take, length_drop.
  destruct (ceil_div_bounds (length filtered)) as [_ H].
  assert (0 < length filtered).
  { destruct filtered; [|simpl; lia]. unfold ceil_div in Hi. simpl in Hi. lia. }
  specialize (H ltac:(assumption)). nia.
Qed.

Lemma batches_full filtered i b :
  batches filtered !! i = Some b -> S i < length (batches filtered) -> length b = 100.
Proof.
  intros [Hi ->]%batches_lookup_inv Hlt. rewrite length_batches in Hlt.
  rewrite length_take, length_drop.
  destruct (ceil_div_bounds (length filtered)) as [_ H].
  assert (0 < length filtered).
  { destruct filtered; [|simpl; lia]. unfold ceil_div in Hi. simpl in Hi. lia. }
  specialize (H ltac:(assumption)). nia.
Qed.

Lemma ceil_div_rem n : n mod 100 <> 0 -> ceil_div n 100 = n / 100 + 1.
Proof.
  intros Hr. unfold ceil_div.
  pose proof (Nat.div_mod_eq n 100) as E.
  pose proof (Nat.mod_upper_bound n 100) as B.
  replace (n + 100 - 1) with ((n mod 100 - 1) + (n / 100 + 1) * 100) by lia.
  rewrite Nat.div_add by lia. rewrite Nat.div_small by lia. lia.
Qed.

Lemma batches_last filtered :
  length filtered mod 100 <> 0 ->
  exists b, last (batches filtered) = Some b /\ length b = length filtered mod 100.
Proof.
  intros Hr. pose proof (ceil_div_rem _ Hr) as Hc.
  exists (take 100 (drop (length filtered / 100 * 100) filtered)). split.
  - rewrite last_lookup, length_batches, Hc.
    replace (pred (length filtered / 100 + 1)) with (length filtered / 100) by lia.
    apply batches_lookup. lia.
  - rewrite length_take, length_drop.
    pose proof (Nat.div_mod_eq (length filtered) 100) as E.
    pose proof (Nat.mod_upper_bound (length filtered) 100) as B. lia.
Qed.

(** ** The restore loop *)

Section restore_loop.
Local Open Scope py_scope.
Variable hosted_zone_id : string.

Lemma for_each_map {A B} (f : A -> B) (body : B -> M unit) l :
  for_each (map f l) body = for_each l (fun x => body (f x)).
Proof. induction l as [|x l IH]; simpl; [reflexivity|]. rewrite IH. reflexivity. Qed.

Lemma restore_batches_for_each filtered :
  Restore.restore_batches hosted_zone_id filtered
  = for_each (batches filtered)
      (fun b => change_resource_record_sets hosted_zone_id (Restore.changes b)).
Proof. unfold Restore.restore_batches, batches. rewrite for_each_map. reflexivity. Qed.

Lemma change_accepted changes w :
  faults w (calls w) = None ->
  change_resource_record_sets hosted_zone_id changes w
  = (inr tt, accepted_change hosted_zone_id changes
               (called (requested_change hosted_zone_id changes w))).
Proof. intros H. unfold change_resource_record_sets, service. simpl. rewrite H. reflexivity. Qed.

Lemma change_rejected changes w e :
  faults w (calls w) = Some e ->
  change_resource_record_sets hosted_zone_id changes w
  = (inl e, called (requested_change hosted_zone_id changes w)).
Proof. intros H. unfold change_resource_record_sets, service. simpl. rewrite H. reflexivity. Qed.

Lemma submit_all (bs : list (list json)) :
  forall w,
    (forall j, j < length bs -> faults w (calls w + j) = None) ->
    exists w',
      for_each bs (fun b => change_resource_record_sets hosted_zone_id (Restore.changes b)) w
      = (inr tt, w')
      /\ submitted w' = submitted w ++ map (request hosted_zone_id) bs
      /\ applied w' = applied w ++ map (request hosted_zone_id) bs
      /\ calls w' = calls w + length bs
      /\ restore_frame w w'.
Proof.
  induction bs as [|b bs IH]; intros w Hok.
  - exists w. simpl. rewrite !app_nil_r, Nat.add_0_r. unfold restore_frame. auto 10.
  - pose proof (Hok 0 ltac:(simpl; lia)) as H0. rewrite Nat.add_0_r in H0.
    set (w1 := accepted_change hosted_zone_id (Restore.changes b)
                 (called (requested_change hosted_zone_id (Restore.changes b) w))).
    destruct (IH w1) as (w' & Hrun & Hs & Ha & Hc & Hf).
    { intros j Hj. simpl. rewrite <- Nat.add_succ_r. apply Hok. simpl. lia. }
    exists w'. cbn [for_each]. unfold bind. rewrite change_accepted by assumption.
    fold w1. rewrite Hrun.
    split; [reflexivity|]. rewrite Hs, Ha, Hc. simpl.
    rewrite <- !app_assoc. simpl. unfold restore_frame in *. simpl in *.
    repeat split; try tauto; lia.
Qed.

Lemma submit_until (bs : list (list json)) :
  forall w j e,
    j < length bs ->
    (forall i, i < j -> faults w (calls w + i) = None) ->
    faults w (calls w + j) = Some e ->
    exists w',
      for_each bs (fun b => change_resource_record_sets hosted_zone_id (Restore.changes b)) w
      = (inl e, w')
      /\ submitted w' = submitted w ++ map (request hosted_zone_id) (take (S j) bs)
      /\ applied w' = applied w ++ map (request hosted_zone_id) (take j bs)
      /\ calls w' = calls w + S j
      /\ restore_frame w w'.
Proof.
  induction bs as [|b bs IH]; intros w j e Hj Hok Hfail; [simpl in Hj; lia|].
  destruct j as [|j].
  - rewrite Nat.add_0_r in Hfail.
    exists (called (requested_change hosted_zone_id (Restore.changes b) w)).
    cbn [for_each]. unfold bind. rewrite (change_rejected _ _ e) by assumption.
    rewrite take_0, app_nil_r. unfold restore_frame. simpl.
    repeat split; lia.
  - pose proof (Hok 0 ltac:(lia)) as H0. rewrite Nat.add_0_r in H0.
    set (w1 := accepted_change hosted_zone_id (Restore.changes b)
                 (called (requested_change hosted_zone_id (Restore.changes b) w))).
    destruct (IH w1 j e) as (w' & Hrun & Hs & Ha & Hc & Hf).
    { simpl in Hj. lia. }
    { intros i Hi. simpl. rewrite <- Nat.add_succ_r. apply Hok. lia. }
    { simpl. rewrite <- Nat.add_succ_r. exact Hfail. }
    exists w'. cbn [for_each]. unfold bind. rewrite change_accepted by assumption.
    fold w1. rewrite Hrun.
    split; [reflexivity|]. rewrite Hs, Ha, Hc. simpl.
    rewrite <- !app_assoc. simpl. unfold restore_frame in *. simpl in *.
    repeat split; try tauto; lia.
Qed.

End restore_loop.

(** Either none of the next [n] service calls fails or there is a first one
    that does. *)
Lemma first_fault (f : nat -> option exn) n :
  (forall j, j < n -> f j = None)
  \/ exists j e, j < n /\ (forall i, i < j -> f i = None) /\ f j = Some e.
Proof.
  induction n as [|n [IH|(j & e & Hj & Hlt & He)]].
  - left. intros j Hj. lia.
  - destruct (f n) as [e|] eqn:Hn.
    + right. exists n, e. auto.
    + left. intros j Hj. destruct (decide (j = n)) as [->|]; [assumption|].
      apply IH. lia.
  - right. exists j, e. auto.
Qed.

(** ** The restore handler *)

Section restore_handler.
Local Open Scope py_scope.
Variable event : gmap string string.

Lemma run_reads w zone filtered :
  restore_reads event w zone filtered ->
  Restore.run event w
  = (Restore.restore_batches zone filtered ;;; ret (Restore.completed zone)) (called w).
Proof.
  intros (bucket & key & doc & records & He & Hk & Hz & Hf & Ho & Hr & Hfr).
  unfold Restore.run, bind at 1, os_environ. rewrite He.
  unfold bind at 1. rewrite Hk. simpl.
  unfold bind at 1. rewrite Hz. simpl.
  unfold bind at 1, get_object, service. rewrite Hf. simpl. rewrite Ho.
  unfold bind at 1. simpl.
  unfold bind at 1. rewrite Hr. simpl.
  unfold bind at 1. rewrite Hfr. simpl. reflexivity.
Qed.

Lemma run_cases w :
  (exists zone filtered, restore_reads event w zone filtered)
  \/ (exists e w', Restore.run event w = (inl e, w')
                   /\ submitted w' = submitted w /\ applied w' = applied w).
Proof.
  unfold restore_reads, Restore.run.
  unfold bind at 1, os_environ.
  destruct (environ w !! "BACKUP_BUCKET") as [bucket|] eqn:He; [|right; eauto].
  unfold bind at 1.
  destruct (event !! "backup_key") as [key|] eqn:Hk; simpl; [|right; eauto].
  unfold bind at 1.
  destruct (event !! "hosted_zone_id") as [zone|] eqn:Hz; simpl; [|right; eauto].
  unfold bind at 1, get_object, service.
  destruct (faults w (calls w)) as [e|] eqn:Hf; [right; eauto|]. simpl.
  destruct (objects w !! (bucket, key)) as [[doc|raw]|] eqn:Ho; [|right; eauto..].
  unfold bind at 1. simpl.
  unfold bind at 1.
  destruct (getitem doc "records") as [e|records] eqn:Hr; simpl; [right; eauto|].
  unfold bind at 1.
  destruct (Restore.filtered_records records) as [e|filtered] eqn:Hfr; simpl;
    [right; eauto|].
  left. exists zone, filtered, bucket, key, doc, records. auto 10.
Qed.

Lemma lambda_handler_world w :
  (Restore.lambda_handler event w).2 = (Restore.run event w).2.
Proof.
  unfold Restore.lambda_handler, try_except.
  destruct (Restore.run event w) as [[e|r] w']; [|reflexivity].
  destruct (is_ClientError e); reflexivity.
Qed.

Lemma lambda_handler_result w :
  (Restore.lambda_handler event w).1
  = match (Restore.run event w).1 with
    | inl e => if is_ClientError e then inr (Restore.failed e) else inl e
    | inr r => inr r
    end.
Proof.
  unfold Restore.lambda_handler, try_except.
  destruct (Restore.run event w) as [[e|r] w']; [|reflexivity].
  simpl. destruct (is_ClientError e); reflexivity.
Qed.

(** A run that reaches the loop and meets no failure submits every batch. *)
Lemma run_completes w zone filtered :
  restore_reads event w zone filtered ->
  (forall j, j < length (batches filtered) -> faults w (S (calls w) + j) = None) ->
  exists w',
    Restore.run event w = (inr (Restore.completed zone), w')
    /\ submitted w' = submitted w ++ map (request zone) (batches filtered)
    /\ applied w' = applied w ++ map (request zone) (batches filtered).
Proof.
  intros Hreads Hok. rewrite (run_reads _ _ _ Hreads).
  destruct (submit_all zone (batches filtered) (called w) Hok)
    as (w' & Hrun & Hs & Ha & _).
  exists w'. unfold bind. rewrite restore_batches_for_each, Hrun.
  auto.
Qed.

(** A run that reaches the loop and meets its first failure at batch [j]
    (counting from 0) stops there. *)
Lemma run_fails w zone filtered j e :
  restore_reads event w zone filtered ->
  j < length (batches filtered) ->
  (forall i, i < j -> faults w (S (calls w) + i) = None) ->
  faults w (S (calls w) + j) = Some e ->
  exists w',
    Restore.run event w = (inl e, w')
    /\ submitted w' = submitted w ++ map (request zone) (take (S j) (batches filtered))
    /\ applied w' = applied w ++ map (request zone) (take j (batches filtered)).
Proof.
  intros Hreads Hj Hok Hfail. rewrite (run_reads _ _ _ Hreads).
  destruct (submit_until zone (batches filtered) (called w) j e Hj Hok Hfail)
    as (w' & Hrun & Hs & Ha & _).
  exists w'. unfold bind. rewrite restore_batches_for_each, Hrun.
  auto.
Qed.

(** Whatever happens, what a run submits is a prefix of the batches of the
    filtered records of the document it read. *)
Lemma run_submits w :
  exists zone filtered m,
    submitted (Restore.run event w).2
    = submitted w ++ map (request zone) (take m (batches filtered))
    /\ (0 < m -> restore_reads event w zone filtered).
Proof.
  destruct (run_cases w) as [(zone & filtered & Hreads)|(e & w' & Hrun & Hs & _)].
  - exists zone, filtered.
    destruct (first_fault (fun j => faults w (S (calls w) + j)) (length (batches filtered)))
      as [Hok|(j & e & Hj & Hok & Hfail)].
    + destruct (run_completes w zone filtered Hreads Hok) as (w' & -> & Hs & _).
      exists (length (batches filtered)). rewrite firstn_all. auto.
    + destruct (run_fails w zone filtered j e Hreads Hj Hok Hfail) as (w' & -> & Hs & _).
      exists (S j). auto.
  - exists "", [], 0. rewrite Hrun. simpl. rewrite app_nil_r. split; [assumption|lia].
Qed.

End restore_handler.

(** ** The comprehension *)

Lemma keep_records_types items filtered :
  Restore.keep_records items = inr filtered ->
  Forall (fun r => exists t, getitem r "Type" = inr t
                             /\ t <> JString "NS" /\ t <> JString "SOA") filtered.
Proof.
  revert filtered.
  induction items as [|r items IH]; intros filtered; cbn [Restore.keep_records].
  - intros [= <-]. constructor.
  - destruct (getitem r "Type") as [e|t] eqn:Ht; [discriminate|].
    destruct (Restore.keep_records items) as [e|rest]; [discriminate|].
    destruct (in_strs t ["NS"; "SOA"]) eqn:Hin; intros [= <-]; [auto|].
    constructor; [|auto]. exists t. split; [assumption|].
    split; intros ->; discriminate Hin.
Qed.

Lemma filtered_records_types records filtered :
  Restore.filtered_records records = inr filtered ->
  Forall (fun r => exists t, getitem r "Type" = inr t
                             /\ t <> JString "NS" /\ t <> JString "SOA") filtered.
Proof.
  unfold Restore.filtered_records. destruct (iter records); [discriminate|].
  apply keep_records_types.
Qed.

(** ** Claims about the restore handler *)

Lemma changes_create batch :
  Forall (fun c => Action c = "CREATE") (Restore.changes batch)
  /\ map ResourceRecordSet (Restore.changes batch) = batch.
Proof.
  unfold Restore.changes. split.
  - apply Forall_forall. intros c [r [<- _]]%list_elem_of_In%in_map_iff. reflexivity.
  - rewrite map_map. simpl. apply map_id.
Qed.

(** C2: when the run reaches the loop with [n] filtered records and no
    submission fails, the requests sent are, in order, one per batch of the
    loop; the batches are the consecutive slices of 100 records, their
    concatenation is the filtered sequence, each request holds one CREATE per
    record of its batch in batch order, their number is [n / 100] rounded up,
    and when [n mod 100 <> 0] the last one holds [n mod 100] records. *)
Theorem restore_batches_of_100 event w zone filtered :
  restore_reads event w zone filtered ->
  (forall j, j < ceil_div (length filtered) 100 -> faults w (S (calls w) + j) = None) ->
  let w' := (Restore.lambda_handler event w).2 in
  let n := length filtered in
  submitted w' = submitted w ++ map (request zone) (batches filtered)
  /\ concat (batches filtered) = filtered
  /\ (forall i b, batches filtered !! i = Some b ->
        b = take 100 (drop (i * 100) filtered) /\ 1 <= length b <= 100
        /\ Forall (fun c => Action c = "CREATE") (Restore.changes b)
        /\ map ResourceRecordSet (Restore.changes b) = b)
  /\ length (batches filtered) = ceil_div n 100
  /\ (n mod 100 <> 0 ->
        length (batches filtered) = n / 100 + 1
        /\ exists b, last (batches filtered) = Some b /\ length b = n mod 100).
Proof.
  intros Hreads Hok w' n. subst w'.
  rewrite lambda_handler_world.
  rewrite <- length_batches in Hok.
  destruct (run_completes event w zone filtered Hreads Hok) as (w' & -> & Hs & _).
  split; [exact Hs|]. split; [apply concat_batches|].
  split.
  { intros i b Hb. split; [apply (batches_lookup_inv _ _ _ Hb)|].
    split; [apply (batches_length_bounds _ _ _ Hb)|]. apply changes_create. }
  split; [apply length_batches|].
  intros Hr. split; [|apply batches_last; assumption].
  rewrite length_batches. apply ceil_div_rem. assumption.
Qed.

Lemma sample_reads records schedule filtered :
  schedule 0 = None ->
  Restore.filtered_records (JList records) = inr filtered ->
  restore_reads sample_event
    (sample_world (Some (sample_document records)) [] schedule) "Z9" filtered.
Proof.
  intros H0 Hf.
  exists "dns-backups", sample_key, (sample_document records), (JList records).
  repeat split; try assumption; reflexivity.
Qed.

Lemma restore_batches_of_100_witness :
  let w := sample_world (Some (sample_document sample_records)) [] no_faults in
  let filtered := [sample_record "A" "www.example.com."; sample_record "CNAME" "m.example.com."] in
  submitted (Restore.lambda_handler sample_event w).2
  = [("Z9", Restore.changes filtered)].
Proof.
  intros w filtered.
  pose proof (restore_batches_of_100 sample_event w "Z9" filtered
                (sample_reads sample_records no_faults filtered eq_refl eq_refl)
                (fun j _ => eq_refl)) as H.
  apply H.
Defined.

(** The scenario of the specification: 250 filtered records go out as three
    batches of 100, 100 and 50. *)
Example restore_250_records :
  let records := repeat (sample_record "A" "www.example.com.") 250
                 ++ [sample_record "NS" "example.com."] in
  let w := sample_world (Some (sample_document records)) [] no_faults in
  map (fun rq => length rq.2) (submitted (Restore.lambda_handler sample_event w).2)
  = [100; 100; 50].
Proof. vm_compute. reflexivity. Qed.

(** C3: whatever the event and the world, every record of every change batch
    the restore handler submits has a [Type] that is neither NS nor SOA. *)
Theorem restore_never_submits_NS_SOA event w :
  exists new,
    submitted (Restore.lambda_handler event w).2 = submitted w ++ new
    /\ forall zone changes c,
         (zone, changes) ∈ new -> c ∈ changes ->
         exists t, getitem (ResourceRecordSet c) "Type" = inr t
                   /\ t <> JString "NS" /\ t <> JString "SOA".
Proof.
  rewrite lambda_handler_world.
  destruct (run_submits event w) as (zone & filtered & m & Hs & Hreads).
  exists (map (request zone) (take m (batches filtered))). split; [exact Hs|].
  intros zone' changes c Hin Hc.
  apply list_elem_of_In, in_map_iff in Hin as (b & [= <- <-] & Hb).
  assert (Hm : 0 < m).
  { destruct m; [|lia]. rewrite take_0 in Hb. destruct Hb. }
  destruct (Hreads Hm) as (bucket & key & doc & records & _ & _ & _ & _ & _ & _ & Hf).
  apply filtered_records_types in Hf.
  apply list_elem_of_In, in_map_iff in Hc as (r & <- & Hr). simpl.
  rewrite Forall_forall in Hf. apply Hf.
  rewrite <- (concat_batches filtered). apply list_elem_of_In, in_concat.
  exists b. split; [|assumption].
  apply list_elem_of_In, (subseteq_take m), list_elem_of_In, Hb.
Qed.

(** C5: when the run reaches the loop and the submission of batch [j + 1]
    is the first to fail, the [j] batches before it have been applied and
    stay applied, the failed batch is the last request sent, and the caller
    gets the one failure: the 500 result built from the provider's
    [ClientError] (any other exception leaves the handler as it is). *)
Theorem restore_stops_at_failed_batch event w zone filtered j e :
  restore_reads event w zone filtered ->
  j < length (batches filtered) ->
  (forall i, i < j -> faults w (S (calls w) + i) = None) ->
  faults w (S (calls w) + j) = Some e ->
  let out := Restore.lambda_handler event w in
  applied out.2 = applied w ++ map (request zone) (take j (batches filtered))
  /\ submitted out.2 = submitted w ++ map (request zone) (take (S j) (batches filtered))
  /\ out.1 = (if is_ClientError e then inr (Restore.failed e) else inl e)
  /\ statusCode (Restore.failed e) = 500%Z.
Proof.
  intros Hreads Hj Hok Hfail out. subst out.
  rewrite lambda_handler_world, lambda_handler_result.
  destruct (run_fails event w zone filtered j e Hreads Hj Hok Hfail)
    as (w' & -> & Hs & Ha).
  simpl. auto.
Qed.

Lemma restore_stops_at_failed_batch_witness :
  let records := repeat (sample_record "A" "www.example.com.") 250 in
  let e := ClientError "ChangeResourceRecordSets" "InvalidChangeBatch" "it already exists" in
  let out := Restore.lambda_handler sample_event
               (sample_world (Some (sample_document records)) [] (fault_at 2 e)) in
  applied out.2 = [request "Z9" (take 100 records)]
  /\ submitted out.2 = [request "Z9" (take 100 records);
                        request "Z9" (take 100 (drop 100 records))]
  /\ out.1 = inr (Restore.failed e)
  /\ statusCode (Restore.failed e) = 500%Z.
Proof.
  intros records e.
  apply (restore_stops_at_failed_batch sample_event
           (sample_world (Some (sample_document records)) [] (fault_at 2 e))
           "Z9" records 1 e).
  - apply sample_reads; reflexivity.
  - vm_compute. lia.
  - intros i Hi. assert (i = 0) as -> by lia. reflexivity.
  - reflexivity.
Defined.

Lemma keep_records_infrastructure items :
  Forall (fun r => getitem r "Type" = inr (JString "NS")
                   \/ getitem r "Type" = inr (JString "SOA")) items ->
  Restore.keep_records items = inr [].
Proof.
  induction 1 as [|r items [Hr|Hr] _ IH]; [reflexivity|..];
    cbn [Restore.keep_records]; rewrite Hr, IH; reflexivity.
Qed.

(** C9: when nothing is left after the filter (as for an empty record list,
    or one of NS and SOA records only), the run submits no change request and
    still returns the success result. *)
Theorem restore_nothing_to_submit event w zone :
  restore_reads event w zone [] ->
  let out := Restore.lambda_handler event w in
  out.1 = inr (Restore.completed zone)
  /\ statusCode (Restore.completed zone) = 200%Z
  /\ submitted out.2 = submitted w
  /\ applied out.2 = applied w.
Proof.
  intros Hreads out. subst out.
  rewrite lambda_handler_world, lambda_handler_result.
  destruct (run_completes event w zone [] Hreads) as (w' & -> & Hs & Ha).
  { intros j Hj. vm_compute in Hj. lia. }
  simpl. rewrite Hs, Ha, !app_nil_r. auto.
Qed.

Lemma restore_nothing_to_submit_witness :
  let records := [sample_record "NS" "example.com."; sample_record "SOA" "example.com."] in
  let out := Restore.lambda_handler sample_event
               (sample_world (Some (sample_document records)) [] no_faults) in
  out.1 = inr (Restore.completed "Z9")
  /\ statusCode (Restore.completed "Z9") = 200%Z
  /\ submitted out.2 = []
  /\ applied out.2 = [].
Proof.
  intros records.
  apply (restore_nothing_to_submit sample_event
           (sample_world (Some (sample_document records)) [] no_faults) "Z9").
  apply sample_reads; [reflexivity|].
  apply (keep_records_infrastructure records).
  constructor; [left; reflexivity|].
  constructor; [right; reflexivity|].
  constructor.
Defined.

Example restore_empty_record_list :
  let out := Restore.lambda_handler sample_event
               (sample_world (Some (sample_document [])) [] no_faults) in
  out.1 = inr (Restore.completed "Z9") /\ submitted out.2 = [].
Proof. vm_compute. auto. Qed.

(** ** What the restore handler reads of the document *)

Section restore_agreement.
Local Open Scope py_scope.
Variable event : gmap string string.

Lemma for_each_agree zone (bs : list (list json)) :
  forall w1 w2,
    faults w1 = faults w2 -> calls w1 = calls w2 ->
    submitted w1 = submitted w2 -> applied w1 = applied w2 ->
    let body := fun b => change_resource_record_sets zone (Restore.changes b) in
    (for_each bs body w1).1 = (for_each bs body w2).1
    /\ submitted (for_each bs body w1).2 = submitted (for_each bs body w2).2
    /\ applied (for_each bs body w1).2 = applied (for_each bs body w2).2.
Proof.
  induction bs as [|b bs IH]; intros w1 w2 Hf Hc Hs Ha body; [simpl; auto|].
  subst body. cbn [for_each]. unfold bind.
  destruct (faults w1 (calls w1)) as [e|] eqn:H1.
  - rewrite (change_rejected zone _ w1 e) by assumption.
    rewrite (change_rejected zone _ w2 e) by (rewrite <- Hf, <- Hc; assumption).
    simpl. rewrite Hs, Ha. auto.
  - rewrite (change_accepted zone _ w1) by assumption.
    rewrite (change_accepted zone _ w2) by (rewrite <- Hf, <- Hc; assumption).
    apply IH; simpl; congruence.
Qed.

Lemma run_agree w1 w2 :
  environ w1 = environ w2 -> faults w1 = faults w2 -> calls w1 = calls w2 ->
  submitted w1 = submitted w2 -> applied w1 = applied w2 ->
  (forall k, same_records (objects w1 !! k) (objects w2 !! k)) ->
  (Restore.run event w1).1 = (Restore.run event w2).1
  /\ submitted (Restore.run event w1).2 = submitted (Restore.run event w2).2
  /\ applied (Restore.run event w1).2 = applied (Restore.run event w2).2.
Proof.
  intros He Hf Hc Hs Ha Ho.
  unfold Restore.run, bind, os_environ, get_object, service, lift.
  rewrite <- He.
  destruct (environ w1 !! "BACKUP_BUCKET") as [bucket|]; [|simpl; auto].
  destruct (event !! "backup_key") as [key|]; simpl; [|auto].
  destruct (event !! "hosted_zone_id") as [zone|]; simpl; [|auto].
  rewrite <- Hf, <- Hc.
  destruct (faults w1 (calls w1)) as [e|]; [simpl; auto|].
  specialize (Ho (bucket, key)). unfold same_records in Ho.
  destruct (objects w1 !! (bucket, key)) as [[d1|r1]|],
           (objects w2 !! (bucket, key)) as [[d2|r2]|]; try contradiction;
    [|simpl; auto..].
  simpl. rewrite <- Ho.
  destruct (getitem d1 "records") as [e|records]; simpl; [auto|].
  destruct (Restore.filtered_records records) as [e|filtered]; simpl; [auto|].
  rewrite restore_batches_for_each.
  pose proof (for_each_agree zone (batches filtered) (called w1) (called w2)) as H.
  simpl in H. specialize (H Hf ltac:(congruence) Hs Ha).
  destruct H as (Hr & Hs' & Ha').
  destruct (for_each _ _ (called w1)) as [[e1|[]] w1'],
           (for_each _ _ (called w2)) as [[e2|[]] w2']; simpl in *;
    try discriminate; auto.
  injection Hr as ->. auto.
Qed.

End restore_agreement.

(** C10: two documents with the same [records] field, stored under the same
    key of otherwise equal worlds, give the same result and the same
    submitted and applied change batches; and in every world every request
    the handler sends goes to the zone named by the event and holds between
    1 and 100 changes. *)
Theorem restore_depends_on_records_only event w bucket key doc1 doc2 :
  getitem doc1 "records" = getitem doc2 "records" ->
  let out1 := Restore.lambda_handler event (stored bucket key doc1 w) in
  let out2 := Restore.lambda_handler event (stored bucket key doc2 w) in
  out1.1 = out2.1
  /\ submitted out1.2 = submitted out2.2
  /\ applied out1.2 = applied out2.2
  /\ exists new,
       submitted (Restore.lambda_handler event w).2 = submitted w ++ new
       /\ forall zone changes,
            (zone, changes) ∈ new ->
            event !! "hosted_zone_id" = Some zone /\ 1 <= length changes <= 100.
Proof.
  intros Hrec out1 out2. subst out1 out2.
  rewrite !lambda_handler_world, !lambda_handler_result.
  destruct (run_agree event (stored bucket key doc1 w) (stored bucket key doc2 w))
    as (Hr & Hs & Ha); try reflexivity.
  { intros k. simpl. destruct (decide ((bucket, key) = k)) as [<-|Hne].
    - rewrite !lookup_insert_eq. exact Hrec.
    - rewrite !lookup_insert_ne by assumption.
      destruct (objects w !! k) as [[d|r]|]; simpl; auto. }
  rewrite Hr, Hs, Ha. repeat (split; [reflexivity|]).
  destruct (run_submits event w) as (zone & filtered & m & Hsub & Hreads).
  exists (map (request zone) (take m (batches filtered))). split; [exact Hsub|].
  intros zone' changes Hin.
  apply list_elem_of_In, in_map_iff in Hin as (b & [= <- <-] & Hb).
  assert (Hm : 0 < m).
  { destruct m; [|lia]. rewrite take_0 in Hb. destruct Hb. }
  destruct (Hreads Hm) as (_ & _ & _ & _ & _ & _ & Hz & _).
  split; [exact Hz|].
  apply list_elem_of_In, (subseteq_take m), list_elem_of_lookup in Hb as [i Hi].
  unfold Restore.changes. rewrite length_map.
  apply (batches_length_bounds _ _ _ Hi).
Qed.

Lemma restore_depends_on_records_only_witness :
  let w := sample_world None [] no_faults in
  let out1 := Restore.lambda_handler sample_event
                (stored "dns-backups" sample_key (sample_document sample_records) w) in
  let out2 := Restore.lambda_handler sample_event
                (stored "dns-backups" sample_key (other_document sample_records) w) in
  out1.1 = out2.1
  /\ submitted out1.2 = submitted out2.2
  /\ applied out1.2 = applied out2.2
  /\ exists new,
       submitted (Restore.lambda_handler sample_event w).2 = submitted w ++ new
       /\ forall zone changes,
            (zone, changes) ∈ new ->
            sample_event !! "hosted_zone_id" = Some zone /\ 1 <= length changes <= 100.
Proof.
  intros w.
  apply (restore_depends_on_records_only sample_event w "dns-backups" sample_key
           (sample_document sample_records) (other_document sample_records)).
  reflexivity.
Defined.

(** ** Strings as lists of characters *)

Local Arguments String.append : simpl nomatch.

Lemma letters_app s t : letters (s +:+ t) = letters s ++ letters t.
Proof.
  unfold letters. induction s as [|c s IH]; [reflexivity|].
  exact (f_equal (cons c) IH).
Qed.

Lemma letters_inj s t : letters s = letters t -> s = t.
Proof.
  unfold letters. intros H.
  rewrite <- (String.string_of_list_ascii_of_string s),
    <- (String.string_of_list_ascii_of_string t), H. reflexivity.
Qed.

Lemma string_app_nil_r s : s +:+ "" = s.
Proof. apply letters_inj. rewrite letters_app. apply app_nil_r. Qed.

Lemma string_app_assoc s t u : (s +:+ t) +:+ u = s +:+ t +:+ u.
Proof. apply letters_inj. rewrite !letters_app. symmetry. apply app_assoc. Qed.

Lemma string_app_inv_tail s t u : s +:+ u = t +:+ u -> s = t.
Proof.
  intros H%(f_equal letters). rewrite !letters_app in H.
  apply letters_inj, (app_inv_tail _ _ _ H).
Qed.

Lemma string_length_app s t : String.length (s +:+ t) = String.length s + String.length t.
Proof. induction s as [|c s IH]; [reflexivity|]. exact (f_equal S IH). Qed.

(** Where a separator that occurs in neither tail splits a string is
    determined by the string. *)
Lemma split_point (x : ascii) (a c b d : list ascii) :
  x ∉ b -> x ∉ d -> a ++ x :: b = c ++ x :: d -> a = c /\ b = d.
Proof.
  revert c. induction a as [|y a IH]; intros [|z c] Hb Hd H; simpl in H.
  - injection H as H. auto.
  - injection H as Hx H. exfalso. apply Hb. rewrite H.
    apply elem_of_app. right. left.
  - injection H as Hx H. exfalso. apply Hd. rewrite <- H.
    apply elem_of_app. right. left.
  - injection H as Hy H. destruct (IH c Hb Hd H) as [-> ->]. subst. auto.
Qed.

(** ** [split] and [rstrip] *)

Lemma split_nonempty sep s : split sep s <> [].
Proof.
  destruct s as [|c s]; simpl; [discriminate|].
  destruct (Ascii.eqb c sep); [discriminate|].
  destruct (split sep s); discriminate.
Qed.

Lemma split_without sep s : sep ∉ letters s -> split sep s = [s].
Proof.
  unfold letters. induction s as [|c s IH]; simpl; intros Hs; [reflexivity|].
  apply not_elem_of_cons in Hs as [Hc Hs].
  destruct (Ascii.eqb_spec c sep) as [->|Hne]; [congruence|].
  rewrite IH by assumption. reflexivity.
Qed.

Lemma split_with sep pre h : 2 <= length (split sep (pre +:+ String sep h)).
Proof.
  induction pre as [|p pre IH].
  - change ("" +:+ String sep h) with (String sep h). simpl.
    rewrite Ascii.eqb_refl. pose proof (split_nonempty sep h).
    destruct (split sep h); simpl; [congruence|lia].
  - change (String p pre +:+ String sep h) with (String p (pre +:+ String sep h)).
    simpl. destruct (Ascii.eqb p sep); simpl; [lia|].
    destruct (split sep (pre +:+ String sep h)); simpl in *; lia.
Qed.

Lemma last_item_cons h t : t <> [] -> last_item (h :: t) = last_item t.
Proof. destruct t; [congruence|reflexivity]. Qed.

(** The last piece holds no separator, and it is the whole string or what
    follows the string's last separator. *)
Lemma last_item_split sep s :
  (sep ∉ letters (last_item (split sep s)))
  /\ (s = last_item (split sep s)
      \/ exists pre, s = pre +:+ String sep (last_item (split sep s))).
Proof.
  induction s as [|c s [IHn IHs]]; simpl.
  - split; [apply not_elem_of_nil|auto].
  - destruct (Ascii.eqb_spec c sep) as [->|Hne].
    + rewrite last_item_cons by apply split_nonempty.
      split; [assumption|]. right. destruct IHs as [<-|[pre Hpre]].
      * exists "". reflexivity.
      * exists (String sep pre). exact (f_equal (String sep) Hpre).
    + destruct (split sep s) as [|h t] eqn:Hsp; [destruct (split_nonempty _ _ Hsp)|].
      destruct t as [|h' t].
      * unfold last_item in *. simpl in *.
        split; [apply not_elem_of_cons; split; [congruence|assumption]|].
        left. destruct IHs as [->|[pre Hpre]]; [reflexivity|].
        exfalso. pose proof (split_with sep pre h) as Hlen.
        rewrite <- Hpre, Hsp in Hlen. simpl in Hlen. lia.
      * rewrite last_item_cons by discriminate.
        rewrite last_item_cons in IHn, IHs by discriminate.
        split; [assumption|]. right. destruct IHs as [Heq|[pre Hpre]].
        -- exfalso. rewrite Heq in Hsp at 1.
           rewrite split_without in Hsp by assumption. discriminate.
        -- exists (String c pre). exact (f_equal (String c) Hpre).
Qed.

(** What [rstrip] returns does not end in the stripped character, and the
    input is that followed by copies of the character only. *)
Lemma rstrip_no_trailing ch s pre : rstrip ch s <> pre +:+ String ch "".
Proof.
  revert pre. induction s as [|c s IH]; intros pre; simpl.
  - destruct pre; discriminate.
  - destruct (rstrip ch s) as [|r rs] eqn:Hr.
    + destruct (Ascii.eqb_spec c ch) as [->|Hne]; [destruct pre; discriminate|].
      destruct pre as [|p [|q pre]]; simpl; [congruence|discriminate..].
    + destruct pre as [|p pre]; simpl; [discriminate|].
      intros [= -> H]. apply (IH pre). exact H.
Qed.

Lemma rstrip_decompose ch s :
  exists n, s = rstrip ch s +:+ String.string_of_list_ascii (repeat ch n).
Proof.
  induction s as [|c s [n IH]]; simpl.
  - exists 0. reflexivity.
  - destruct (rstrip ch s) as [|r rs] eqn:Hr.
    + destruct (Ascii.eqb_spec c ch) as [->|Hne].
      * exists (S n). exact (f_equal (String ch) IH).
      * exists n. exact (f_equal (String c) IH).
    + exists n. exact (f_equal (String c) IH).
Qed.

(** ** The clock *)

Lemma length_zero_padded w n : String.length (zero_padded w n) = w.
Proof.
  revert n. induction w as [|w IH]; intros n; simpl; [reflexivity|].
  rewrite string_length_app, IH. simpl. lia.
Qed.

Lemma digit_is_digit n : is_digit (digit n).
Proof.
  unfold is_digit, digit. pose proof (Nat.mod_upper_bound n 10).
  rewrite nat_ascii_embedding by lia. lia.
Qed.

Lemma zero_padded_digits w n : Forall is_digit (letters (zero_padded w n)).
Proof.
  revert n. induction w as [|w IH]; intros n; simpl; [constructor|].
  rewrite letters_app. apply Forall_app. split; [apply IH|].
  constructor; [apply digit_is_digit|constructor].
Qed.

Lemma strftime_basic dt :
  strftime dt Backup.date_format
  = zero_padded 4 (year dt) +:+ zero_padded 2 (month dt) +:+ zero_padded 2 (day dt)
    +:+ "_" +:+ zero_padded 2 (hour dt) +:+ zero_padded 2 (minute dt)
    +:+ zero_padded 2 (second dt).
Proof.
  rewrite <- (string_app_nil_r (zero_padded 2 (second dt))). reflexivity.
Qed.

Lemma strftime_multi dt :
  strftime dt BackupMulti.date_format
  = zero_padded 4 (year dt) +:+ "-" +:+ zero_padded 2 (month dt) +:+ "-"
    +:+ zero_padded 2 (day dt) +:+ "_" +:+ zero_padded 2 (hour dt) +:+ ":"
    +:+ zero_padded 2 (minute dt) +:+ ":" +:+ zero_padded 2 (second dt).
Proof.
  rewrite <- (string_app_nil_r (zero_padded 2 (second dt))). reflexivity.
Qed.

(** ** Storage keys *)

Lemma zone_id_no_slash zone : "/"%char ∉ letters (zone_id zone).
Proof. apply last_item_split. Qed.

(** In the collision-aware layout the key determines the name and the id. *)
Lemma multi_key_inj date z1 z2 :
  BackupMulti.backup_file_key date z1 = BackupMulti.backup_file_key date z2 ->
  zone_name z1 = zone_name z2 /\ zone_id z1 = zone_id z2.
Proof.
  unfold BackupMulti.backup_file_key. intros H%String.app_inj%String.app_inj.
  rewrite <- !string_app_assoc in H. apply string_app_inv_tail in H.
  apply (f_equal letters) in H. rewrite !letters_app, <- !app_assoc in H.
  destruct (split_point "/" _ _ _ _ (zone_id_no_slash z1) (zone_id_no_slash z2) H)
    as [Hn Hi].
  split; apply letters_inj; assumption.
Qed.

Lemma multi_key_ne date z1 z2 :
  zone_id z1 <> zone_id z2 ->
  BackupMulti.backup_file_key date z1 <> BackupMulti.backup_file_key date z2.
Proof. intros Hne H%multi_key_inj. tauto. Qed.

Lemma summary_key_inj date n1 n2 :
  BackupMulti.summary_file_key date n1 = BackupMulti.summary_file_key date n2 -> n1 = n2.
Proof.
  unfold BackupMulti.summary_file_key. intros H%String.app_inj%String.app_inj.
  apply string_app_inv_tail in H. exact H.
Qed.

(** A summary key is never a backup key. *)
Lemma summary_key_not_backup date name zone :
  BackupMulti.summary_file_key date name <> BackupMulti.backup_file_key date zone.
Proof.
  unfold BackupMulti.summary_file_key, BackupMulti.backup_file_key.
  intros H%String.app_inj%String.app_inj.
  apply (f_equal letters) in H. rewrite !letters_app in H.
  change (letters "/zone_summary.json")
    with (letters "/zone_summar" ++ letters "y.json") in H.
  change (letters "/route53_backup.json")
    with (letters "/route53_backu" ++ letters "p.json") in H.
  rewrite !app_assoc in H. apply app_inj_2 in H as [_ H]; [discriminate|reflexivity].
Qed.

(** In the basic layout the key is a function of the name alone. *)
Lemma basic_key_eq date z1 z2 :
  Backup.backup_file_key date z1 = Backup.backup_file_key date z2
  <-> zone_name z1 = zone_name z2.
Proof.
  unfold Backup.backup_file_key. split; [|intros ->; reflexivity].
  intros H%String.app_inj%String.app_inj.
  apply string_app_inv_tail in H. exact H.
Qed.

(** ** Service calls that do not fail *)

Lemma same_account_refl w : same_account w w.
Proof. unfold same_account. auto. Qed.

Lemma same_account_trans w1 w2 w3 :
  same_account w1 w2 -> same_account w2 w3 -> same_account w1 w3.
Proof. unfold same_account. intros (?&?&?&?&?) (?&?&?&?&?). repeat split; congruence. Qed.

Lemma same_account_called w : same_account w (called w).
Proof. unfold same_account. auto. Qed.

Create HintDb account.
#[local] Hint Resolve same_account_refl same_account_called same_account_trans : account.

Lemma fault_free_same w w' : same_account w w' -> fault_free w -> fault_free w'.
Proof. intros (_&_&_&_&Hf) H i. rewrite Hf. apply H. Qed.

Lemma put_object_ok bucket key doc w :
  faults w (calls w) = None ->
  put_object bucket key doc w
  = (inr tt, stored bucket key doc (called (requested_put bucket key doc w))).
Proof. intros H. unfold put_object, service. simpl. rewrite H. reflexivity. Qed.

Lemma get_object_ok bucket key w :
  faults w (calls w) = None ->
  get_object bucket key w
  = (match objects w !! (bucket, key) with
     | Some b => inr b
     | None => inl (ClientError "GetObject" "NoSuchKey" "The specified key does not exist.")
     end, called w).
Proof.
  intros H. unfold get_object, service. rewrite H. simpl.
  destruct (objects w !! (bucket, key)); reflexivity.
Qed.

Lemma fetch_page_ok (acc page : list json) w :
  faults w (calls w) = None ->
  bind (fetch_page page) (fun sets => ret (acc ++ sets)) w = (inr (acc ++ page), called w).
Proof. intros H. unfold bind, fetch_page, service. rewrite H. reflexivity. Qed.

Lemma fetch_pages_ok pages :
  forall acc w,
    fault_free w ->
    exists w',
      for_fold pages acc
        (fun records page => bind (fetch_page page) (fun sets => ret (records ++ sets))) w
      = (inr (acc ++ concat pages), w')
      /\ same_account w w' /\ objects w' = objects w /\ puts w' = puts w
      /\ submitted w' = submitted w /\ applied w' = applied w.
Proof.
  set (body := fun records page => bind (fetch_page page) (fun sets => ret (records ++ sets))).
  induction pages as [|page pages IH]; intros acc w Hff.
  - exists w. simpl. rewrite app_nil_r. auto 10 with account.
  - destruct (IH (acc ++ page) (called w)) as (w' & Hrun & Hacc & Ho & Hp & Hs & Ha).
    { exact Hff. }
    exists w'. cbn [for_fold]. unfold bind at 1. unfold body at 1.
    rewrite fetch_page_ok by apply Hff.
    rewrite Hrun. simpl. rewrite app_assoc. auto 10.
Qed.

Lemma fetch_records_ok zone w :
  fault_free w ->
  exists w',
    fetch_records (zone_id zone) w = (inr (all_records w zone), w')
    /\ same_account w w' /\ objects w' = objects w /\ puts w' = puts w
    /\ submitted w' = submitted w /\ applied w' = applied w.
Proof. intros Hff. apply (fetch_pages_ok _ [] w Hff). Qed.

(** ** The basic backup *)

Section basic_backup.
Local Open Scope py_scope.
Variables (bucket date : string).

Lemma basic_zone_ok zone w :
  fault_free w ->
  exists w',
    Backup.backup_zone bucket date zone w = (inr tt, w')
    /\ same_account w w'
    /\ objects w'
       = <[(bucket, Backup.backup_file_key date zone)
            := JsonBody (Backup.backup_data zone (all_records w zone))]> (objects w)
    /\ puts w'
       = puts w ++ [(bucket, Backup.backup_file_key date zone,
                     Backup.backup_data zone (all_records w zone))].
Proof.
  intros Hff.
  destruct (fetch_records_ok zone w Hff) as (w1 & Hrun & Hacc & Ho & Hp & _).
  pose proof (fault_free_same _ _ Hacc Hff) as Hff1.
  eexists. unfold Backup.backup_zone, bind. rewrite Hrun.
  rewrite put_object_ok by apply Hff1.
  split; [reflexivity|]. simpl. rewrite Ho, Hp. split; [|auto].
  unfold same_account in *. simpl. exact Hacc.
Qed.

Lemma all_records_same w w' zone :
  same_account w w' -> all_records w' zone = all_records w zone.
Proof. intros (_&_&_&Hr&_). unfold all_records. rewrite Hr. reflexivity. Qed.

Lemma basic_zones_ok w0 zones :
  forall w,
    fault_free w -> same_account w0 w ->
    exists w',
      for_each zones (Backup.backup_zone bucket date) w = (inr tt, w')
      /\ same_account w0 w'
      /\ objects w'
         = foldl (fun objs zone =>
                    <[(bucket, Backup.backup_file_key date zone)
                       := JsonBody (Backup.backup_data zone (all_records w0 zone))]> objs)
                 (objects w) zones
      /\ puts w'
         = puts w ++ map (fun zone => (bucket, Backup.backup_file_key date zone,
                                       Backup.backup_data zone (all_records w0 zone)))
                         zones.
Proof.
  induction zones as [|zone zones IH]; intros w Hff H0.
  - exists w. simpl. rewrite app_nil_r. auto.
  - destruct (basic_zone_ok zone w Hff) as (w1 & Hrun & Hacc & Ho & Hp).
    destruct (IH w1 (fault_free_same _ _ Hacc Hff) (same_account_trans _ _ _ H0 Hacc))
      as (w' & Hrun' & Hacc' & Ho' & Hp').
    exists w'. cbn [for_each]. unfold bind. rewrite Hrun, Hrun'.
    split; [reflexivity|]. split; [assumption|].
    rewrite Ho', Hp', Ho, Hp, (all_records_same _ _ zone H0). simpl.
    rewrite <- app_assoc. auto.
Qed.

End basic_backup.

(** ** The collision-aware backup *)

Section multi_backup.
Local Open Scope py_scope.
Variables (bucket date : string) (w0 : World).

Let entry (zone : hosted_zone) : json :=
  BackupMulti.summary_data date zone (all_records w0 zone).

Lemma named_snoc name zones zone :
  named name (zones ++ [zone])
  = named name zones ++ (if decide (zone_name zone = name) then [zone] else []).
Proof.
  unfold named. rewrite filter_app. reflexivity.
Qed.

Lemma named_nonempty name zones :
  named name zones <> [] <-> name ∈ map zone_name zones.
Proof.
  unfold named. induction zones as [|z zones IH]; simpl.
  - split; [intros H; destruct H; reflexivity|]. intros H. inversion H.
  - destruct (decide (zone_name z = name)) as [H|H].
    + rewrite filter_cons_True by assumption. split; [|discriminate].
      intros _. rewrite H. left.
    + rewrite filter_cons_False by assumption. rewrite IH. split.
      * intros Hin. right. exact Hin.
      * intros Hin. apply elem_of_cons in Hin as [Hin|Hin]; [congruence|exact Hin].
Qed.

(** The inner [try] and the write that follows, when the key holds JSON or
    nothing. *)
Lemma write_summary_ok key item w :
  fault_free w ->
  (forall raw, objects w !! (bucket, key) <> Some (RawBody raw)) ->
  let content :=
    match objects w !! (bucket, key) with
    | Some (JsonBody existing) => BackupMulti.appended existing item
    | _ => JList [item]
    end in
  BackupMulti.write_summary bucket key item w
  = (inr tt, stored bucket key content
               (called (requested_put bucket key content (called w)))).
Proof.
  intros Hff Hraw content. unfold BackupMulti.write_summary, bind at 1.
  assert (Hc : BackupMulti.summary_content bucket key item w = (inr content, called w)).
  { unfold BackupMulti.summary_content, try_except, bind at 1.
    rewrite get_object_ok by apply Hff. subst content.
    destruct (objects w !! (bucket, key)) as [[existing|raw]|] eqn:Ho.
    - reflexivity.
    - destruct (Hraw raw eq_refl).
    - reflexivity. }
  rewrite Hc. apply put_object_ok, Hff.
Qed.

Lemma count_name_lookup name cnt name' :
  BackupMulti.count_name name cnt !! name'
  = if decide (name = name')
    then Some (match cnt !! name with Some n => n + 1 | None => 1 end)
    else cnt !! name'.
Proof.
  unfold BackupMulti.count_name.
  destruct (cnt !! name) as [n|] eqn:Hn; rewrite lookup_insert;
    destruct (decide (name = name')); reflexivity.
Qed.

Lemma multi_zone_ok done cnt zone w :
  fault_free w -> same_account w0 w ->
  multi_inv bucket date w0 done cnt (objects w) ->
  exists cnt' w',
    BackupMulti.backup_zone bucket date cnt zone w = (inr cnt', w')
    /\ same_account w0 w'
    /\ multi_inv bucket date w0 (done ++ [zone]) cnt' (objects w')
    /\ map fst (puts w')
       = map fst (puts w)
         ++ (bucket, BackupMulti.backup_file_key date zone)
         :: (if bool_decide (zone_name zone ∈ map zone_name done)
             then [(bucket, BackupMulti.summary_file_key date (zone_name zone))]
             else []).
Proof.
  intros Hff H0 (Hcnt & Hsum & Hbak).
  destruct (fetch_records_ok zone w Hff) as (w1 & Hrun1 & Hacc1 & Ho1 & Hp1 & _).
  pose proof (fault_free_same _ _ Hacc1 Hff) as Hff1.
  rewrite (all_records_same _ _ zone H0) in Hrun1.
  set (records := all_records w0 zone) in *.
  set (bkey := BackupMulti.backup_file_key date zone).
  set (skey := BackupMulti.summary_file_key date (zone_name zone)).
  set (w2 := stored bucket bkey (BackupMulti.backup_data zone records)
               (called (requested_put bucket bkey (BackupMulti.backup_data zone records) w1))).
  assert (Hacc2 : same_account w0 w2).
  { apply (same_account_trans _ _ _ H0). exact Hacc1. }
  assert (Hff2 : fault_free w2) by exact Hff1.
  set (k := length (named (zone_name zone) done)).
  assert (Hk : BackupMulti.count_name (zone_name zone) cnt !! zone_name zone = Some (S k)).
  { rewrite count_name_lookup, decide_True by reflexivity. rewrite Hcnt. fold k.
    destruct k; f_equal; lia. }
  assert (Hseen : bool_decide (zone_name zone ∈ map zone_name done) = (1 <? S k)).
  { destruct (Nat.ltb_spec 1 (S k)) as [Hlt|Hge].
    - apply bool_decide_eq_true, named_nonempty. intros Hnil. subst k.
      rewrite Hnil in Hlt. simpl in Hlt. lia.
    - apply bool_decide_eq_false. rewrite <- named_nonempty. intros Hne. apply Hne.
      apply nil_length_inv. fold k. lia. }
  (* the counts after this zone *)
  assert (Hcnt' : forall name,
             BackupMulti.count_name (zone_name zone) cnt !! name
             = match length (named name (done ++ [zone])) with 0 => None | n => Some n end).
  { intros name. rewrite named_snoc, length_app, count_name_lookup.
    destruct (decide (zone_name zone = name)) as [<-|Hne]; simpl.
    - rewrite Hcnt. fold k. rewrite Nat.add_1_r. destruct k; simpl; f_equal; lia.
    - rewrite Nat.add_0_r. apply Hcnt. }
  (* the summaries of the other names *)
  assert (Hother : forall name, name <> zone_name zone ->
             summary_after entry name (done ++ [zone]) = summary_after entry name done).
  { intros name Hne. unfold summary_after. rewrite named_snoc.
    rewrite decide_False by congruence. rewrite app_nil_r. reflexivity. }
  (* the backup documents after the first write *)
  assert (Hbak2 : forall z, z ∈ done ++ [zone] ->
             objects w2 !! (bucket, BackupMulti.backup_file_key date z)
             = Some (JsonBody (BackupMulti.backup_data z (all_records w0 z)))).
  { intros z Hz. simpl. rewrite Ho1.
    destruct (decide (bkey = BackupMulti.backup_file_key date z)) as [He|Hne].
    - rewrite <- He, lookup_insert_eq. do 2 f_equal.
      destruct (multi_key_inj _ _ _ He) as [Hn Hi].
      unfold BackupMulti.backup_data, records, all_records. rewrite Hn, Hi. reflexivity.
    - rewrite lookup_insert_ne by congruence.
      apply elem_of_app in Hz as [Hz|Hz]; [apply Hbak, Hz|].
      apply list_elem_of_singleton in Hz. subst z. destruct Hne. reflexivity. }
  assert (Hsum2 : forall name,
             objects w2 !! (bucket, BackupMulti.summary_file_key date name)
             = summary_after entry name done).
  { intros name. simpl. rewrite Ho1, lookup_insert_ne; [apply Hsum|].
    intros [= H]. symmetry in H. apply summary_key_not_backup in H. exact H. }
  unfold BackupMulti.backup_zone. unfold bind at 1. rewrite Hrun1.
  unfold bind at 1. rewrite put_object_ok by apply Hff1. fold bkey w2.
  unfold bind at 1. rewrite Hk. simpl lift. unfold ret at 1. cbv beta iota.
  unfold bind at 1. fold skey. rewrite Hseen.
  destruct (1 <? S k) eqn:Hlt.
  - (* the name has been met: the summary is written *)
    rewrite write_summary_ok; [|exact Hff2|].
    2:{ intros raw. unfold skey. rewrite Hsum2. unfold summary_after.
        destruct (drop 1 (named (zone_name zone) done)); discriminate. }
    eexists _, _. split; [reflexivity|]. split; [exact Hacc2|]. split.
    + split; [exact Hcnt'|]. split.
      * intros name. simpl objects.
        destruct (decide (name = zone_name zone)) as [->|Hne].
        -- fold skey. rewrite lookup_insert_eq.
           change (objects (called w2)) with (objects w2).
           unfold skey at 1. rewrite Hsum2.
           unfold summary_after. rewrite named_snoc, decide_True by reflexivity.
           apply Nat.ltb_lt in Hlt.
           destruct (named (zone_name zone) done) as [|z1 later] eqn:Hnamed;
             [subst k; try rewrite Hnamed in Hlt; simpl in Hlt; lia|].
           simpl. destruct later as [|z2 later]; simpl.
           ++ reflexivity.
           ++ unfold BackupMulti.appended. rewrite map_app. reflexivity.
        -- rewrite lookup_insert_ne.
           ++ change (objects (called w2)) with (objects w2).
              rewrite Hsum2. symmetry. apply Hother. exact Hne.
           ++ intros [= H]. apply summary_key_inj in H. congruence.
      * intros z Hz. simpl objects. rewrite lookup_insert_ne.
        -- apply Hbak2, Hz.
        -- intros [= H]. apply summary_key_not_backup in H. exact H.
    + simpl. rewrite !map_app, Hp1. simpl. rewrite <- app_assoc. reflexivity.
  - (* first zone of its name: no summary *)
    eexists _, _. unfold ret. split; [reflexivity|]. split; [exact Hacc2|]. split.
    + split; [exact Hcnt'|]. split; [|exact Hbak2].
      intros name. rewrite Hsum2.
      destruct (decide (name = zone_name zone)) as [->|Hne]; [|symmetry; apply Hother, Hne].
      unfold summary_after. rewrite named_snoc, decide_True by reflexivity.
      apply Nat.ltb_ge in Hlt.
      assert (Hnil : named (zone_name zone) done = []) by (apply nil_length_inv; fold k; lia).
      rewrite Hnil. reflexivity.
    + simpl. rewrite !map_app, Hp1. reflexivity.
Qed.

End multi_backup.

Section multi_run.
Local Open Scope py_scope.
Variables (bucket date : string) (w0 : World).

Lemma multi_zones_ok zones :
  forall done cnt w,
    fault_free w -> same_account w0 w ->
    multi_inv bucket date w0 done cnt (objects w) ->
    exists cnt' w',
      for_fold zones cnt (BackupMulti.backup_zone bucket date) w = (inr cnt', w')
      /\ same_account w0 w'
      /\ multi_inv bucket date w0 (done ++ zones) cnt' (objects w')
      /\ map fst (puts w')
         = map fst (puts w) ++ written_keys bucket date (map zone_name done) zones.
Proof.
  induction zones as [|zone zones IH]; intros done cnt w Hff H0 Hinv.
  - exists cnt, w. simpl. rewrite !app_nil_r. auto.
  - destruct (multi_zone_ok bucket date w0 done cnt zone w Hff H0 Hinv)
      as (cnt1 & w1 & Hrun1 & Hacc1 & Hinv1 & Hp1).
    destruct (IH (done ++ [zone]) cnt1 w1) as (cnt' & w' & Hrun' & Hacc' & Hinv' & Hp').
    { apply (fault_free_same w0); [exact Hacc1|].
      intros i. destruct H0 as (_&_&_&_&Hf). rewrite <- Hf. apply Hff. }
    { exact Hacc1. }
    { exact Hinv1. }
    exists cnt', w'. cbn [for_fold]. unfold bind. rewrite Hrun1, Hrun'.
    split; [reflexivity|]. split; [exact Hacc'|].
    rewrite <- app_assoc in Hinv'. split; [exact Hinv'|].
    rewrite Hp', Hp1, map_app, <- app_assoc. reflexivity.
Qed.

End multi_run.

(** A collision-aware run that meets no failure and finds nothing under its
    summary keys completes, with the loop's state for all the zones. *)
Lemma multi_run_ok w bucket :
  environ w !! "BACKUP_BUCKET" = Some bucket ->
  fault_free w ->
  let date := strftime (now w) BackupMulti.date_format in
  (forall name, objects w !! (bucket, BackupMulti.summary_file_key date name) = None) ->
  exists cnt w',
    BackupMulti.run w = (inr (BackupMulti.completed bucket date (HostedZones w)), w')
    /\ same_account w w'
    /\ multi_inv bucket date w (HostedZones w) cnt (objects w')
    /\ map fst (puts w') = map fst (puts w) ++ written_keys bucket date [] (HostedZones w).
Proof.
  intros He Hff date Hfresh.
  destruct (multi_zones_ok bucket date w (HostedZones w) [] ∅ (called w))
    as (cnt & w' & Hrun & Hacc & Hinv & Hp).
  { exact Hff. }
  { auto with account. }
  { split; [intros name; apply lookup_empty|]. split; [exact Hfresh|].
    intros zone Hz. inversion Hz. }
  exists cnt, w'. unfold BackupMulti.run, bind at 1, os_environ. rewrite He.
  unfold bind at 1, list_hosted_zones, service. rewrite (Hff (calls w)).
  unfold bind at 1, datetime_now. simpl now. fold date.
  change (HostedZones (called w)) with (HostedZones w).
  unfold bind at 1. rewrite Hrun. auto.
Qed.

(** A basic run that meets no failure completes and writes one document per
    zone. *)
Lemma basic_run_ok w bucket :
  environ w !! "BACKUP_BUCKET" = Some bucket ->
  fault_free w ->
  let date := strftime (now w) Backup.date_format in
  exists w',
    Backup.run w = (inr (Backup.completed bucket date), w')
    /\ same_account w w'
    /\ objects w'
       = foldl (fun objs zone =>
                  <[(bucket, Backup.backup_file_key date zone)
                     := JsonBody (Backup.backup_data zone (all_records w zone))]> objs)
               (objects w) (HostedZones w)
    /\ puts w'
       = puts w ++ map (fun zone => (bucket, Backup.backup_file_key date zone,
                                     Backup.backup_data zone (all_records w zone)))
                       (HostedZones w).
Proof.
  intros He Hff date.
  destruct (basic_zones_ok bucket date w (HostedZones w) (called w))
    as (w' & Hrun & Hacc & Ho & Hp).
  { exact Hff. }
  { auto with account. }
  exists w'. unfold Backup.run, bind at 1, os_environ. rewrite He.
  unfold bind at 1, list_hosted_zones, service. rewrite (Hff (calls w)).
  unfold bind at 1, datetime_now. simpl now. fold date.
  change (HostedZones (called w)) with (HostedZones w).
  unfold bind at 1. rewrite Hrun. auto.
Qed.

(** The top-level [except Exception] of the two backup handlers. *)
Lemma backup_handler_catches (run : M response) w :
  try_except run (fun _ => true) (fun e => ret (backup_failed e)) w
  = (match (run w).1 with inl e => inr (backup_failed e) | inr r => inr r end, (run w).2).
Proof. unfold try_except. destruct (run w) as [[e|r] w']; reflexivity. Qed.

(** ** Claims about the collision-aware backup *)

Lemma filter_key_length (key : string * string) (l : list (string * string * json)) :
  length (filter (fun p => p.1 = key) l) = length (filter (fun k => k = key) (map fst l)).
Proof.
  induction l as [|p l IH]; [reflexivity|]. simpl.
  destruct (decide (p.1 = key)) as [H|H].
  - rewrite !filter_cons_True by assumption. simpl. f_equal. exact IH.
  - rewrite !filter_cons_False by assumption. exact IH.
Qed.

(** The summary key of a name is written once for each of its zones but the
    first one met. *)
Lemma written_keys_summary bucket date name zones :
  forall seen,
    length (filter (fun k => k = (bucket, BackupMulti.summary_file_key date name))
              (written_keys bucket date seen zones))
    = length (named name zones) - (if bool_decide (name ∈ seen) then 0 else 1).
Proof.
  induction zones as [|zone zones IH]; intros seen.
  - simpl. destruct (bool_decide (name ∈ seen)); reflexivity.
  - cbn [written_keys]. rewrite filter_cons_False.
    2:{ intros [= H]. symmetry in H. apply summary_key_not_backup in H. exact H. }
    rewrite filter_app, length_app, IH.
    unfold named at 2. destruct (decide (zone_name zone = name)) as [Hz|Hz].
    + rewrite filter_cons_True by assumption. fold (named name zones). rewrite Hz.
      rewrite (bool_decide_eq_true_2 (name ∈ seen ++ [name]))
        by (apply elem_of_app; right; left).
      destruct (bool_decide (name ∈ seen)).
      * rewrite filter_cons_True by reflexivity. simpl. lia.
      * simpl. lia.
    + rewrite filter_cons_False by assumption. fold (named name zones).
      assert (Hin : bool_decide (name ∈ seen ++ [zone_name zone]) = bool_decide (name ∈ seen)).
      { apply bool_decide_ext. rewrite elem_of_app, list_elem_of_singleton.
        split; [intros [H|H]; [exact H|congruence]|auto]. }
      rewrite Hin.
      destruct (bool_decide (zone_name zone ∈ seen)); [|simpl; lia].
      rewrite filter_cons_False; [simpl; lia|].
      intros [= H]. apply summary_key_inj in H. congruence.
Qed.

(** C1: in a collision-aware run that meets no failure and finds nothing
    under its summary keys, a name carried by [k >= 2] zones ends with a
    summary document that lists, in listing order, the entries of its second
    and later zones and nothing else ([k - 1] entries); a name carried by at
    most one zone ends with no summary document; and the summary key of the
    name has been written [k - 1] times. *)
Theorem summary_lists_later_zones w bucket name :
  environ w !! "BACKUP_BUCKET" = Some bucket ->
  fault_free w ->
  let date := strftime (now w) BackupMulti.date_format in
  let key := (bucket, BackupMulti.summary_file_key date name) in
  (forall other, objects w !! (bucket, BackupMulti.summary_file_key date other) = None) ->
  let out := BackupMulti.lambda_handler w in
  let same := named name (HostedZones w) in
  let k := length same in
  (2 <= k ->
     objects out.2 !! key
     = Some (JsonBody (JList (map (fun zone => BackupMulti.summary_data date zone
                                                 (all_records w zone))
                                  (drop 1 same))))
     /\ length (drop 1 same) = k - 1)
  /\ (k <= 1 -> objects out.2 !! key = None)
  /\ length (filter (fun p => p.1 = key) (puts out.2))
     = length (filter (fun p => p.1 = key) (puts w)) + (k - 1).
Proof.
  intros He Hff date key Hfresh out same k.
  destruct (multi_run_ok w bucket He Hff Hfresh)
    as (cnt & w' & Hrun & Hacc & (_ & Hsum & _) & Hp).
  assert (Hout : out.2 = w').
  { subst out. unfold BackupMulti.lambda_handler.
    rewrite backup_handler_catches, Hrun. reflexivity. }
  rewrite Hout. specialize (Hsum name). fold date key in Hsum.
  unfold summary_after in Hsum. fold same in Hsum.
  split; [|split].
  - intros Hk. rewrite Hsum. split; [|rewrite length_drop; reflexivity].
    destruct same as [|z1 [|z2 later]]; simpl in *; subst k; simpl in *; try lia.
    reflexivity.
  - intros Hk. rewrite Hsum.
    destruct same as [|z1 [|z2 later]]; simpl in *; subst k; simpl in *; try lia;
      reflexivity.
  - rewrite !filter_key_length, Hp, filter_app, length_app.
    subst key. rewrite written_keys_summary. reflexivity.
Qed.

Lemma summary_lists_later_zones_witness :
  let w := sample_world None sample_zones no_faults in
  let z2 := {| Id := "/hostedzone/Z2"; Name := "example.com." |} in
  objects (BackupMulti.lambda_handler w).2
    !! ("dns-backups", "2024-03-07_09:05:00/example.com/zone_summary.json")
  = Some (JsonBody (JList [BackupMulti.summary_data "2024-03-07_09:05:00" z2 sample_records])).
Proof.
  intros w z2.
  pose proof (summary_lists_later_zones w "dns-backups" "example.com"
                eq_refl (fun _ => eq_refl) (fun _ => eq_refl)) as (H & _ & _).
  apply H. vm_compute. lia.
Defined.

(** The scenario of the specification: two zones named example.com and one
    named other.com. *)
Example multi_scenario :
  let out := BackupMulti.lambda_handler (sample_world None sample_zones no_faults) in
  map fst (puts out.2)
  = [("dns-backups", "2024-03-07_09:05:00/example.com/Z1/route53_backup.json");
     ("dns-backups", "2024-03-07_09:05:00/example.com/Z2/route53_backup.json");
     ("dns-backups", "2024-03-07_09:05:00/example.com/zone_summary.json");
     ("dns-backups", "2024-03-07_09:05:00/other.com/Z3/route53_backup.json")]
  /\ objects out.2 !! ("dns-backups", "2024-03-07_09:05:00/other.com/zone_summary.json")
     = None.
Proof. vm_compute. auto. Qed.

(** ** Claims about the storage layout *)

(** C8: in runs that meet no failure (and, for the collision-aware handler,
    find nothing under the summary keys), the basic handler writes, zone
    after zone, the key [<YYYYMMDD_HHMMSS>/<zone_name>/route53_backup.json]
    and the collision-aware handler the key
    [<YYYY-MM-DD_HH:MM:SS>/<zone_name>/<zone_id>/route53_backup.json],
    followed for a name met before by
    [<YYYY-MM-DD_HH:MM:SS>/<zone_name>/zone_summary.json]; the two stamps are
    15 and 19 characters of clock fields, each field as many decimal digits
    as its width; [zone_id] holds no
    slash and is the identifier or what follows its last slash; [zone_name]
    does not end in a dot and is the name without its trailing dots. *)
Theorem backup_keys_layout w bucket :
  environ w !! "BACKUP_BUCKET" = Some bucket ->
  fault_free w ->
  let dt := now w in
  let basic_stamp :=
    zero_padded 4 (year dt) +:+ zero_padded 2 (month dt) +:+ zero_padded 2 (day dt)
    +:+ "_" +:+ zero_padded 2 (hour dt) +:+ zero_padded 2 (minute dt)
    +:+ zero_padded 2 (second dt) in
  let multi_stamp :=
    zero_padded 4 (year dt) +:+ "-" +:+ zero_padded 2 (month dt) +:+ "-"
    +:+ zero_padded 2 (day dt) +:+ "_" +:+ zero_padded 2 (hour dt) +:+ ":"
    +:+ zero_padded 2 (minute dt) +:+ ":" +:+ zero_padded 2 (second dt) in
  (forall name, objects w !! (bucket, multi_stamp +:+ "/" +:+ name +:+ "/zone_summary.json") = None) ->
  map fst (puts (Backup.lambda_handler w).2)
  = map fst (puts w)
    ++ map (fun zone => (bucket, basic_stamp +:+ "/" +:+ zone_name zone
                                 +:+ "/route53_backup.json"))
           (HostedZones w)
  /\ map fst (puts (BackupMulti.lambda_handler w).2)
     = map fst (puts w) ++ written_keys bucket multi_stamp [] (HostedZones w)
  /\ (forall zone,
        BackupMulti.backup_file_key multi_stamp zone
        = multi_stamp +:+ "/" +:+ zone_name zone +:+ "/" +:+ zone_id zone
          +:+ "/route53_backup.json"
        /\ BackupMulti.summary_file_key multi_stamp (zone_name zone)
           = multi_stamp +:+ "/" +:+ zone_name zone +:+ "/zone_summary.json")
  /\ String.length basic_stamp = 15 /\ String.length multi_stamp = 19
  /\ (forall width n,
        String.length (zero_padded width n) = width
        /\ Forall is_digit (letters (zero_padded width n)))
  /\ (forall zone,
        ("/"%char ∉ letters (zone_id zone))
        /\ (Id zone = zone_id zone
            \/ exists pre, Id zone = pre +:+ "/" +:+ zone_id zone))
  /\ (forall zone,
        (forall pre, zone_name zone <> pre +:+ ".")
        /\ exists n, Name zone
                     = zone_name zone +:+ String.string_of_list_ascii (repeat "."%char n)).
Proof.
  intros He Hff dt basic_stamp multi_stamp Hfresh.
  assert (Hb : strftime (now w) Backup.date_format = basic_stamp) by apply strftime_basic.
  assert (Hm : strftime (now w) BackupMulti.date_format = multi_stamp) by apply strftime_multi.
  split; [|split; [|split; [|split; [|split; [|split; [|split]]]]]].
  - destruct (basic_run_ok w bucket He Hff) as (w' & Hrun & _ & _ & Hp).
    unfold Backup.lambda_handler. rewrite backup_handler_catches, Hrun. simpl.
    rewrite Hp, Hb, map_app, map_map. reflexivity.
  - destruct (multi_run_ok w bucket He Hff) as (cnt & w' & Hrun & _ & _ & Hp).
    { rewrite Hm. exact Hfresh. }
    unfold BackupMulti.lambda_handler. rewrite backup_handler_catches, Hrun. simpl.
    rewrite Hp, Hm. reflexivity.
  - intros zone. split; reflexivity.
  - subst basic_stamp. rewrite !string_length_app, !length_zero_padded. reflexivity.
  - subst multi_stamp. rewrite !string_length_app, !length_zero_padded. reflexivity.
  - intros width n. split; [apply length_zero_padded|apply zero_padded_digits].
  - intros zone. apply last_item_split.
  - intros zone. split; [intros pre; apply rstrip_no_trailing|apply rstrip_decompose].
Qed.

Lemma backup_keys_layout_witness :
  let w := sample_world None sample_zones no_faults in
  map fst (puts (Backup.lambda_handler w).2)
  = [("dns-backups", "20240307_090500/example.com/route53_backup.json");
     ("dns-backups", "20240307_090500/example.com/route53_backup.json");
     ("dns-backups", "20240307_090500/other.com/route53_backup.json")].
Proof.
  intros w.
  pose proof (backup_keys_layout w "dns-backups" eq_refl (fun _ => eq_refl)
                (fun _ => eq_refl)) as (H & _).
  exact H.
Defined.

(** ** Claims about overwriting *)

Lemma foldl_insert_other {V} (keyf : hosted_zone -> string * string)
    (valf : hosted_zone -> V) (zones : list hosted_zone) :
  forall (objs : gmap (string * string) V) key,
    key ∉ map keyf zones ->
    foldl (fun m zone => <[keyf zone := valf zone]> m) objs zones !! key = objs !! key.
Proof.
  induction zones as [|zone zones IH]; intros objs key Hkey; [reflexivity|].
  simpl in *. apply not_elem_of_cons in Hkey as [Hne Hkey].
  rewrite IH by assumption. apply lookup_insert_ne. congruence.
Qed.

(** C7, as stated, fails for the basic handler: two zones with one name and
    different identifiers write the same key, and the second document
    replaces the first. *)
Lemma basic_backup_overwrites :
  let z1 := {| Id := "/hostedzone/Z1"; Name := "example.com." |} in
  let z2 := {| Id := "/hostedzone/Z2"; Name := "example.com." |} in
  let out := Backup.lambda_handler (sample_world None [z1; z2] no_faults) in
  let key := "20240307_090500/example.com/route53_backup.json" in
  z1 <> z2
  /\ Backup.backup_file_key "20240307_090500" z1 = key
  /\ Backup.backup_file_key "20240307_090500" z2 = key
  /\ puts out.2 = [("dns-backups", key, Backup.backup_data z1 sample_records);
                   ("dns-backups", key, Backup.backup_data z2 sample_records)]
  /\ objects out.2 !! ("dns-backups", key)
     = Some (JsonBody (Backup.backup_data z2 sample_records))
  /\ Backup.backup_data z1 sample_records <> Backup.backup_data z2 sample_records.
Proof.
  intros z1 z2 out key.
  split; [discriminate|]. split; [reflexivity|]. split; [reflexivity|].
  split; [vm_compute; reflexivity|]. split; [vm_compute; reflexivity|].
  discriminate.
Qed.

(** C7, amended: in a collision-aware run that completes, zones whose ids
    differ write different backup keys, no summary key is a backup key, and
    every zone's backup document is under its key at the end; in a basic run
    two zones write the same key exactly when their names are equal, and the
    key of a name holds at the end the document of the last zone listed with
    that name. *)
Theorem backups_kept_apart w bucket :
  environ w !! "BACKUP_BUCKET" = Some bucket ->
  fault_free w ->
  let date := strftime (now w) Backup.date_format in
  let date' := strftime (now w) BackupMulti.date_format in
  (forall name, objects w !! (bucket, BackupMulti.summary_file_key date' name) = None) ->
  (forall z1 z2,
     zone_id z1 <> zone_id z2 ->
     BackupMulti.backup_file_key date' z1 <> BackupMulti.backup_file_key date' z2)
  /\ (forall name zone,
        BackupMulti.summary_file_key date' name <> BackupMulti.backup_file_key date' zone)
  /\ (forall zone,
        zone ∈ HostedZones w ->
        objects (BackupMulti.lambda_handler w).2
          !! (bucket, BackupMulti.backup_file_key date' zone)
        = Some (JsonBody (BackupMulti.backup_data zone (all_records w zone))))
  /\ (forall z1 z2,
        Backup.backup_file_key date z1 = Backup.backup_file_key date z2
        <-> zone_name z1 = zone_name z2)
  /\ (forall before zone after,
        HostedZones w = before ++ zone :: after ->
        zone_name zone ∉ map zone_name after ->
        objects (Backup.lambda_handler w).2 !! (bucket, Backup.backup_file_key date zone)
        = Some (JsonBody (Backup.backup_data zone (all_records w zone)))).
Proof.
  intros He Hff date date' Hfresh.
  split; [intros z1 z2; apply multi_key_ne|].
  split; [intros name zone; apply summary_key_not_backup|].
  split; [|split; [intros z1 z2; apply basic_key_eq|]].
  - destruct (multi_run_ok w bucket He Hff Hfresh)
      as (cnt & w' & Hrun & _ & (_ & _ & Hbak) & _).
    unfold BackupMulti.lambda_handler. rewrite backup_handler_catches, Hrun.
    exact Hbak.
  - intros before zone after Hzones Hlast.
    destruct (basic_run_ok w bucket He Hff) as (w' & Hrun & _ & Ho & _).
    unfold Backup.lambda_handler. rewrite backup_handler_catches, Hrun. simpl.
    fold date in Ho. rewrite Ho, Hzones, foldl_app. simpl.
    rewrite (foldl_insert_other
               (fun z => (bucket, Backup.backup_file_key date z))
               (fun z => JsonBody (Backup.backup_data z (all_records w z)))).
    + apply lookup_insert_eq.
    + intros Hin. apply Hlast.
      apply list_elem_of_In, in_map_iff in Hin as (z & Hk & Hz).
      apply (f_equal snd), basic_key_eq in Hk. rewrite <- Hk.
      apply list_elem_of_In, in_map. exact Hz.
Qed.

Lemma backups_kept_apart_witness :
  let w := sample_world None sample_zones no_faults in
  let z1 := {| Id := "/hostedzone/Z1"; Name := "example.com." |} in
  objects (BackupMulti.lambda_handler w).2
    !! ("dns-backups", "2024-03-07_09:05:00/example.com/Z1/route53_backup.json")
  = Some (JsonBody (BackupMulti.backup_data z1 sample_records)).
Proof.
  intros w z1.
  pose proof (backups_kept_apart w "dns-backups" eq_refl (fun _ => eq_refl)
                (fun _ => eq_refl)) as (_ & _ & H & _).
  apply (H z1). left.
Defined.

(** ** Claims about failures *)

Lemma for_fold_app {A S} (body : S -> A -> M S) l1 :
  forall l2 acc w,
    for_fold (l1 ++ l2) acc body w
    = match for_fold l1 acc body w with
      | (inr acc', w') => for_fold l2 acc' body w'
      | (inl e, w') => (inl e, w')
      end.
Proof.
  induction l1 as [|x l1 IH]; intros l2 acc w; [reflexivity|].
  simpl. unfold bind. destruct (body acc x w) as [[e|acc'] w']; [reflexivity|].
  apply IH.
Qed.

(** The inner [try] as a function of what the read gives. *)
Lemma summary_content_cases bucket key item w :
  BackupMulti.summary_content bucket key item w
  = (match (get_object bucket key w).1 with
     | inr (JsonBody existing) => inr (BackupMulti.appended existing item)
     | inr (RawBody _) => inl (ValueError "Expecting value")
     | inl (ClientError operation code message) =>
         if String.eqb code "NoSuchKey" then inr (JList [item])
         else inl (ClientError operation code message)
     | inl e => inl e
     end, (get_object bucket key w).2).
Proof.
  unfold BackupMulti.summary_content, try_except, bind.
  destruct (get_object bucket key w) as [[e|[existing|raw]] w']; simpl;
    [|reflexivity..].
  destruct e as [operation code message| | | |]; try reflexivity.
  simpl. destruct (String.eqb code "NoSuchKey"); reflexivity.
Qed.

Lemma write_summary_cases bucket key item w :
  BackupMulti.write_summary bucket key item w
  = match BackupMulti.summary_content bucket key item w with
    | (inr content, w') => put_object bucket key content w'
    | (inl e, w') => (inl e, w')
    end.
Proof. reflexivity. Qed.

Lemma summary_read_raises bucket key item w e :
  (get_object bucket key w).1 = inl e ->
  (forall operation message, e <> ClientError operation "NoSuchKey" message) ->
  BackupMulti.summary_content bucket key item w = (inl e, (get_object bucket key w).2)
  /\ BackupMulti.write_summary bucket key item w = (inl e, (get_object bucket key w).2).
Proof.
  intros Hgot Hne.
  rewrite write_summary_cases, summary_content_cases, Hgot.
  destruct e as [operation code message| | | |]; auto.
  destruct (String.eqb_spec code "NoSuchKey") as [->|Hcode]; [|auto].
  destruct (Hne operation message eq_refl).
Qed.

(** C4: the value the collision-aware handler writes to a summary key is a
    new one-element list when the read reports [NoSuchKey], the existing list
    with the entry appended when the key holds a list, and the two-element
    list of the existing value and the entry when it holds an object; any
    other failure of the read leaves the inner [try] and nothing is written;
    a run that meets such a failure at the summary of some zone ends there,
    in the world the read left, with the failure result. *)
Theorem summary_merge_rule bucket key item w :
  let got := get_object bucket key w in
  (forall operation message,
     got.1 = inl (ClientError operation "NoSuchKey" message) ->
     BackupMulti.summary_content bucket key item w = (inr (JList [item]), got.2)
     /\ BackupMulti.write_summary bucket key item w
        = put_object bucket key (JList [item]) got.2)
  /\ (forall l,
        got.1 = inr (JsonBody (JList l)) ->
        BackupMulti.summary_content bucket key item w = (inr (JList (l ++ [item])), got.2)
        /\ BackupMulti.write_summary bucket key item w
           = put_object bucket key (JList (l ++ [item])) got.2)
  /\ (forall d,
        got.1 = inr (JsonBody (JDict d)) ->
        BackupMulti.summary_content bucket key item w
        = (inr (JList [JDict d; item]), got.2)
        /\ BackupMulti.write_summary bucket key item w
           = put_object bucket key (JList [JDict d; item]) got.2)
  /\ (forall e,
        got.1 = inl e ->
        (forall operation message, e <> ClientError operation "NoSuchKey" message) ->
        BackupMulti.summary_content bucket key item w = (inl e, got.2)
        /\ BackupMulti.write_summary bucket key item w = (inl e, got.2))
  /\ (forall w0 before zone after cnt w1 records w2 w3 n e w4,
        environ w0 !! "BACKUP_BUCKET" = Some bucket ->
        faults w0 (calls w0) = None ->
        HostedZones w0 = before ++ zone :: after ->
        let date := strftime (now w0) BackupMulti.date_format in
        for_fold before ∅ (BackupMulti.backup_zone bucket date) (called w0) = (inr cnt, w1) ->
        fetch_records (zone_id zone) w1 = (inr records, w2) ->
        put_object bucket (BackupMulti.backup_file_key date zone)
          (BackupMulti.backup_data zone records) w2 = (inr tt, w3) ->
        BackupMulti.count_name (zone_name zone) cnt !! zone_name zone = Some n ->
        1 < n ->
        get_object bucket (BackupMulti.summary_file_key date (zone_name zone)) w3
        = (inl e, w4) ->
        (forall operation message, e <> ClientError operation "NoSuchKey" message) ->
        BackupMulti.lambda_handler w0 = (inr (backup_failed e), w4)).
Proof.
  intros got.
  split; [|split; [|split; [|split; [apply summary_read_raises|]]]].
  - intros operation message Hgot. subst got.
    rewrite write_summary_cases, summary_content_cases, Hgot. auto.
  - intros l Hgot. subst got.
    rewrite write_summary_cases, summary_content_cases, Hgot. auto.
  - intros d Hgot. subst got.
    rewrite write_summary_cases, summary_content_cases, Hgot. auto.
  - intros w0 before zone after cnt w1 records w2 w3 n e w4 He Hf Hz date Hbefore Hfetch
      Hput Hn Hlt Hget Hne.
    destruct (summary_read_raises bucket
                (BackupMulti.summary_file_key date (zone_name zone))
                (BackupMulti.summary_data date zone records) w3 e) as [_ Hws].
    { rewrite Hget. reflexivity. }
    { exact Hne. }
    rewrite Hget in Hws. simpl in Hws.
    unfold BackupMulti.lambda_handler. rewrite backup_handler_catches.
    assert (Hrun : BackupMulti.run w0 = (inl e, w4)).
    { unfold BackupMulti.run, bind at 1, os_environ. rewrite He.
      unfold bind at 1, list_hosted_zones, service. rewrite Hf.
      unfold bind at 1, datetime_now. simpl now. fold date.
      change (HostedZones (called w0)) with (HostedZones w0). rewrite Hz.
      unfold bind at 1. rewrite for_fold_app, Hbefore.
      cbn [for_fold]. unfold bind at 1.
      unfold BackupMulti.backup_zone. unfold bind at 1. rewrite Hfetch.
      unfold bind at 1. rewrite Hput.
      unfold bind at 1. rewrite Hn. simpl lift. unfold ret at 1. cbv beta iota.
      unfold bind at 1. apply Nat.ltb_lt in Hlt. rewrite Hlt, Hws. reflexivity. }
    rewrite Hrun. reflexivity.
Qed.

(** The four cases of the merge, and a run cut short by a refused read. *)
Example summary_merge_cases :
  let w := sample_world None [] no_faults in
  let item := JString "entry" in
  let key := "k/zone_summary.json" in
  let content body :=
    (BackupMulti.summary_content "dns-backups" key item
       (from_option (fun b => with_object "dns-backups" key b w) w body)).1 in
  content None = inr (JList [item])
  /\ content (Some (JsonBody (JList [JInt 1]))) = inr (JList [JInt 1; item])
  /\ content (Some (JsonBody (JDict [("zone_id", JString "Z1")])))
     = inr (JList [JDict [("zone_id", JString "Z1")]; item])
  /\ (BackupMulti.summary_content "dns-backups" key item
        (sample_world None [] (fault_at 0 (ClientError "GetObject" "AccessDenied" "Access Denied")))).1
     = inl (ClientError "GetObject" "AccessDenied" "Access Denied").
Proof. vm_compute. auto. Qed.

Example summary_read_refused :
  let e := ClientError "GetObject" "AccessDenied" "Access Denied" in
  let out := BackupMulti.lambda_handler (sample_world None sample_zones (fault_at 5 e)) in
  out.1 = inr (backup_failed e)
  /\ map fst (puts out.2)
     = [("dns-backups", "2024-03-07_09:05:00/example.com/Z1/route53_backup.json");
        ("dns-backups", "2024-03-07_09:05:00/example.com/Z2/route53_backup.json")].
Proof. vm_compute. auto. Qed.

(** C6 fails for the restore handler: its only [except] clause names
    [ClientError], so a missing [BACKUP_BUCKET], a missing event key or a
    body that is not JSON leaves the handler as an exception, where both
    backup handlers return the 500 result for the same missing variable. *)
Theorem restore_lets_other_errors_through :
  let w := sample_world (Some (sample_document sample_records)) sample_zones no_faults in
  (Restore.lambda_handler sample_event (without_bucket w)).1
  = inl (KeyError "BACKUP_BUCKET")
  /\ (Restore.lambda_handler (delete "backup_key" sample_event) w).1
     = inl (KeyError "backup_key")
  /\ (Restore.lambda_handler sample_event
        (with_object "dns-backups" sample_key (RawBody "not json") w)).1
     = inl (ValueError "Expecting value")
  /\ (Backup.lambda_handler (without_bucket w)).1
     = inr (backup_failed (KeyError "BACKUP_BUCKET"))
  /\ (BackupMulti.lambda_handler (without_bucket w)).1
     = inr (backup_failed (KeyError "BACKUP_BUCKET")).
Proof. vm_compute. auto 10. Qed.

(** What does hold: the backup handlers return a result whatever happens,
    and the restore handler turns exactly the [ClientError]s into one. *)
Lemma backup_handlers_return w :
  (exists r, (Backup.lambda_handler w).1 = inr r)
  /\ (exists r, (BackupMulti.lambda_handler w).1 = inr r).
Proof.
  unfold Backup.lambda_handler, BackupMulti.lambda_handler.
  rewrite !backup_handler_catches. simpl.
  split.
  - destruct (Backup.run w).1; eauto.
  - destruct (BackupMulti.run w).1; eauto.
Qed.

Lemma restore_handler_returns event w :
  (exists r, (Restore.lambda_handler event w).1 = inr r)
  <-> (forall e, (Restore.run event w).1 = inl e -> is_ClientError e = true).
Proof.
  rewrite lambda_handler_result.
  destruct (Restore.run event w).1 as [e|r]; simpl.
  - destruct (is_ClientError e) eqn:He.
    + split; [intros _ e' [= <-]; exact He|eauto].
    + split; [intros [r Hr]; discriminate|].
      intros H. specialize (H e eq_refl). congruence.
  - split; [intros _ e [=]|eauto].
Qed.

(** * Further properties *)

(** ** Relations kept by every step *)

Section keeping.
Local Open Scope py_scope.
Context (R : World -> World -> Prop) `{!Reflexive R} `{!Transitive R}.

Lemma keeps_ret {A} (a : A) : keeps R (ret a).
Proof. intros w. reflexivity. Qed.

Lemma keeps_raise {A} e : keeps R (@raise A e).
Proof. intros w. reflexivity. Qed.

Lemma keeps_lift {A} (r : exn + A) : keeps R (lift r).
Proof. destruct r; [apply keeps_raise|apply keeps_ret]. Qed.

Lemma keeps_bind {A B} (m : M A) (k : A -> M B) :
  keeps R m -> (forall a, keeps R (k a)) -> keeps R (bind m k).
Proof.
  intros Hm Hk w. unfold bind. specialize (Hm w).
  destruct (m w) as [[e|a] w1]; simpl in *; [exact Hm|].
  transitivity w1; [exact Hm|apply Hk].
Qed.

Lemma keeps_try {A} (m : M A) catches (handler : exn -> M A) :
  keeps R m -> (forall e, keeps R (handler e)) -> keeps R (try_except m catches handler).
Proof.
  intros Hm Hh w. unfold try_except. specialize (Hm w).
  destruct (m w) as [[e|a] w1]; simpl in *; [|exact Hm].
  destruct (catches e); [|exact Hm].
  transitivity w1; [exact Hm|apply Hh].
Qed.

Lemma keeps_for_each {A} (l : list A) (body : A -> M unit) :
  (forall x, keeps R (body x)) -> keeps R (for_each l body).
Proof.
  intros Hb. induction l as [|x l IH]; simpl; [apply keeps_ret|].
  apply keeps_bind; [apply Hb|intros _; exact IH].
Qed.

Lemma keeps_for_fold {A S} (l : list A) (body : S -> A -> M S) :
  (forall acc x, keeps R (body acc x)) -> forall acc, keeps R (for_fold l acc body).
Proof.
  intros Hb. induction l as [|x l IH]; intros acc; simpl; [apply keeps_ret|].
  apply keeps_bind; [apply Hb|intros acc'; apply IH].
Qed.

Lemma keeps_reads {A} (m : M A) :
  (forall w, R w (called w)) -> reads m -> keeps R m.
Proof. intros Hc Hm w. destruct (Hm w) as [-> | ->]; [reflexivity|apply Hc]. Qed.

End keeping.

Lemma reads_os_environ name : reads (os_environ name).
Proof. intros w. unfold os_environ. destruct (environ w !! name); auto. Qed.

Lemma reads_datetime_now : reads datetime_now.
Proof. intros w. auto. Qed.

Lemma reads_get_object bucket key : reads (get_object bucket key).
Proof.
  intros w. unfold get_object, service. right.
  destruct (faults w (calls w)); [reflexivity|]. simpl.
  destruct (objects w !! (bucket, key)); reflexivity.
Qed.

Lemma reads_list_hosted_zones : reads list_hosted_zones.
Proof.
  intros w. unfold list_hosted_zones, service. right.
  destruct (faults w (calls w)); reflexivity.
Qed.

Lemma reads_fetch_page page : reads (fetch_page page).
Proof.
  intros w. unfold fetch_page, service. right.
  destruct (faults w (calls w)); reflexivity.
Qed.

Lemma reads_json_loads b : reads (json_loads b).
Proof. intros w. destruct b; auto. Qed.

#[local] Instance dns_untouched_refl : Reflexive dns_untouched.
Proof. intros w. split; reflexivity. Qed.

#[local] Instance dns_untouched_trans : Transitive dns_untouched.
Proof. intros w1 w2 w3 [? ?] [? ?]. split; congruence. Qed.

#[local] Instance storage_untouched_refl : Reflexive storage_untouched.
Proof. intros w. split; reflexivity. Qed.

#[local] Instance storage_untouched_trans : Transitive storage_untouched.
Proof. intros w1 w2 w3 [? ?] [? ?]. split; congruence. Qed.

#[local] Instance writes_logged_refl : Reflexive writes_logged.
Proof. intros w. exists []. rewrite app_nil_r. auto. Qed.

#[local] Instance writes_logged_trans : Transitive writes_logged.
Proof.
  intros w1 w2 w3 (n1 & Hp1 & Ho1) (n2 & Hp2 & Ho2).
  exists (n1 ++ n2). split; [rewrite Hp2, Hp1, app_assoc; reflexivity|].
  intros k. destruct (Ho2 k) as [H2|(doc & Hin & H2)].
  - rewrite H2. destruct (Ho1 k) as [H1|(doc & Hin & H1)]; [auto|].
    right. exists doc. split; [apply elem_of_app; auto|exact H1].
  - right. exists doc. split; [apply elem_of_app; auto|exact H2].
Qed.

#[local] Instance writes_under_refl bucket prefix : Reflexive (writes_under bucket prefix).
Proof. intros w. exists []. rewrite app_nil_r. auto. Qed.

#[local] Instance writes_under_trans bucket prefix : Transitive (writes_under bucket prefix).
Proof.
  intros w1 w2 w3 (n1 & Hp1 & Ho1) (n2 & Hp2 & Ho2).
  exists (n1 ++ n2). split; [rewrite Hp2, Hp1, app_assoc; reflexivity|].
  apply Forall_app. auto.
Qed.

(** The two services that write. *)

Lemma put_object_dns bucket key doc : keeps dns_untouched (put_object bucket key doc).
Proof.
  intros w. unfold put_object, service. simpl.
  destruct (faults w (calls w)); split; reflexivity.
Qed.

Lemma put_object_logged bucket key doc : keeps writes_logged (put_object bucket key doc).
Proof.
  intros w. unfold put_object, service. simpl.
  exists [(bucket, key, doc)].
  destruct (faults w (calls w)); simpl; (split; [reflexivity|]); intros k; [auto|].
  destruct (decide ((bucket, key) = k)) as [<-|Hne].
  - right. exists doc. split; [left|apply lookup_insert_eq].
  - left. apply lookup_insert_ne. exact Hne.
Qed.

Lemma put_object_under bucket prefix rest doc :
  keeps (writes_under bucket prefix) (put_object bucket (prefix +:+ "/" +:+ rest) doc).
Proof.
  intros w. unfold put_object, service. simpl.
  exists [(bucket, prefix +:+ "/" +:+ rest, doc)].
  destruct (faults w (calls w)); simpl; (split; [reflexivity|]);
    (constructor; [split; [reflexivity|exists rest; reflexivity]|constructor]).
Qed.

Lemma change_storage zone changes :
  keeps storage_untouched (change_resource_record_sets zone changes).
Proof.
  intros w. unfold change_resource_record_sets, service. simpl.
  destruct (faults w (calls w)); split; reflexivity.
Qed.

Lemma called_dns w : dns_untouched w (called w).
Proof. split; reflexivity. Qed.

Lemma called_storage w : storage_untouched w (called w).
Proof. split; reflexivity. Qed.

Lemma called_logged w : writes_logged w (called w).
Proof. exists []. simpl. rewrite app_nil_r. auto. Qed.

Lemma called_under bucket prefix w : writes_under bucket prefix w (called w).
Proof. exists []. simpl. rewrite app_nil_r. auto. Qed.

Lemma fetch_records_keeps R `{!Reflexive R} `{!Transitive R} zone :
  (forall w, R w (called w)) -> keeps R (fetch_records zone).
Proof.
  intros Hc w. unfold fetch_records.
  apply (keeps_for_fold R). intros acc page.
  apply (keeps_bind R); [|intros sets; apply (keeps_ret R)].
  apply (keeps_reads R); [exact Hc|apply reads_fetch_page].
Qed.

Ltac keep R Hcalled :=
  repeat first
    [ apply (keeps_ret R) | apply (keeps_raise R) | apply (keeps_lift R)
    | apply (keeps_reads R);
      [ exact Hcalled
      | first [ apply reads_os_environ | apply reads_datetime_now
              | apply reads_get_object | apply reads_list_hosted_zones
              | apply reads_json_loads | apply reads_fetch_page ] ]
    | apply (fetch_records_keeps R); exact Hcalled
    | apply (keeps_bind R); [|intros ?]
    | apply (keeps_try R); [|intros ?]
    | apply (keeps_for_each R); intros ?
    | apply (keeps_for_fold R); intros ? ? ].

(** ** What the handlers leave alone *)

(** X1: the restore handler only reads the object store: whatever the event
    and the world, and however the run ends, no object is changed and no
    write is requested. *)
Theorem restore_leaves_storage_alone event w :
  objects (Restore.lambda_handler event w).2 = objects w
  /\ puts (Restore.lambda_handler event w).2 = puts w.
Proof.
  revert w. change (keeps storage_untouched (Restore.lambda_handler event)).
  unfold Restore.lambda_handler, Restore.run, Restore.restore_batches.
  keep storage_untouched called_storage.
  apply change_storage.
Qed.

Lemma summary_content_keeps R `{!Reflexive R} `{!Transitive R} bucket key item :
  (forall w, R w (called w)) -> keeps R (BackupMulti.summary_content bucket key item).
Proof.
  intros Hc. unfold BackupMulti.summary_content. keep R Hc.
  destruct e as [operation code message| | | |]; keep R Hc.
  destruct (String.eqb code "NoSuchKey"); keep R Hc.
Qed.

Lemma write_summary_keeps R `{!Reflexive R} `{!Transitive R} bucket key item :
  (forall w, R w (called w)) ->
  (forall doc, keeps R (put_object bucket key doc)) ->
  keeps R (BackupMulti.write_summary bucket key item).
Proof.
  intros Hc Hput. unfold BackupMulti.write_summary.
  apply (keeps_bind R); [apply (summary_content_keeps R); exact Hc|].
  intros content. apply Hput.
Qed.

Lemma backup_handlers_keep R `{!Reflexive R} `{!Transitive R} :
  (forall w, R w (called w)) ->
  (forall bucket key doc, keeps R (put_object bucket key doc)) ->
  keeps R Backup.lambda_handler /\ keeps R BackupMulti.lambda_handler.
Proof.
  intros Hc Hput. split.
  - unfold Backup.lambda_handler, Backup.run, Backup.backup_zone. keep R Hc. apply Hput.
  - unfold BackupMulti.lambda_handler, BackupMulti.run, BackupMulti.backup_zone.
    keep R Hc; try apply Hput.
    match goal with |- keeps _ (if ?c then _ else _) => destruct c end.
    + apply (write_summary_keeps R); [exact Hc|intros doc; apply Hput].
    + apply (keeps_ret R).
Qed.

(** X2: the two backup handlers never ask for a DNS change: whatever the
    world and however the run ends, nothing is submitted to and nothing is
    applied by [change_resource_record_sets]. *)
Theorem backup_leaves_dns_alone w :
  (submitted (Backup.lambda_handler w).2 = submitted w
   /\ applied (Backup.lambda_handler w).2 = applied w)
  /\ (submitted (BackupMulti.lambda_handler w).2 = submitted w
      /\ applied (BackupMulti.lambda_handler w).2 = applied w).
Proof.
  destruct (backup_handlers_keep dns_untouched called_dns put_object_dns) as [Hb Hm].
  split; [apply Hb|apply Hm].
Qed.

(** X3: in a run of either backup handler, complete or not, the object store
    changes only through the logged writes: every key holds what it held
    before the run or a document that a write request of the run carried for
    that key.  No object is deleted and no other key is touched. *)
Theorem backup_stores_what_it_logs w :
  (exists new,
     puts (Backup.lambda_handler w).2 = puts w ++ new
     /\ forall k,
          objects (Backup.lambda_handler w).2 !! k = objects w !! k
          \/ exists doc, (k, doc) ∈ new
                         /\ objects (Backup.lambda_handler w).2 !! k = Some (JsonBody doc))
  /\ (exists new,
        puts (BackupMulti.lambda_handler w).2 = puts w ++ new
        /\ forall k,
             objects (BackupMulti.lambda_handler w).2 !! k = objects w !! k
             \/ exists doc, (k, doc) ∈ new
                            /\ objects (BackupMulti.lambda_handler w).2 !! k
                               = Some (JsonBody doc)).
Proof.
  destruct (backup_handlers_keep writes_logged called_logged put_object_logged) as [Hb Hm].
  split; [apply Hb|apply Hm].
Qed.

Lemma basic_loop_under bucket date zones :
  keeps (writes_under bucket date) (for_each zones (Backup.backup_zone bucket date)).
Proof.
  unfold Backup.backup_zone, Backup.backup_file_key.
  keep (writes_under bucket date) (called_under bucket date).
  apply put_object_under.
Qed.

Lemma multi_loop_under bucket date zones cnt :
  keeps (writes_under bucket date)
        (for_fold zones cnt (BackupMulti.backup_zone bucket date)).
Proof.
  unfold BackupMulti.backup_zone, BackupMulti.backup_file_key,
    BackupMulti.summary_file_key.
  keep (writes_under bucket date) (called_under bucket date);
    try apply put_object_under.
  match goal with |- keeps _ (if ?c then _ else _) => destruct c end.
  - apply (write_summary_keeps (writes_under bucket date));
      [apply called_under|intros doc; apply put_object_under].
  - apply (keeps_ret (writes_under bucket date)).
Qed.

(** X4: every write request of a backup run, complete or not, names the
    bucket of [BACKUP_BUCKET] and a key that starts with the run's timestamp
    followed by a slash. *)
Theorem backup_writes_under_stamp w :
  (exists new,
     puts (Backup.lambda_handler w).2 = puts w ++ new
     /\ Forall (fun p => environ w !! "BACKUP_BUCKET" = Some p.1.1
                         /\ exists rest,
                              p.1.2 = strftime (now w) Backup.date_format +:+ "/" +:+ rest)
               new)
  /\ (exists new,
        puts (BackupMulti.lambda_handler w).2 = puts w ++ new
        /\ Forall (fun p => environ w !! "BACKUP_BUCKET" = Some p.1.1
                            /\ exists rest,
                                 p.1.2 = strftime (now w) BackupMulti.date_format
                                         +:+ "/" +:+ rest)
                  new).
Proof.
  split.
  - unfold Backup.lambda_handler. rewrite backup_handler_catches. simpl.
    unfold Backup.run, bind at 1, os_environ.
    destruct (environ w !! "BACKUP_BUCKET") as [bucket|] eqn:He;
      [|exists []; simpl; rewrite app_nil_r; auto].
    unfold bind at 1, list_hosted_zones, service.
    destruct (faults w (calls w)); [exists []; simpl; rewrite app_nil_r; auto|].
    unfold bind at 1, datetime_now. simpl now.
    change (HostedZones (called w)) with (HostedZones w). unfold bind at 1.
    pose proof (basic_loop_under bucket (strftime (now w) Backup.date_format)
                  (HostedZones w) (called w)) as (new & Hp & Hall).
    exists new. split.
    + destruct (for_each _ _ (called w)) as [[e|[]] w']; exact Hp.
    + eapply Forall_impl; [exact Hall|]. intros p [-> Hrest]. auto.
  - unfold BackupMulti.lambda_handler. rewrite backup_handler_catches. simpl.
    unfold BackupMulti.run, bind at 1, os_environ.
    destruct (environ w !! "BACKUP_BUCKET") as [bucket|] eqn:He;
      [|exists []; simpl; rewrite app_nil_r; auto].
    unfold bind at 1, list_hosted_zones, service.
    destruct (faults w (calls w)); [exists []; simpl; rewrite app_nil_r; auto|].
    unfold bind at 1, datetime_now. simpl now.
    change (HostedZones (called w)) with (HostedZones w). unfold bind at 1.
    pose proof (multi_loop_under bucket (strftime (now w) BackupMulti.date_format)
                  (HostedZones w) ∅ (called w)) as (new & Hp & Hall).
    exists new. split.
    + destruct (for_fold _ _ _ (called w)) as [[e|cnt] w']; exact Hp.
    + eapply Forall_impl; [exact Hall|]. intros p [-> Hrest]. auto.
Qed.

(** ** More on the restore handler *)

Lemma getitem_error j k e : getitem j k = inl e -> is_ClientError e = false.
Proof.
  destruct j as [| | | | |d]; simpl; try (intros [= <-]; reflexivity).
  destruct (assoc k d); intros [= <-]. reflexivity.
Qed.

Lemma keep_records_error items e :
  Restore.keep_records items = inl e -> is_ClientError e = false.
Proof.
  induction items as [|r items IH]; cbn [Restore.keep_records]; [discriminate|].
  destruct (getitem r "Type") as [e'|t] eqn:Ht.
  - intros [= <-]. exact (getitem_error _ _ _ Ht).
  - destruct (Restore.keep_records items) as [e'|rest]; [|discriminate].
    intros [= <-]. apply IH. reflexivity.
Qed.

Lemma keep_records_untyped items r e0 :
  r ∈ items -> getitem r "Type" = inl e0 ->
  exists e, Restore.keep_records items = inl e.
Proof.
  induction items as [|r' items IH]; intros Hin Hr; [inversion Hin|].
  cbn [Restore.keep_records].
  destruct (getitem r' "Type") as [e'|t] eqn:Ht; [eauto|].
  apply elem_of_cons in Hin as [->|Hin]; [congruence|].
  destruct (IH Hin Hr) as [e ->]. eauto.
Qed.

Lemma filtered_records_filter items :
  Forall (fun r => exists t, getitem r "Type" = inr t) items ->
  Restore.filtered_records (JList items)
  = inr (List.filter (fun r => negb (infrastructure r)) items).
Proof.
  unfold Restore.filtered_records. simpl.
  induction 1 as [|r items [t Ht] _ IH]; [reflexivity|].
  cbn [Restore.keep_records List.filter]. unfold infrastructure at 1.
  rewrite Ht, IH. destruct (in_strs t ["NS"; "SOA"]); reflexivity.
Qed.

(** X5: when every record of the list has a [Type], the comprehension
    succeeds and yields exactly the records whose [Type] is neither NS nor
    SOA, in their original order; when some record has none, it fails with
    an exception that is not a [ClientError]. *)
Theorem restore_filter_keeps_order items :
  (Forall (fun r => exists t, getitem r "Type" = inr t) items ->
   Restore.filtered_records (JList items)
   = inr (List.filter (fun r => negb (infrastructure r)) items))
  /\ (forall r e0,
        r ∈ items -> getitem r "Type" = inl e0 ->
        exists e, Restore.filtered_records (JList items) = inl e
                  /\ is_ClientError e = false).
Proof.
  split; [apply filtered_records_filter|].
  intros r e0 Hin Hr. destruct (keep_records_untyped items r e0 Hin Hr) as [e He].
  exists e. split; [exact He|]. apply (keep_records_error _ _ He).
Qed.

Example restore_filter_sample :
  Restore.filtered_records (JList sample_records)
  = inr [sample_record "A" "www.example.com."; sample_record "CNAME" "m.example.com."].
Proof. reflexivity. Qed.

(** X6: one record without a [Type] anywhere in the document stops the
    restore before anything is submitted: the handler ends in an exception
    that is not a [ClientError], and no change batch has been sent, not even
    for the records before the faulty one. *)
Theorem restore_refuses_untyped_record event w bucket key zone doc items r e0 :
  environ w !! "BACKUP_BUCKET" = Some bucket ->
  event !! "backup_key" = Some key ->
  event !! "hosted_zone_id" = Some zone ->
  faults w (calls w) = None ->
  objects w !! (bucket, key) = Some (JsonBody doc) ->
  getitem doc "records" = inr (JList items) ->
  r ∈ items ->
  getitem r "Type" = inl e0 ->
  exists e,
    (Restore.lambda_handler event w).1 = inl e
    /\ is_ClientError e = false
    /\ submitted (Restore.lambda_handler event w).2 = submitted w
    /\ applied (Restore.lambda_handler event w).2 = applied w.
Proof.
  intros He Hk Hz Hf Ho Hr Hin Ht.
  destruct (keep_records_untyped items r e0 Hin Ht) as [e Hkeep].
  pose proof (keep_records_error _ _ Hkeep) as Hnc.
  exists e. rewrite lambda_handler_world, lambda_handler_result.
  assert (Hrun : Restore.run event w = (inl e, called w)).
  { unfold Restore.run, bind at 1, os_environ. rewrite He.
    unfold bind at 1. rewrite Hk. simpl.
    unfold bind at 1. rewrite Hz. simpl.
    unfold bind at 1, get_object, service. rewrite Hf. simpl. rewrite Ho.
    unfold bind at 1. simpl.
    unfold bind at 1. rewrite Hr. simpl.
    unfold bind at 1. unfold Restore.filtered_records. simpl. rewrite Hkeep.
    reflexivity. }
  rewrite Hrun. simpl. rewrite Hnc. auto.
Qed.

Lemma restore_refuses_untyped_record_witness :
  let records := [sample_record "A" "www.example.com."; JDict [("Name", JString "x")]] in
  let w := sample_world (Some (sample_document records)) [] no_faults in
  exists e,
    (Restore.lambda_handler sample_event w).1 = inl e
    /\ is_ClientError e = false
    /\ submitted (Restore.lambda_handler sample_event w).2 = submitted w
    /\ applied (Restore.lambda_handler sample_event w).2 = applied w.
Proof.
  intros records w.
  apply (restore_refuses_untyped_record sample_event w "dns-backups" sample_key "Z9"
           (sample_document records) records (JDict [("Name", JString "x")])
           (KeyError "Type")); try reflexivity.
  right. left.
Defined.

(** X7: when the bucket holds nothing under the key of the event, the
    restore handler returns the 500 result built from the [NoSuchKey] error
    after its one call, and submits nothing. *)
Theorem restore_of_missing_backup event w bucket key zone :
  environ w !! "BACKUP_BUCKET" = Some bucket ->
  event !! "backup_key" = Some key ->
  event !! "hosted_zone_id" = Some zone ->
  faults w (calls w) = None ->
  objects w !! (bucket, key) = None ->
  let e := ClientError "GetObject" "NoSuchKey" "The specified key does not exist." in
  Restore.lambda_handler event w = (inr (Restore.failed e), called w)
  /\ statusCode (Restore.failed e) = 500%Z.
Proof.
  intros He Hk Hz Hf Ho e. split; [|reflexivity].
  unfold Restore.lambda_handler, try_except.
  assert (Hrun : Restore.run event w = (inl e, called w)).
  { unfold Restore.run, bind at 1, os_environ. rewrite He.
    unfold bind at 1. rewrite Hk. simpl.
    unfold bind at 1. rewrite Hz. simpl.
    unfold bind at 1, get_object, service. rewrite Hf. simpl. rewrite Ho.
    reflexivity. }
  rewrite Hrun. reflexivity.
Qed.

Lemma restore_of_missing_backup_witness :
  let e := ClientError "GetObject" "NoSuchKey" "The specified key does not exist." in
  let w := sample_world None [] no_faults in
  Restore.lambda_handler sample_event w = (inr (Restore.failed e), called w)
  /\ statusCode (Restore.failed e) = 500%Z.
Proof.
  intros e w.
  apply (restore_of_missing_backup sample_event w "dns-backups" sample_key "Z9");
    reflexivity.
Defined.

(** X8: in every restore run, what the provider applied is a prefix of what
    was submitted, with at most one request more submitted (the one that
    failed), and none more when the handler returns the 200 result. *)
Theorem restore_applied_prefix event w :
  exists done failed,
    applied (Restore.lambda_handler event w).2 = applied w ++ done
    /\ submitted (Restore.lambda_handler event w).2 = submitted w ++ done ++ failed
    /\ length failed <= 1
    /\ (forall r, (Restore.lambda_handler event w).1 = inr r ->
                  statusCode r = 200%Z -> failed = []).
Proof.
  rewrite lambda_handler_world, lambda_handler_result.
  destruct (run_cases event w) as [(zone & filtered & Hreads)|(e & w' & Hrun & Hs & Ha)].
  - destruct (first_fault (fun j => faults w (S (calls w) + j)) (length (batches filtered)))
      as [Hok|(j & e & Hj & Hok & Hfail)].
    + destruct (run_completes event w zone filtered Hreads Hok) as (w' & -> & Hs & Ha).
      exists (map (request zone) (batches filtered)), []. simpl.
      rewrite app_nil_r. auto.
    + destruct (run_fails event w zone filtered j e Hreads Hj Hok Hfail)
        as (w' & -> & Hs & Ha).
      destruct (lookup_lt_is_Some_2 (batches filtered) j Hj) as [b Hb].
      exists (map (request zone) (take j (batches filtered))), [request zone b]. simpl.
      split; [exact Ha|]. split; [|split; [lia|]].
      * rewrite Hs, (take_S_r _ _ _ Hb), map_app. reflexivity.
      * destruct (is_ClientError e); intros r [= <-]. discriminate.
  - exists [], []. rewrite Hrun. simpl. rewrite !app_nil_r.
    split; [exact Ha|]. split; [exact Hs|]. split; [lia|]. auto.
Qed.

(** X9: a 200 result of the restore handler means that the document was read
    and every batch of its filtered records was applied, in order, with one
    call for the read and one per batch. *)
Theorem restore_success_means_all_applied event w r :
  (Restore.lambda_handler event w).1 = inr r ->
  statusCode r = 200%Z ->
  exists zone filtered,
    restore_reads event w zone filtered
    /\ r = Restore.completed zone
    /\ applied (Restore.lambda_handler event w).2
       = applied w ++ map (request zone) (batches filtered)
    /\ concat (batches filtered) = filtered
    /\ calls (Restore.lambda_handler event w).2
       = calls w + 1 + ceil_div (length filtered) 100.
Proof.
  rewrite lambda_handler_world, lambda_handler_result.
  destruct (run_cases event w) as [(zone & filtered & Hreads)|(e & w' & Hrun & Hs & Ha)].
  - destruct (first_fault (fun j => faults w (S (calls w) + j)) (length (batches filtered)))
      as [Hok|(j & e & Hj & Hok & Hfail)].
    + rewrite (run_reads event w zone filtered Hreads).
      destruct (submit_all zone (batches filtered) (called w) Hok)
        as (w' & Hrun & Hs & Ha & Hc & _).
      unfold bind. rewrite restore_batches_for_each, Hrun. simpl.
      intros [= <-] _. exists zone, filtered.
      split; [exact Hreads|]. split; [reflexivity|]. split; [exact Ha|].
      split; [apply concat_batches|]. rewrite Hc, length_batches. simpl. lia.
    + destruct (run_fails event w zone filtered j e Hreads Hj Hok Hfail)
        as (w' & -> & _). simpl.
      destruct (is_ClientError e); intros [= <-]. discriminate.
  - rewrite Hrun. simpl. destruct (is_ClientError e); intros [= <-]. discriminate.
Qed.

Lemma restore_success_means_all_applied_witness :
  let w := sample_world (Some (sample_document sample_records)) [] no_faults in
  exists zone filtered,
    restore_reads sample_event w zone filtered
    /\ Restore.completed "Z9" = Restore.completed zone
    /\ applied (Restore.lambda_handler sample_event w).2
       = applied w ++ map (request zone) (batches filtered)
    /\ concat (batches filtered) = filtered
    /\ calls (Restore.lambda_handler sample_event w).2
       = calls w + 1 + ceil_div (length filtered) 100.
Proof.
  intros w.
  apply (restore_success_means_all_applied sample_event w (Restore.completed "Z9"));
    reflexivity.
Defined.

(** X10: the only action the restore handler ever puts in a change batch is
    CREATE: whatever the event and the world, no submitted change deletes or
    replaces a record. *)
Theorem restore_only_creates event w :
  exists new,
    submitted (Restore.lambda_handler event w).2 = submitted w ++ new
    /\ forall zone changes c,
         (zone, changes) ∈ new -> c ∈ changes -> Action c = "CREATE".
Proof.
  rewrite lambda_handler_world.
  destruct (run_submits event w) as (zone & filtered & m & Hs & _).
  exists (map (request zone) (take m (batches filtered))). split; [exact Hs|].
  intros zone' changes c Hin Hc.
  apply list_elem_of_In, in_map_iff in Hin as (b & [= <- <-] & Hb).
  destruct (changes_create b) as [Hall _].
  rewrite Forall_forall in Hall. apply Hall, Hc.
Qed.

(** ** Runs of the backup handlers that stop early *)

(** X11: without [BACKUP_BUCKET] both backup handlers return the 500 result
    whose error text is the quoted variable name, and the world is left as it
    was: no zone is listed, nothing is fetched or written. *)
Theorem backup_without_bucket w :
  environ w !! "BACKUP_BUCKET" = None ->
  let failure := backup_failed (KeyError "BACKUP_BUCKET") in
  Backup.lambda_handler w = (inr failure, w)
  /\ BackupMulti.lambda_handler w = (inr failure, w)
  /\ statusCode failure = 500%Z
  /\ assoc "error" (body failure) = Some (JString "'BACKUP_BUCKET'").
Proof.
  intros He failure.
  unfold Backup.lambda_handler, BackupMulti.lambda_handler, try_except,
    Backup.run, BackupMulti.run, bind, os_environ.
  rewrite He. auto.
Qed.

Lemma backup_without_bucket_witness :
  let w := without_bucket (sample_world None sample_zones no_faults) in
  let failure := backup_failed (KeyError "BACKUP_BUCKET") in
  Backup.lambda_handler w = (inr failure, w)
  /\ BackupMulti.lambda_handler w = (inr failure, w)
  /\ statusCode failure = 500%Z
  /\ assoc "error" (body failure) = Some (JString "'BACKUP_BUCKET'").
Proof.
  intros w.
  apply (backup_without_bucket w). reflexivity.
Defined.

(** X12: when the listing of the hosted zones fails, both backup handlers
    return the 500 result of that error after this one call; nothing is
    fetched or written. *)
Theorem backup_listing_fails w bucket e :
  environ w !! "BACKUP_BUCKET" = Some bucket ->
  faults w (calls w) = Some e ->
  Backup.lambda_handler w = (inr (backup_failed e), called w)
  /\ BackupMulti.lambda_handler w = (inr (backup_failed e), called w).
Proof.
  intros He Hf.
  unfold Backup.lambda_handler, BackupMulti.lambda_handler, try_except,
    Backup.run, BackupMulti.run, bind, os_environ, list_hosted_zones, service.
  rewrite He, Hf. auto.
Qed.

Lemma backup_listing_fails_witness :
  let e := ClientError "ListHostedZones" "AccessDenied" "not authorized" in
  let w := sample_world None sample_zones (fault_at 0 e) in
  Backup.lambda_handler w = (inr (backup_failed e), called w)
  /\ BackupMulti.lambda_handler w = (inr (backup_failed e), called w).
Proof.
  intros e w.
  apply (backup_listing_fails w "dns-backups" e); reflexivity.
Defined.

(** X13: with no hosted zone in the account both backup handlers return the
    200 result after the listing call and write nothing. *)
Theorem backup_of_no_zone w bucket :
  environ w !! "BACKUP_BUCKET" = Some bucket ->
  faults w (calls w) = None ->
  HostedZones w = [] ->
  Backup.lambda_handler w
  = (inr (Backup.completed bucket (strftime (now w) Backup.date_format)), called w)
  /\ BackupMulti.lambda_handler w
     = (inr (BackupMulti.completed bucket (strftime (now w) BackupMulti.date_format) []),
        called w).
Proof.
  intros He Hf Hz.
  unfold Backup.lambda_handler, BackupMulti.lambda_handler, try_except,
    Backup.run, BackupMulti.run, bind, os_environ, list_hosted_zones, service,
    datetime_now.
  rewrite He, Hf. simpl. rewrite Hz. auto.
Qed.

Lemma backup_of_no_zone_witness :
  let w := sample_world None [] no_faults in
  Backup.lambda_handler w
  = (inr (Backup.completed "dns-backups" "20240307_090500"), called w)
  /\ BackupMulti.lambda_handler w
     = (inr (BackupMulti.completed "dns-backups" "2024-03-07_09:05:00" []), called w).
Proof.
  intros w.
  apply (backup_of_no_zone w "dns-backups"); reflexivity.
Defined.

(** ** Pagination *)


Lemma fetch_page_fails (acc page : list json) w e :
  faults w (calls w) = Some e ->
  bind (fetch_page page) (fun sets => ret (acc ++ sets)) w = (inl e, called w).
Proof. intros H. unfold bind, fetch_page, service. rewrite H. reflexivity. Qed.

Lemma only_calls_called w : only_calls w (called w).
Proof. repeat split. Qed.

Lemma only_calls_step w w' : only_calls (called w) w' -> only_calls w w'.
Proof.
  intros ((?&?&?&?&?) & (? & ?) & (? & ?)). simpl in *.
  repeat split; assumption.
Qed.

Lemma fetch_pages_window pages :
  forall acc w,
    (forall i, i < length pages -> faults w (calls w + i) = None) ->
    exists w',
      for_fold pages acc
        (fun records page => bind (fetch_page page) (fun sets => ret (records ++ sets))) w
      = (inr (acc ++ concat pages), w')
      /\ calls w' = calls w + length pages /\ only_calls w w'.
Proof.
  set (body := fun records page => bind (fetch_page page) (fun sets => ret (records ++ sets))).
  induction pages as [|page pages IH]; intros acc w Hok.
  - exists w. simpl. rewrite app_nil_r, Nat.add_0_r. repeat split.
  - pose proof (Hok 0 ltac:(simpl; lia)) as H0. rewrite Nat.add_0_r in H0.
    destruct (IH (acc ++ page) (called w)) as (w' & Hrun & Hc & Hframe).
    { intros i Hi. simpl. rewrite <- Nat.add_succ_r. apply Hok. simpl. lia. }
    exists w'. cbn [for_fold]. unfold bind at 1. unfold body at 1.
    rewrite fetch_page_ok by exact H0. rewrite Hrun, Hc. simpl.
    rewrite <- app_assoc. split; [reflexivity|]. split; [lia|].
    apply only_calls_step, Hframe.
Qed.

Lemma fetch_pages_until pages :
  forall acc w j e,
    j < length pages ->
    (forall i, i < j -> faults w (calls w + i) = None) ->
    faults w (calls w + j) = Some e ->
    exists w',
      for_fold pages acc
        (fun records page => bind (fetch_page page) (fun sets => ret (records ++ sets))) w
      = (inl e, w')
      /\ calls w' = calls w + S j /\ only_calls w w'.
Proof.
  set (body := fun records page => bind (fetch_page page) (fun sets => ret (records ++ sets))).
  induction pages as [|page pages IH]; intros acc w j e Hj Hok Hfail; [simpl in Hj; lia|].
  destruct j as [|j].
  - rewrite Nat.add_0_r in Hfail. exists (called w).
    cbn [for_fold]. unfold bind at 1. unfold body at 1.
    rewrite (fetch_page_fails _ _ _ e) by exact Hfail.
    split; [reflexivity|]. split; [simpl; lia|apply only_calls_called].
  - pose proof (Hok 0 ltac:(lia)) as H0. rewrite Nat.add_0_r in H0.
    destruct (IH (acc ++ page) (called w) j e) as (w' & Hrun & Hc & Hframe).
    { simpl in Hj. lia. }
    { intros i Hi. simpl. rewrite <- Nat.add_succ_r. apply Hok. lia. }
    { simpl. rewrite <- Nat.add_succ_r. exact Hfail. }
    exists w'. cbn [for_fold]. unfold bind at 1. unfold body at 1.
    rewrite fetch_page_ok by exact H0. rewrite Hrun, Hc. simpl.
    split; [reflexivity|]. split; [lia|]. apply only_calls_step, Hframe.
Qed.

(** X14: when none of the page requests of a zone fails, the record fetcher
    returns the record sets of all pages concatenated in page order, after
    one call per page and nothing else. *)
Theorem fetch_records_all_pages zone w :
  let pages := ResourceRecordSets w zone in
  (forall i, i < length pages -> faults w (calls w + i) = None) ->
  (fetch_records zone w).1 = inr (concat pages)
  /\ calls (fetch_records zone w).2 = calls w + length pages
  /\ only_calls w (fetch_records zone w).2.
Proof.
  intros pages Hok. subst pages. unfold fetch_records.
  destruct (fetch_pages_window _ [] w Hok) as (w' & -> & Hc & Hframe). auto.
Qed.

Lemma fetch_records_all_pages_witness :
  let w := sample_world None sample_zones no_faults in
  (fetch_records "Z1" w).1 = inr sample_records
  /\ calls (fetch_records "Z1" w).2 = 1
  /\ only_calls w (fetch_records "Z1" w).2.
Proof.
  intros w.
  apply (fetch_records_all_pages "Z1" w). intros i _. reflexivity.
Defined.

(** X15: when the request of page [j + 1] is the first to fail, the record
    fetcher raises that error after [j + 1] calls; the pages already fetched
    are dropped with it, and nothing has been written. *)
Theorem fetch_records_page_fails zone w j e :
  j < length (ResourceRecordSets w zone) ->
  (forall i, i < j -> faults w (calls w + i) = None) ->
  faults w (calls w + j) = Some e ->
  (fetch_records zone w).1 = inl e
  /\ calls (fetch_records zone w).2 = calls w + S j
  /\ only_calls w (fetch_records zone w).2.
Proof.
  intros Hj Hok Hfail. unfold fetch_records.
  destruct (fetch_pages_until _ [] w j e Hj Hok Hfail) as (w' & -> & Hc & Hframe). auto.
Qed.

Lemma fetch_records_page_fails_witness :
  let e := ClientError "ListResourceRecordSets" "Throttling" "Rate exceeded" in
  let w := sample_world None sample_zones (fault_at 0 e) in
  (fetch_records "Z1" w).1 = inl e
  /\ calls (fetch_records "Z1" w).2 = 1
  /\ only_calls w (fetch_records "Z1" w).2.
Proof.
  intros e w.
  apply (fetch_records_page_fails "Z1" w 0 e).
  - simpl. lia.
  - intros i Hi. lia.
  - reflexivity.
Defined.

(** ** A basic backup that fails on the way *)

Lemma fetch_records_any zone w :
  only_calls w (fetch_records zone w).2
  /\ ((fetch_records zone w).1 = inr (concat (ResourceRecordSets w zone))
      \/ exists e, (fetch_records zone w).1 = inl e).
Proof.
  destruct (first_fault (fun i => faults w (calls w + i))
              (length (ResourceRecordSets w zone)))
    as [Hok|(j & e & Hj & Hok & Hfail)].
  - destruct (fetch_records_all_pages zone w Hok) as (Hr & _ & Hframe). auto.
  - destruct (fetch_records_page_fails zone w j e Hj Hok Hfail) as (Hr & _ & Hframe).
    eauto.
Qed.

Section basic_partial.
Variables (bucket date : string) (w0 : World).

Let entry (zone : hosted_zone) : string * string * json :=
  (bucket, Backup.backup_file_key date zone,
   Backup.backup_data zone (all_records w0 zone)).

Let write (objs : gmap (string * string) s3_body) (zone : hosted_zone) :=
  <[(bucket, Backup.backup_file_key date zone)
     := JsonBody (Backup.backup_data zone (all_records w0 zone))]> objs.

Lemma basic_zone_any zone w :
  same_account w0 w ->
  let out := Backup.backup_zone bucket date zone w in
  same_account w0 out.2
  /\ ((out.1 = inr tt /\ puts out.2 = puts w ++ [entry zone]
       /\ objects out.2 = write (objects w) zone)
      \/ ((exists e, out.1 = inl e) /\ objects out.2 = objects w
          /\ (puts out.2 = puts w \/ puts out.2 = puts w ++ [entry zone]))).
Proof.
  intros H0 out. subst out. unfold Backup.backup_zone, bind.
  destruct (fetch_records_any (zone_id zone) w) as ((Hacc & (Ho & Hp) & _) & Hr).
  fold (all_records w zone) in Hr. rewrite (all_records_same _ _ zone H0) in Hr.
  destruct (fetch_records (zone_id zone) w) as [[e|records] w1]; simpl in *.
  - split; [eapply same_account_trans; eassumption|]. right.
    destruct Hr as [Hr|_]; [discriminate|]. eauto.
  - destruct Hr as [[= ->]|[e He]]; [|discriminate].
    unfold put_object, service. simpl.
    destruct (faults w1 (calls w1)) as [e|]; simpl.
    + split; [eapply same_account_trans; eassumption|]. right.
      rewrite Ho, Hp. eauto.
    + split; [eapply same_account_trans; eassumption|]. left.
      rewrite Ho, Hp. auto.
Qed.

Lemma basic_zones_any zones :
  forall w,
    same_account w0 w ->
    let out := for_each zones (Backup.backup_zone bucket date) w in
    exists m extra,
      m <= length zones
      /\ objects out.2 = foldl write (objects w) (take m zones)
      /\ puts out.2 = puts w ++ map entry (take m zones) ++ extra
      /\ length extra <= 1
      /\ (out.1 = inr tt <-> m = length zones)
      /\ (m = length zones -> extra = []).
Proof.
  induction zones as [|zone zones IH]; intros w H0 out; subst out.
  - exists 0, []. simpl. rewrite app_nil_r. repeat split; auto.
  - cbn [for_each]. unfold bind.
    destruct (basic_zone_any zone w H0) as (Hacc & Hstep).
    destruct (Backup.backup_zone bucket date zone w) as [[e|[]] w1]; simpl in *.
    + destruct Hstep as [(Hr & _)|(_ & Ho & Hp)]; [discriminate|].
      exists 0. simpl.
      destruct Hp as [Hp|Hp]; [exists []|exists [entry zone]];
        rewrite Hp, Ho; simpl; rewrite ?app_nil_r;
        repeat split; try lia; try discriminate.
    + destruct Hstep as [(_ & Hp & Ho)|([e He] & _)]; [|discriminate].
      destruct (IH w1 Hacc) as (m & extra & Hm & Ho' & Hp' & Hx & Hiff & Hall).
      exists (S m), extra. simpl. rewrite Ho', Hp', Ho, Hp, <- app_assoc. simpl.
      repeat split; try lia; try tauto.
      * intros H. apply Hiff in H. lia.
      * intros H. apply Hiff. lia.
      * intros H. apply Hall. lia.
Qed.

End basic_partial.

(** X16: a basic backup run whose listing succeeded, complete or not, leaves
    the object store as the writes of the documents of the first [m] zones,
    in listing order, make it; at most one more write was requested (the one
    that failed); and the handler returns the 200 result exactly when [m] is
    the number of zones.  Nothing written before a failure is undone. *)
Theorem basic_backup_keeps_first_zones w bucket :
  environ w !! "BACKUP_BUCKET" = Some bucket ->
  faults w (calls w) = None ->
  let date := strftime (now w) Backup.date_format in
  let out := Backup.lambda_handler w in
  let entry zone := (bucket, Backup.backup_file_key date zone,
                     Backup.backup_data zone (all_records w zone)) in
  exists m extra,
    m <= length (HostedZones w)
    /\ objects out.2
       = foldl (fun objs zone => <[(bucket, Backup.backup_file_key date zone)
                                    := JsonBody (Backup.backup_data zone (all_records w zone))]>
                                   objs)
               (objects w) (take m (HostedZones w))
    /\ puts out.2 = puts w ++ map entry (take m (HostedZones w)) ++ extra
    /\ length extra <= 1
    /\ (out.1 = inr (Backup.completed bucket date) <-> m = length (HostedZones w))
    /\ (exists r, out.1 = inr r
                  /\ (statusCode r = 200%Z <-> m = length (HostedZones w))).
Proof.
  intros He Hf date out entry. subst out.
  destruct (basic_zones_any bucket date w (HostedZones w) (called w)
              (same_account_called w))
    as (m & extra & Hm & Ho & Hp & Hx & Hiff & _).
  exists m, extra.
  unfold Backup.lambda_handler. rewrite backup_handler_catches.
  assert (Hrun : Backup.run w
                 = (match (for_each (HostedZones w) (Backup.backup_zone bucket date)
                             (called w)).1 with
                    | inr _ => inr (Backup.completed bucket date)
                    | inl e => inl e
                    end,
                    (for_each (HostedZones w) (Backup.backup_zone bucket date)
                       (called w)).2)).
  { unfold Backup.run, bind at 1, os_environ. rewrite He.
    unfold bind at 1, list_hosted_zones, service. rewrite Hf.
    unfold bind at 1, datetime_now. simpl now. fold date.
    change (HostedZones (called w)) with (HostedZones w). unfold bind at 1.
    destruct (for_each _ _ (called w)) as [[e|[]] w']; reflexivity. }
  rewrite Hrun. simpl. split; [exact Hm|]. split; [exact Ho|]. split; [exact Hp|].
  split; [exact Hx|].
  destruct (for_each _ _ (called w)).1 as [e|[]]; simpl.
  - split.
    + split; [discriminate|]. intros H. apply Hiff in H. discriminate.
    + eexists. split; [reflexivity|]. simpl.
      split; [discriminate|]. intros H. apply Hiff in H. discriminate.
  - split.
    + split; [intros _; apply Hiff; reflexivity|reflexivity].
    + eexists. split; [reflexivity|]. simpl.
      split; [intros _; apply Hiff; reflexivity|reflexivity].
Qed.

Lemma basic_backup_keeps_first_zones_witness :
  let e := ClientError "PutObject" "SlowDown" "Please reduce your request rate." in
  let w := sample_world None sample_zones (fault_at 4 e) in
  let out := Backup.lambda_handler w in
  let entry zone := ("dns-backups", Backup.backup_file_key "20240307_090500" zone,
                     Backup.backup_data zone (all_records w zone)) in
  exists m extra,
    m <= length (HostedZones w)
    /\ objects out.2
       = foldl (fun objs zone =>
                  <[("dns-backups", Backup.backup_file_key "20240307_090500" zone)
                     := JsonBody (Backup.backup_data zone (all_records w zone))]> objs)
               (objects w) (take m (HostedZones w))
    /\ puts out.2 = puts w ++ map entry (take m (HostedZones w)) ++ extra
    /\ length extra <= 1
    /\ (out.1 = inr (Backup.completed "dns-backups" "20240307_090500")
        <-> m = length (HostedZones w))
    /\ (exists r, out.1 = inr r
                  /\ (statusCode r = 200%Z <-> m = length (HostedZones w))).
Proof.
  intros e w.
  apply (basic_backup_keeps_first_zones w "dns-backups"); reflexivity.
Defined.

Example basic_backup_cut_short :
  let e := ClientError "PutObject" "SlowDown" "Please reduce your request rate." in
  let out := Backup.lambda_handler (sample_world None sample_zones (fault_at 4 e)) in
  out.1 = inr (backup_failed e)
  /\ map fst (puts out.2)
     = [("dns-backups", "20240307_090500/example.com/route53_backup.json");
        ("dns-backups", "20240307_090500/example.com/route53_backup.json")]
  /\ size (objects out.2) = 1.
Proof. vm_compute. auto. Qed.

(** ** Identifiers, names and timestamps *)

Section strings_again.
Local Arguments String.append : simpl nomatch.

Lemma last_item_split_path sep pre id :
  sep ∉ letters id -> last_item (split sep (pre +:+ String sep id)) = id.
Proof.
  intros Hid. induction pre as [|c pre IH]; simpl.
  - rewrite Ascii.eqb_refl, (split_without sep id Hid). reflexivity.
  - destruct (Ascii.eqb c sep).
    + rewrite last_item_cons by apply split_nonempty. exact IH.
    + pose proof (split_with sep pre id) as Hlen.
      destruct (split sep (pre +:+ String sep id)) as [|h [|h' t]]; simpl in Hlen;
        try lia.
      rewrite last_item_cons by discriminate.
      rewrite last_item_cons in IH by discriminate. exact IH.
Qed.

Lemma rstrip_repeat ch k : rstrip ch (String.string_of_list_ascii (repeat ch k)) = "".
Proof.
  induction k as [|k IH]; simpl; [reflexivity|].
  rewrite IH, Ascii.eqb_refl. reflexivity.
Qed.

Lemma rstrip_trailing ch s k :
  rstrip ch (s +:+ String.string_of_list_ascii (repeat ch k)) = rstrip ch s.
Proof.
  induction s as [|c s IH]; simpl; [apply rstrip_repeat|].
  rewrite IH. reflexivity.
Qed.

Lemma rstrip_fixed ch s :
  (forall pre, s <> pre +:+ String ch "") -> rstrip ch s = s.
Proof.
  induction s as [|c s IH]; intros Hend; simpl; [reflexivity|].
  destruct s as [|c' s].
  - simpl. destruct (Ascii.eqb_spec c ch) as [->|Hne]; [|reflexivity].
    destruct (Hend ""). reflexivity.
  - rewrite IH; [reflexivity|].
    intros pre Hpre. apply (Hend (String c pre)). simpl. rewrite Hpre. reflexivity.
Qed.

End strings_again.

(** X17: an identifier of the form [<path>/<id>], where [<id>] holds no
    slash, gives the zone id [<id>], whatever the path; an identifier without
    any slash is its own zone id. *)
Theorem zone_id_of_path path id name :
  "/"%char ∉ letters id ->
  zone_id {| Id := path +:+ "/" +:+ id; Name := name |} = id
  /\ zone_id {| Id := id; Name := name |} = id.
Proof.
  intros Hid. unfold zone_id. simpl. split.
  - apply (last_item_split_path "/" path id Hid).
  - rewrite (split_without "/" id Hid). reflexivity.
Qed.

Lemma zone_id_of_path_witness :
  zone_id {| Id := "/hostedzone/Z1"; Name := "example.com." |} = "Z1"
  /\ zone_id {| Id := "Z1"; Name := "example.com." |} = "Z1".
Proof.
  apply (zone_id_of_path "/hostedzone" "Z1" "example.com.").
  unfold letters. simpl. intros H.
  repeat (apply elem_of_cons in H as [H|H]; [discriminate|]). inversion H.
Defined.

(** X18: a name that does not end in a dot, followed by any number of dots,
    gives that name as zone name; the zone name of any zone ends in no dot,
    so stripping it again changes nothing. *)
Theorem zone_name_of_dotted id name k :
  (forall pre, name <> pre +:+ ".") ->
  zone_name {| Id := id; Name := name +:+ String.string_of_list_ascii (repeat "."%char k) |}
  = name
  /\ forall zone, rstrip "." (zone_name zone) = zone_name zone.
Proof.
  intros Hend. unfold zone_name. simpl. split.
  - rewrite rstrip_trailing. apply rstrip_fixed. exact Hend.
  - intros zone. apply rstrip_fixed. intros pre. apply rstrip_no_trailing.
Qed.

Lemma zone_name_of_dotted_witness :
  zone_name {| Id := "/hostedzone/Z1"; Name := "example.com." |} = "example.com"
  /\ forall zone, rstrip "." (zone_name zone) = zone_name zone.
Proof.
  apply (zone_name_of_dotted "/hostedzone/Z1" "example.com" 1).
  intros pre H. apply (f_equal String.rev) in H.
  revert H. generalize pre. clear pre.
  assert (Hrev : forall p a, String.rev (p +:+ String a "") = String a (String.rev p)).
  { intros p a. unfold String.rev.
    assert (Hgen : forall q acc, String.rev_app (q +:+ String a "") acc
                                 = String a (String.rev_app q acc)).
    { induction q as [|c q IH]; intros acc; [reflexivity|]. apply IH. }
    apply Hgen. }
  intros pre H. change (pre +:+ ".") with (pre +:+ String "." "") in H.
  rewrite Hrev in H. vm_compute in H. discriminate.
Defined.

(** ** Timestamps tell runs apart *)

Lemma length_letters s : length (letters s) = String.length s.
Proof. unfold letters. induction s as [|c s IH]; simpl; [reflexivity|]. f_equal. exact IH. Qed.

Lemma digit_inj n m : digit n = digit m -> n mod 10 = m mod 10.
Proof.
  unfold digit. intros H%(f_equal nat_of_ascii).
  pose proof (Nat.mod_upper_bound n 10). pose proof (Nat.mod_upper_bound m 10).
  rewrite !nat_ascii_embedding in H by lia. lia.
Qed.

(** A field that fits its width is read back from its zero-padded form. *)
Lemma zero_padded_split width :
  forall n m (r1 r2 : list ascii),
    n < 10 ^ width -> m < 10 ^ width ->
    letters (zero_padded width n) ++ r1 = letters (zero_padded width m) ++ r2 ->
    n = m /\ r1 = r2.
Proof.
  induction width as [|width IH]; intros n m r1 r2 Hn Hm H.
  - simpl in *. split; [lia|exact H].
  - cbn [zero_padded] in H. rewrite !letters_app, <- !app_assoc in H.
    rewrite Nat.pow_succ_r' in Hn, Hm.
    apply IH in H as [Hdiv H];
      [|apply Nat.Div0.div_lt_upper_bound; lia|apply Nat.Div0.div_lt_upper_bound; lia].
    injection H as Hd Hr. apply digit_inj in Hd.
    split; [|exact Hr].
    rewrite (Nat.div_mod_eq n 10), (Nat.div_mod_eq m 10). lia.
Qed.

Lemma valid_datetime_fits dt :
  valid_datetime dt ->
  year dt < 10 ^ 4 /\ month dt < 10 ^ 2 /\ day dt < 10 ^ 2
  /\ hour dt < 10 ^ 2 /\ minute dt < 10 ^ 2 /\ second dt < 10 ^ 2.
Proof.
  unfold valid_datetime. change (10 ^ 2) with 100. lia.
Qed.

Lemma datetime_eq dt1 dt2 :
  year dt1 = year dt2 -> month dt1 = month dt2 -> day dt1 = day dt2 ->
  hour dt1 = hour dt2 -> minute dt1 = minute dt2 -> second dt1 = second dt2 ->
  dt1 = dt2.
Proof. destruct dt1, dt2. simpl. intros. subst. reflexivity. Qed.

Lemma basic_stamp_split dt1 dt2 (r1 r2 : list ascii) :
  valid_datetime dt1 -> valid_datetime dt2 ->
  letters (strftime dt1 Backup.date_format) ++ r1
  = letters (strftime dt2 Backup.date_format) ++ r2 ->
  dt1 = dt2 /\ r1 = r2.
Proof.
  intros (HY1 & Hm1 & Hd1 & HH1 & HM1 & HS1)%valid_datetime_fits
         (HY2 & Hm2 & Hd2 & HH2 & HM2 & HS2)%valid_datetime_fits H.
  rewrite !strftime_basic, !letters_app, <- !app_assoc in H.
  apply zero_padded_split in H as [EY H]; [|assumption..].
  apply zero_padded_split in H as [Em H]; [|assumption..].
  apply zero_padded_split in H as [Ed H]; [|assumption..].
  apply app_inv_head in H.
  apply zero_padded_split in H as [EH H]; [|assumption..].
  apply zero_padded_split in H as [EM H]; [|assumption..].
  apply zero_padded_split in H as [ES H]; [|assumption..].
  split; [apply datetime_eq; assumption|exact H].
Qed.

Lemma multi_stamp_split dt1 dt2 (r1 r2 : list ascii) :
  valid_datetime dt1 -> valid_datetime dt2 ->
  letters (strftime dt1 BackupMulti.date_format) ++ r1
  = letters (strftime dt2 BackupMulti.date_format) ++ r2 ->
  dt1 = dt2 /\ r1 = r2.
Proof.
  intros (HY1 & Hm1 & Hd1 & HH1 & HM1 & HS1)%valid_datetime_fits
         (HY2 & Hm2 & Hd2 & HH2 & HM2 & HS2)%valid_datetime_fits H.
  rewrite !strftime_multi, !letters_app, <- !app_assoc in H.
  apply zero_padded_split in H as [EY H]; [|assumption..].
  apply app_inv_head in H.
  apply zero_padded_split in H as [Em H]; [|assumption..].
  apply app_inv_head in H.
  apply zero_padded_split in H as [Ed H]; [|assumption..].
  apply app_inv_head in H.
  apply zero_padded_split in H as [EH H]; [|assumption..].
  apply app_inv_head in H.
  apply zero_padded_split in H as [EM H]; [|assumption..].
  apply app_inv_head in H.
  apply zero_padded_split in H as [ES H]; [|assumption..].
  split; [apply datetime_eq; assumption|exact H].
Qed.

(** X19: the two timestamp formats determine the clock reading: two valid
    readings that give the same stamp, in either format, are the same
    second. *)
Theorem stamps_tell_seconds_apart dt1 dt2 :
  valid_datetime dt1 -> valid_datetime dt2 ->
  (strftime dt1 Backup.date_format = strftime dt2 Backup.date_format -> dt1 = dt2)
  /\ (strftime dt1 BackupMulti.date_format = strftime dt2 BackupMulti.date_format
      -> dt1 = dt2).
Proof.
  intros H1 H2. split; intros H%(f_equal letters).
  - apply (basic_stamp_split dt1 dt2 [] [] H1 H2). rewrite !app_nil_r. exact H.
  - apply (multi_stamp_split dt1 dt2 [] [] H1 H2). rewrite !app_nil_r. exact H.
Qed.

Lemma sample_now_valid : valid_datetime sample_now.
Proof.
  unfold valid_datetime, sample_now. simpl.
  repeat split; lia.
Qed.

Lemma stamps_tell_seconds_apart_witness :
  (strftime sample_now Backup.date_format = strftime sample_now Backup.date_format
   -> sample_now = sample_now)
  /\ (strftime sample_now BackupMulti.date_format
      = strftime sample_now BackupMulti.date_format -> sample_now = sample_now).
Proof.
  apply (stamps_tell_seconds_apart sample_now sample_now);
    apply sample_now_valid.
Defined.

(** X20: documents of runs started in different seconds never share a key:
    two backup keys, or two summary keys, built from valid clock readings are
    equal only if the readings are the same second (and then the names, and
    in the collision-aware layout the ids, are equal too); and a summary key
    is never a backup key, whatever the seconds. *)
Theorem keys_of_runs_apart dt1 dt2 z1 z2 name1 name2 :
  valid_datetime dt1 -> valid_datetime dt2 ->
  (Backup.backup_file_key (strftime dt1 Backup.date_format) z1
   = Backup.backup_file_key (strftime dt2 Backup.date_format) z2 ->
   dt1 = dt2 /\ zone_name z1 = zone_name z2)
  /\ (BackupMulti.backup_file_key (strftime dt1 BackupMulti.date_format) z1
      = BackupMulti.backup_file_key (strftime dt2 BackupMulti.date_format) z2 ->
      dt1 = dt2 /\ zone_name z1 = zone_name z2 /\ zone_id z1 = zone_id z2)
  /\ (BackupMulti.summary_file_key (strftime dt1 BackupMulti.date_format) name1
      = BackupMulti.summary_file_key (strftime dt2 BackupMulti.date_format) name2 ->
      dt1 = dt2 /\ name1 = name2)
  /\ BackupMulti.summary_file_key (strftime dt1 BackupMulti.date_format) name1
     <> BackupMulti.backup_file_key (strftime dt2 BackupMulti.date_format) z2.
Proof.
  intros H1 H2. split; [|split; [|split]].
  - intros H. pose proof H as Hk. apply (f_equal letters) in H.
    unfold Backup.backup_file_key in H. rewrite !letters_app in H.
    apply basic_stamp_split in H as [-> _]; [|assumption..].
    split; [reflexivity|]. apply basic_key_eq in Hk. exact Hk.
  - intros H. pose proof H as Hk. apply (f_equal letters) in H.
    unfold BackupMulti.backup_file_key in H. rewrite !letters_app in H.
    apply multi_stamp_split in H as [-> _]; [|assumption..].
    split; [reflexivity|]. apply multi_key_inj in Hk. exact Hk.
  - intros H. pose proof H as Hk. apply (f_equal letters) in H.
    unfold BackupMulti.summary_file_key in H. rewrite !letters_app in H.
    apply multi_stamp_split in H as [-> _]; [|assumption..].
    split; [reflexivity|]. apply summary_key_inj in Hk. exact Hk.
  - intros H. pose proof H as Hk. apply (f_equal letters) in H.
    unfold BackupMulti.summary_file_key, BackupMulti.backup_file_key in H.
    rewrite !letters_app in H.
    apply multi_stamp_split in H as [-> _]; [|assumption..].
    apply summary_key_not_backup in Hk. exact Hk.
Qed.

Lemma keys_of_runs_apart_witness :
  let z := {| Id := "/hostedzone/Z1"; Name := "example.com." |} in
  (Backup.backup_file_key (strftime sample_now Backup.date_format) z
   = Backup.backup_file_key (strftime sample_now Backup.date_format) z ->
   sample_now = sample_now /\ zone_name z = zone_name z)
  /\ (BackupMulti.backup_file_key (strftime sample_now BackupMulti.date_format) z
      = BackupMulti.backup_file_key (strftime sample_now BackupMulti.date_format) z ->
      sample_now = sample_now /\ zone_name z = zone_name z /\ zone_id z = zone_id z)
  /\ (BackupMulti.summary_file_key (strftime sample_now BackupMulti.date_format) "a"
      = BackupMulti.summary_file_key (strftime sample_now BackupMulti.date_format) "a" ->
      sample_now = sample_now /\ "a" = "a")
  /\ BackupMulti.summary_file_key (strftime sample_now BackupMulti.date_format) "a"
     <> BackupMulti.backup_file_key (strftime sample_now BackupMulti.date_format) z.
Proof.
  intros z.
  apply (keys_of_runs_apart sample_now sample_now z z "a" "a"); apply sample_now_valid.
Defined.

(** ** Backup, then restore *)

Lemma restore_event_reads w bucket key target records kept zone_doc :
  environ w !! "BACKUP_BUCKET" = Some bucket ->
  fault_free w ->
  objects w !! (bucket, key) = Some (JsonBody zone_doc) ->
  getitem zone_doc "records" = inr (JList records) ->
  Restore.filtered_records (JList records) = inr kept ->
  let out := Restore.lambda_handler (restore_event key target) w in
  out.1 = inr (Restore.completed target)
  /\ submitted out.2 = submitted w ++ map (request target) (batches kept)
  /\ applied out.2 = applied w ++ map (request target) (batches kept).
Proof.
  intros He Hff Ho Hr Hk out. subst out.
  assert (Hreads : restore_reads (restore_event key target) w target kept).
  { exists bucket, key, zone_doc, (JList records).
    repeat split; try assumption; try reflexivity. apply Hff. }
  rewrite lambda_handler_world, lambda_handler_result.
  destruct (run_completes _ w target kept Hreads) as (w' & -> & Hs & Ha).
  { intros j _. apply Hff. }
  auto.
Qed.

(** X21: backing up with the collision-aware handler and then restoring the
    document of one of the zones into a target zone, with no failing call,
    applies to the target exactly the zone's record sets that are neither NS
    nor SOA, in their listing order, cut into batches of at most 100. *)
Theorem backup_then_restore w bucket zone target :
  environ w !! "BACKUP_BUCKET" = Some bucket ->
  fault_free w ->
  let date := strftime (now w) BackupMulti.date_format in
  (forall name, objects w !! (bucket, BackupMulti.summary_file_key date name) = None) ->
  zone ∈ HostedZones w ->
  Forall (fun r => exists t, getitem r "Type" = inr t) (all_records w zone) ->
  let backed_up := (BackupMulti.lambda_handler w).2 in
  let out := Restore.lambda_handler
               (restore_event (BackupMulti.backup_file_key date zone) target) backed_up in
  let kept := List.filter (fun r => negb (infrastructure r)) (all_records w zone) in
  out.1 = inr (Restore.completed target)
  /\ applied out.2 = applied w ++ map (request target) (batches kept)
  /\ concat (batches kept) = kept.
Proof.
  intros He Hff date Hfresh Hzone Htyped backed_up out kept.
  destruct (multi_run_ok w bucket He Hff Hfresh)
    as (cnt & w1 & Hrun & Hacc & (_ & _ & Hbak) & _).
  assert (Hw1 : backed_up = w1).
  { subst backed_up. unfold BackupMulti.lambda_handler.
    rewrite backup_handler_catches, Hrun. reflexivity. }
  destruct (backup_handlers_keep dns_untouched called_dns put_object_dns) as [_ Hdns].
  destruct (Hdns w) as [_ Happlied]. fold backed_up in Happlied.
  destruct (restore_event_reads backed_up bucket (BackupMulti.backup_file_key date zone)
              target (all_records w zone) kept
              (BackupMulti.backup_data zone (all_records w zone)))
    as (Hr & _ & Ha).
  - rewrite Hw1. destruct Hacc as (-> & _). exact He.
  - rewrite Hw1. apply (fault_free_same w); assumption.
  - rewrite Hw1. apply Hbak, Hzone.
  - reflexivity.
  - apply filtered_records_filter. exact Htyped.
  - split; [exact Hr|]. split; [rewrite <- Happlied; exact Ha|apply concat_batches].
Qed.

Lemma sample_records_typed zone :
  Forall (fun r => exists t, getitem r "Type" = inr t)
         (all_records (sample_world None sample_zones no_faults) zone).
Proof. repeat (constructor; [eexists; reflexivity|]). constructor. Qed.

Lemma backup_then_restore_witness :
  let w := sample_world None sample_zones no_faults in
  let z2 := {| Id := "/hostedzone/Z2"; Name := "example.com." |} in
  let out := Restore.lambda_handler
               (restore_event "2024-03-07_09:05:00/example.com/Z2/route53_backup.json" "Z9")
               (BackupMulti.lambda_handler w).2 in
  let kept := [sample_record "A" "www.example.com."; sample_record "CNAME" "m.example.com."] in
  out.1 = inr (Restore.completed "Z9")
  /\ applied out.2 = applied w ++ map (request "Z9") (batches kept)
  /\ concat (batches kept) = kept.
Proof.
  intros w z2.
  apply (backup_then_restore w "dns-backups" z2 "Z9" eq_refl (fun _ => eq_refl)
           (fun _ => eq_refl)).
  - right. left.
  - apply sample_records_typed.
Defined.

Lemma basic_last_zone_stored w bucket before zone after :
  environ w !! "BACKUP_BUCKET" = Some bucket ->
  fault_free w ->
  HostedZones w = before ++ zone :: after ->
  zone_name zone ∉ map zone_name after ->
  let date := strftime (now w) Backup.date_format in
  objects (Backup.lambda_handler w).2 !! (bucket, Backup.backup_file_key date zone)
  = Some (JsonBody (Backup.backup_data zone (all_records w zone))).
Proof.
  intros He Hff Hzones Hlast date.
  destruct (basic_run_ok w bucket He Hff) as (w' & Hrun & _ & Ho & _).
  unfold Backup.lambda_handler. rewrite backup_handler_catches, Hrun. simpl.
  fold date in Ho. rewrite Ho, Hzones, foldl_app. simpl.
  rewrite (foldl_insert_other
             (fun z => (bucket, Backup.backup_file_key date z))
             (fun z => JsonBody (Backup.backup_data z (all_records w z)))).
  - apply lookup_insert_eq.
  - intros Hin. apply Hlast.
    apply list_elem_of_In, in_map_iff in Hin as (z & Hk & Hz).
    apply (f_equal snd), basic_key_eq in Hk. rewrite <- Hk.
    apply list_elem_of_In, in_map. exact Hz.
Qed.

(** X22: backing up with the basic handler and then restoring the document
    under the key of a zone, with no failing call, applies the record sets,
    neither NS nor SOA, of the last zone listed with that zone's name: for a
    name shared by several zones, the backup of any of them restores the
    last one. *)
Theorem basic_backup_then_restore w bucket before zone after target :
  environ w !! "BACKUP_BUCKET" = Some bucket ->
  fault_free w ->
  HostedZones w = before ++ zone :: after ->
  zone_name zone ∉ map zone_name after ->
  Forall (fun r => exists t, getitem r "Type" = inr t) (all_records w zone) ->
  let date := strftime (now w) Backup.date_format in
  let backed_up := (Backup.lambda_handler w).2 in
  forall earlier, zone_name earlier = zone_name zone ->
  let out := Restore.lambda_handler
               (restore_event (Backup.backup_file_key date earlier) target) backed_up in
  let kept := List.filter (fun r => negb (infrastructure r)) (all_records w zone) in
  out.1 = inr (Restore.completed target)
  /\ applied out.2 = applied w ++ map (request target) (batches kept)
  /\ concat (batches kept) = kept.
Proof.
  intros He Hff Hzones Hlast Htyped date backed_up earlier Hsame out kept.
  pose proof (basic_last_zone_stored w bucket before zone after He Hff Hzones Hlast)
    as Hstored.
  fold date backed_up in Hstored.
  assert (Hkey : Backup.backup_file_key date earlier = Backup.backup_file_key date zone)
    by (apply basic_key_eq; exact Hsame).
  destruct (basic_run_ok w bucket He Hff) as (w1 & Hrun & Hacc & _ & _).
  assert (Hw1 : backed_up = w1).
  { subst backed_up. unfold Backup.lambda_handler.
    rewrite backup_handler_catches, Hrun. reflexivity. }
  destruct (backup_handlers_keep dns_untouched called_dns put_object_dns) as [Hdns _].
  destruct (Hdns w) as [_ Happlied]. fold backed_up in Happlied.
  destruct (restore_event_reads backed_up bucket (Backup.backup_file_key date earlier)
              target (all_records w zone) kept
              (Backup.backup_data zone (all_records w zone)))
    as (Hr & _ & Ha).
  - rewrite Hw1. destruct Hacc as (-> & _). exact He.
  - rewrite Hw1. apply (fault_free_same w); assumption.
  - rewrite Hkey. exact Hstored.
  - reflexivity.
  - apply filtered_records_filter. exact Htyped.
  - split; [exact Hr|]. split; [rewrite <- Happlied; exact Ha|apply concat_batches].
Qed.

Lemma basic_backup_then_restore_witness :
  let w := sample_world None sample_zones no_faults in
  let out := Restore.lambda_handler
               (restore_event "20240307_090500/example.com/route53_backup.json" "Z9")
               (Backup.lambda_handler w).2 in
  let kept := [sample_record "A" "www.example.com."; sample_record "CNAME" "m.example.com."] in
  out.1 = inr (Restore.completed "Z9")
  /\ applied out.2 = applied w ++ map (request "Z9") (batches kept)
  /\ concat (batches kept) = kept.
Proof.
  intros w.
  apply (basic_backup_then_restore w "dns-backups"
           [{| Id := "/hostedzone/Z1"; Name := "example.com." |}]
           {| Id := "/hostedzone/Z2"; Name := "example.com." |}
           [{| Id := "/hostedzone/Z3"; Name := "other.com." |}] "Z9"
           eq_refl (fun _ => eq_refl) eq_refl)
    with (earlier := {| Id := "/hostedzone/Z1"; Name := "example.com." |}).
  - intros H. apply elem_of_cons in H as [H|H]; [discriminate|inversion H].
  - apply sample_records_typed.
  - reflexivity.
Defined.

(** ** A summary key that is not empty when the run starts *)

Lemma merged_snoc existing entries item :
  (forall raw, existing <> Some (RawBody raw)) ->
  Some (JsonBody match merged existing entries with
                 | Some (JsonBody found) => BackupMulti.appended found item
                 | _ => JList [item]
                 end)
  = merged existing (entries ++ [item]).
Proof.
  intros Hraw. destruct entries as [|e entries]; simpl.
  - destruct existing as [[found|raw]|]; [|destruct (Hraw raw eq_refl)|reflexivity].
    destruct found; reflexivity.
  - destruct existing as [[found|raw]|]; [|reflexivity..].
    destruct found; simpl; try reflexivity.
    rewrite <- app_assoc. reflexivity.
Qed.

Lemma merged_not_raw existing entries raw :
  (forall raw', existing <> Some (RawBody raw')) ->
  merged existing entries <> Some (RawBody raw).
Proof. intros Hraw. destruct entries; simpl; [apply Hraw|discriminate]. Qed.

Section multi_from.
Local Open Scope py_scope.
Variables (bucket date : string) (w0 : World).
Variable objs0 : gmap (string * string) s3_body.
Hypothesis no_raw :
  forall name raw,
    objs0 !! (bucket, BackupMulti.summary_file_key date name) <> Some (RawBody raw).

Let entry (zone : hosted_zone) : json :=
  BackupMulti.summary_data date zone (all_records w0 zone).

Lemma multi_zone_from done cnt zone w :
  fault_free w -> same_account w0 w ->
  multi_inv_from bucket date w0 objs0 done cnt (objects w) ->
  exists cnt' w',
    BackupMulti.backup_zone bucket date cnt zone w = (inr cnt', w')
    /\ same_account w0 w'
    /\ multi_inv_from bucket date w0 objs0 (done ++ [zone]) cnt' (objects w').
Proof.
  intros Hff H0 (Hcnt & Hsum & Hbak).
  destruct (fetch_records_ok zone w Hff) as (w1 & Hrun1 & Hacc1 & Ho1 & Hp1 & _).
  pose proof (fault_free_same _ _ Hacc1 Hff) as Hff1.
  rewrite (all_records_same _ _ zone H0) in Hrun1.
  set (records := all_records w0 zone) in *.
  set (bkey := BackupMulti.backup_file_key date zone).
  set (skey := BackupMulti.summary_file_key date (zone_name zone)).
  set (w2 := stored bucket bkey (BackupMulti.backup_data zone records)
               (called (requested_put bucket bkey (BackupMulti.backup_data zone records) w1))).
  assert (Hacc2 : same_account w0 w2).
  { apply (same_account_trans _ _ _ H0). exact Hacc1. }
  assert (Hff2 : fault_free w2) by exact Hff1.
  set (k := length (named (zone_name zone) done)).
  assert (Hk : BackupMulti.count_name (zone_name zone) cnt !! zone_name zone = Some (S k)).
  { rewrite count_name_lookup, decide_True by reflexivity. rewrite Hcnt. fold k.
    destruct k; f_equal; lia. }
  assert (Hcnt' : forall name,
             BackupMulti.count_name (zone_name zone) cnt !! name
             = match length (named name (done ++ [zone])) with 0 => None | n => Some n end).
  { intros name. rewrite named_snoc, length_app, count_name_lookup.
    destruct (decide (zone_name zone = name)) as [<-|Hne]; simpl.
    - rewrite Hcnt. fold k. rewrite Nat.add_1_r. destruct k; simpl; f_equal; lia.
    - rewrite Nat.add_0_r. apply Hcnt. }
  assert (Hother : forall name, name <> zone_name zone ->
             named name (done ++ [zone]) = named name done).
  { intros name Hne. rewrite named_snoc, decide_False by congruence. apply app_nil_r. }
  assert (Hbak2 : forall z, z ∈ done ++ [zone] ->
             objects w2 !! (bucket, BackupMulti.backup_file_key date z)
             = Some (JsonBody (BackupMulti.backup_data z (all_records w0 z)))).
  { intros z Hz. simpl. rewrite Ho1.
    destruct (decide (bkey = BackupMulti.backup_file_key date z)) as [He|Hne].
    - rewrite <- He, lookup_insert_eq. do 2 f_equal.
      destruct (multi_key_inj _ _ _ He) as [Hn Hi].
      unfold BackupMulti.backup_data, records, all_records. rewrite Hn, Hi. reflexivity.
    - rewrite lookup_insert_ne by congruence.
      apply elem_of_app in Hz as [Hz|Hz]; [apply Hbak, Hz|].
      apply list_elem_of_singleton in Hz. subst z. destruct Hne. reflexivity. }
  assert (Hsum2 : forall name,
             objects w2 !! (bucket, BackupMulti.summary_file_key date name)
             = merged (objs0 !! (bucket, BackupMulti.summary_file_key date name))
                 (map entry (drop 1 (named name done)))).
  { intros name. simpl. rewrite Ho1, lookup_insert_ne; [apply Hsum|].
    intros [= H]. symmetry in H. apply summary_key_not_backup in H. exact H. }
  unfold BackupMulti.backup_zone. unfold bind at 1. rewrite Hrun1.
  unfold bind at 1. rewrite put_object_ok by apply Hff1. fold bkey w2.
  unfold bind at 1. rewrite Hk. simpl lift. unfold ret at 1. cbv beta iota.
  unfold bind at 1. fold skey.
  destruct (1 <? S k) eqn:Hlt.
  - rewrite write_summary_ok; [|exact Hff2|].
    2:{ intros raw. unfold skey. rewrite Hsum2. apply merged_not_raw, no_raw. }
    eexists _, _. split; [reflexivity|]. split; [exact Hacc2|].
    split; [exact Hcnt'|]. split.
    + intros name. simpl objects.
      destruct (decide (name = zone_name zone)) as [->|Hne].
      * fold skey. rewrite lookup_insert_eq.
        change (objects (called w2)) with (objects w2).
        unfold skey at 1. rewrite Hsum2.
        rewrite named_snoc, decide_True by reflexivity.
        apply Nat.ltb_lt in Hlt.
        destruct (named (zone_name zone) done) as [|z1 later] eqn:Hnamed;
          [subst k; try rewrite Hnamed in Hlt; simpl in Hlt; lia|].
        change (drop 1 ((z1 :: later) ++ [zone])) with (later ++ [zone]).
        change (drop 1 (z1 :: later)) with later. rewrite map_app.
        exact (merged_snoc _ _ _ (no_raw _)).
      * rewrite lookup_insert_ne.
        -- change (objects (called w2)) with (objects w2).
           rewrite Hsum2, (Hother name Hne). reflexivity.
        -- intros [= H]. apply summary_key_inj in H. congruence.
    + intros z Hz. simpl objects. rewrite lookup_insert_ne.
      * apply Hbak2, Hz.
      * intros [= H]. apply summary_key_not_backup in H. exact H.
  - eexists _, _. unfold ret. split; [reflexivity|]. split; [exact Hacc2|].
    split; [exact Hcnt'|]. split; [|exact Hbak2].
    intros name. rewrite Hsum2.
    destruct (decide (name = zone_name zone)) as [->|Hne]; [|rewrite (Hother name Hne); reflexivity].
    rewrite named_snoc, decide_True by reflexivity.
    apply Nat.ltb_ge in Hlt.
    assert (Hnil : named (zone_name zone) done = []) by (apply nil_length_inv; fold k; lia).
    rewrite Hnil. reflexivity.
Qed.

Lemma multi_zones_from zones :
  forall done cnt w,
    fault_free w -> same_account w0 w ->
    multi_inv_from bucket date w0 objs0 done cnt (objects w) ->
    exists cnt' w',
      for_fold zones cnt (BackupMulti.backup_zone bucket date) w = (inr cnt', w')
      /\ same_account w0 w'
      /\ multi_inv_from bucket date w0 objs0 (done ++ zones) cnt' (objects w').
Proof.
  induction zones as [|zone zones IH]; intros done cnt w Hff H0 Hinv.
  - exists cnt, w. simpl. rewrite !app_nil_r. auto.
  - destruct (multi_zone_from done cnt zone w Hff H0 Hinv)
      as (cnt1 & w1 & Hrun1 & Hacc1 & Hinv1).
    destruct (IH (done ++ [zone]) cnt1 w1) as (cnt' & w' & Hrun' & Hacc' & Hinv').
    { apply (fault_free_same w0); [exact Hacc1|].
      intros i. destruct H0 as (_&_&_&_&Hf). rewrite <- Hf. apply Hff. }
    { exact Hacc1. }
    { exact Hinv1. }
    exists cnt', w'. cbn [for_fold]. unfold bind. rewrite Hrun1, Hrun'.
    split; [reflexivity|]. split; [exact Hacc'|].
    rewrite <- app_assoc in Hinv'. exact Hinv'.
Qed.

End multi_from.

(** X23: in a collision-aware run that meets no failure, a summary key that
    already holds JSON is merged into, not replaced: for a name with zones
    after its first, the entries of those zones are appended, in listing
    order, to the list the key held (or put after the single value it held);
    the key of a name with one zone keeps what it held.  The run completes as
    long as no summary key holds a body that is not JSON. *)
Theorem summary_appends_to_existing w bucket name :
  environ w !! "BACKUP_BUCKET" = Some bucket ->
  fault_free w ->
  let date := strftime (now w) BackupMulti.date_format in
  (forall other raw,
     objects w !! (bucket, BackupMulti.summary_file_key date other) <> Some (RawBody raw)) ->
  let out := BackupMulti.lambda_handler w in
  let key := (bucket, BackupMulti.summary_file_key date name) in
  let entries :=
    map (fun zone => BackupMulti.summary_data date zone (all_records w zone))
        (drop 1 (named name (HostedZones w))) in
  out.1 = inr (BackupMulti.completed bucket date (HostedZones w))
  /\ objects out.2 !! key = merged (objects w !! key) entries
  /\ (forall l, objects w !! key = Some (JsonBody (JList l)) ->
                objects out.2 !! key = Some (JsonBody (JList (l ++ entries))))
  /\ (forall d, objects w !! key = Some (JsonBody (JDict d)) -> entries <> [] ->
                objects out.2 !! key = Some (JsonBody (JList (JDict d :: entries)))).
Proof.
  intros He Hff date Hraw out key entries.
  destruct (multi_zones_from bucket date w (objects w) Hraw (HostedZones w) [] ∅ (called w))
    as (cnt & w' & Hrun & Hacc & (_ & Hsum & _)).
  { exact Hff. }
  { auto with account. }
  { split; [intros n; apply lookup_empty|]. split; [reflexivity|].
    intros zone Hz. inversion Hz. }
  assert (Hr : BackupMulti.run w
               = (inr (BackupMulti.completed bucket date (HostedZones w)), w')).
  { unfold BackupMulti.run, bind at 1, os_environ. rewrite He.
    unfold bind at 1, list_hosted_zones, service. rewrite (Hff (calls w)).
    unfold bind at 1, datetime_now. simpl now. fold date.
    change (HostedZones (called w)) with (HostedZones w).
    unfold bind at 1. rewrite Hrun. reflexivity. }
  assert (Hout : out = (inr (BackupMulti.completed bucket date (HostedZones w)), w')).
  { subst out. unfold BackupMulti.lambda_handler.
    rewrite backup_handler_catches, Hr. reflexivity. }
  rewrite Hout. simpl. specialize (Hsum name). simpl in Hsum. fold key entries in Hsum.
  split; [reflexivity|]. split; [exact Hsum|]. split.
  - intros l Hl. rewrite Hsum, Hl. destruct entries; simpl; [rewrite app_nil_r|]; reflexivity.
  - intros d Hd Hne. rewrite Hsum, Hd. destruct entries; [congruence|reflexivity].
Qed.

Lemma sample_summary_is_json other raw :
  objects sample_world_with_summary
    !! ("dns-backups",
        BackupMulti.summary_file_key
          (strftime (now sample_world_with_summary) BackupMulti.date_format) other)
  <> Some (RawBody raw).
Proof.
  unfold sample_world_with_summary, with_object. cbn [objects].
  set (key := (_, BackupMulti.summary_file_key _ other)).
  destruct (decide (("dns-backups", "2024-03-07_09:05:00/example.com/zone_summary.json")
                    = key)) as [<-|Hne].
  - rewrite lookup_insert_eq. discriminate.
  - rewrite lookup_insert_ne by exact Hne. discriminate.
Qed.

Lemma summary_appends_to_existing_witness :
  let z2 := {| Id := "/hostedzone/Z2"; Name := "example.com." |} in
  objects (BackupMulti.lambda_handler sample_world_with_summary).2
    !! ("dns-backups", "2024-03-07_09:05:00/example.com/zone_summary.json")
  = Some (JsonBody (JList [JDict [("zone_id", JString "Z0")];
                           BackupMulti.summary_data "2024-03-07_09:05:00" z2
                             sample_records])).
Proof.
  intros z2.
  pose proof (summary_appends_to_existing sample_world_with_summary "dns-backups"
                "example.com" eq_refl (fun _ => eq_refl) sample_summary_is_json)
    as (_ & _ & H & _).
  apply (H [JDict [("zone_id", JString "Z0")]]). reflexivity.
Defined.

(** ** A summary that is not JSON, and the results of complete runs *)

Lemma multi_run_ends_in_zone w0 bucket before zone after cnt w1 e w2 :
  environ w0 !! "BACKUP_BUCKET" = Some bucket ->
  faults w0 (calls w0) = None ->
  HostedZones w0 = before ++ zone :: after ->
  let date := strftime (now w0) BackupMulti.date_format in
  for_fold before ∅ (BackupMulti.backup_zone bucket date) (called w0) = (inr cnt, w1) ->
  BackupMulti.backup_zone bucket date cnt zone w1 = (inl e, w2) ->
  BackupMulti.lambda_handler w0 = (inr (backup_failed e), w2).
Proof.
  intros He Hf Hz date Hbefore Hzone.
  unfold BackupMulti.lambda_handler. rewrite backup_handler_catches.
  assert (Hrun : BackupMulti.run w0 = (inl e, w2)).
  { unfold BackupMulti.run, bind at 1, os_environ. rewrite He.
    unfold bind at 1, list_hosted_zones, service. rewrite Hf.
    unfold bind at 1, datetime_now. simpl now. fold date.
    change (HostedZones (called w0)) with (HostedZones w0). rewrite Hz.
    unfold bind at 1. rewrite for_fold_app, Hbefore.
    cbn [for_fold]. unfold bind at 1. rewrite Hzone. reflexivity. }
  rewrite Hrun. reflexivity.
Qed.

(** X24: a summary key that holds bytes that are not JSON is not treated as
    missing: the decoding error is not a [ClientError], so it leaves the
    inner [try], no summary is written, and a run that meets it at a later
    zone of a name ends there with the 500 result, after the write of that
    zone's backup document and before any zone listed after it. *)
Theorem summary_not_json_stops_run w0 bucket before zone after cnt w1 raw n :
  environ w0 !! "BACKUP_BUCKET" = Some bucket ->
  faults w0 (calls w0) = None ->
  HostedZones w0 = before ++ zone :: after ->
  let date := strftime (now w0) BackupMulti.date_format in
  let key := BackupMulti.summary_file_key date (zone_name zone) in
  for_fold before ∅ (BackupMulti.backup_zone bucket date) (called w0) = (inr cnt, w1) ->
  fault_free w1 ->
  objects w1 !! (bucket, key) = Some (RawBody raw) ->
  BackupMulti.count_name (zone_name zone) cnt !! zone_name zone = Some n ->
  1 < n ->
  let e := ValueError "Expecting value" in
  let document := (bucket, BackupMulti.backup_file_key date zone,
                   BackupMulti.backup_data zone (all_records w1 zone)) in
  (BackupMulti.lambda_handler w0).1 = inr (backup_failed e)
  /\ puts (BackupMulti.lambda_handler w0).2 = puts w1 ++ [document]
  /\ objects (BackupMulti.lambda_handler w0).2 !! (bucket, key) = Some (RawBody raw).
Proof.
  intros He Hf Hz date key Hbefore Hff1 Hraw Hn Hlt e document.
  destruct (fetch_records_ok zone w1 Hff1) as (w2 & Hfetch & Hacc & Ho & Hp & _).
  assert (Hff2 : fault_free w2) by (apply (fault_free_same w1); assumption).
  set (w3 := stored bucket (BackupMulti.backup_file_key date zone)
               (BackupMulti.backup_data zone (all_records w1 zone))
               (called (requested_put bucket (BackupMulti.backup_file_key date zone)
                          (BackupMulti.backup_data zone (all_records w1 zone)) w2))).
  assert (Hff3 : fault_free w3) by exact Hff2.
  assert (Ho3 : objects w3 !! (bucket, key) = Some (RawBody raw)).
  { unfold w3. cbn [objects stored called requested_put].
    rewrite lookup_insert_ne, Ho; [exact Hraw|].
    intros H. apply (f_equal snd) in H. cbn [snd] in H. symmetry in H.
    exact (summary_key_not_backup _ _ _ H). }
  assert (Hws : BackupMulti.write_summary bucket key
                  (BackupMulti.summary_data date zone (all_records w1 zone)) w3
                = (inl e, called w3)).
  { rewrite write_summary_cases, summary_content_cases.
    rewrite get_object_ok by apply Hff3. rewrite Ho3. reflexivity. }
  rewrite (multi_run_ends_in_zone w0 bucket before zone after cnt w1 e (called w3)
             He Hf Hz Hbefore).
  - cbn [fst snd]. split; [reflexivity|]. split; [|exact Ho3].
    unfold w3. cbn [puts stored called requested_put]. rewrite Hp. reflexivity.
  - unfold BackupMulti.backup_zone. unfold bind at 1. rewrite Hfetch.
    unfold bind at 1. rewrite put_object_ok by apply Hff2. fold w3.
    unfold bind at 1. rewrite Hn. cbn [lift from_option]. unfold ret at 1.
    cbv beta iota.
    unfold bind at 1. apply Nat.ltb_lt in Hlt. rewrite Hlt.
    subst w3 key date. rewrite Hws. reflexivity.
Qed.

Lemma summary_not_json_stops_run_witness :
  let out := BackupMulti.lambda_handler sample_world_with_bytes in
  out.1 = inr (backup_failed (ValueError "Expecting value"))
  /\ length (puts out.2) = 2.
Proof.
  set (z1 := {| Id := "/hostedzone/Z1"; Name := "example.com." |}).
  set (z2 := {| Id := "/hostedzone/Z2"; Name := "example.com." |}).
  set (z3 := {| Id := "/hostedzone/Z3"; Name := "other.com." |}).
  set (loop := for_fold [z1] ∅
                 (BackupMulti.backup_zone "dns-backups" "2024-03-07_09:05:00")
                 (called sample_world_with_bytes)).
  pose proof (summary_not_json_stops_run sample_world_with_bytes "dns-backups"
                [z1] z2 [z3] {[ "example.com" := 1 ]} loop.2 "not json" 2
                eq_refl eq_refl eq_refl) as H.
  simpl in H. destruct H as (Hr & Hp & _).
  - vm_compute. reflexivity.
  - intros i. reflexivity.
  - vm_compute. reflexivity.
  - vm_compute. reflexivity.
  - lia.
  - intros out. split; [exact Hr|]. subst out. rewrite Hp. vm_compute. reflexivity.
Defined.

Example summary_not_json :
  let out := BackupMulti.lambda_handler sample_world_with_bytes in
  out.1 = inr (backup_failed (ValueError "Expecting value"))
  /\ map fst (puts out.2)
     = [("dns-backups", "2024-03-07_09:05:00/example.com/Z1/route53_backup.json");
        ("dns-backups", "2024-03-07_09:05:00/example.com/Z2/route53_backup.json")].
Proof. vm_compute. auto. Qed.

(** X25: a backup run in which no call fails returns the 200 result with the
    bucket and the run's timestamp; the collision-aware handler, as long as
    no summary key holds a body that is not JSON, also lists every zone as
    [<zone_name> (ID: <zone_id>)] in listing order. *)
Theorem backup_success_result w bucket :
  environ w !! "BACKUP_BUCKET" = Some bucket ->
  fault_free w ->
  (forall other raw,
     objects w !! (bucket, BackupMulti.summary_file_key
                             (strftime (now w) BackupMulti.date_format) other)
     <> Some (RawBody raw)) ->
  (Backup.lambda_handler w).1
  = inr {| statusCode := 200;
           body := [("message", JString "Backup operation completed");
                    ("backup_bucket", JString bucket);
                    ("date", JString (strftime (now w) Backup.date_format))] |}
  /\ (BackupMulti.lambda_handler w).1
     = inr {| statusCode := 200;
              body := [("message", JString "Backup operation completed");
                       ("backup_bucket", JString bucket);
                       ("date", JString (strftime (now w) BackupMulti.date_format));
                       ("zones_backed_up",
                        JList (map (fun zone =>
                                      JString (zone_name zone +:+ " (ID: "
                                               +:+ zone_id zone +:+ ")"))
                                   (HostedZones w)))] |}.
Proof.
  intros He Hff Hraw. split.
  - destruct (basic_run_ok w bucket He Hff) as (w' & Hrun & _).
    unfold Backup.lambda_handler. rewrite backup_handler_catches, Hrun. reflexivity.
  - destruct (multi_zones_from bucket (strftime (now w) BackupMulti.date_format) w
                (objects w) Hraw (HostedZones w) [] ∅ (called w))
      as (cnt & w' & Hrun & _).
    { exact Hff. }
    { auto with account. }
    { split; [intros n; apply lookup_empty|]. split; [reflexivity|].
      intros zone Hz. inversion Hz. }
    unfold BackupMulti.lambda_handler. rewrite backup_handler_catches.
    unfold BackupMulti.run, bind at 1, os_environ. rewrite He.
    unfold bind at 1, list_hosted_zones, service. rewrite (Hff (calls w)).
    unfold bind at 1, datetime_now. simpl now.
    change (HostedZones (called w)) with (HostedZones w).
    unfold bind at 1. rewrite Hrun. reflexivity.
Qed.

Lemma backup_success_result_witness :
  (Backup.lambda_handler sample_world_with_summary).1
  = inr (Backup.completed "dns-backups" "20240307_090500")
  /\ (BackupMulti.lambda_handler sample_world_with_summary).1
     = inr (BackupMulti.completed "dns-backups" "2024-03-07_09:05:00" sample_zones).
Proof.
  apply (backup_success_result sample_world_with_summary "dns-backups" eq_refl
           (fun _ => eq_refl) sample_summary_is_json).
Defined.
